(** * RAGBot backend: message pipeline, conversation store and history routes

    A shallow embedding of the Python sources

      - [app/models/chat.py]                       (Message, Conversation,
                                                    ChatRequest)
      - [app/services/memory_service.py]           (MemoryService and its two
                                                    storage backends)
      - [app/services/vector_memory_service.py]    (VectorMemoryService.query)
      - [app/utils/prompts.py]                     (PromptManager.get_error_message)
      - [app/services/ai_providers]                (the requests the providers
                                                    build)
      - [app/services/ai_service.py]               (AIService)
      - [app/services/research_service.py]         (ResearchService)
      - [app/services/message_handler_service.py]  (MessageHandlerService)
      - [app/api/routes/chat.py]                   (message, history, listing,
                                                    export, delete and clear
                                                    routes)

    Python exceptions are values of [exn]; a computation that can raise
    returns a [result].  Code that touches the conversation store, the
    provider registry, the clock, the uuid source or the logger is written in
    the monad [M] over the record [World]; what the external collaborators
    (file system, Redis, ChromaDB, the model provider, Celery) answer is read
    from the record [Env].

    The functions are modelled as they run once their modules are loaded:
    what a function body reads is resolved in the scope the source gives it,
    while the loading of the modules themselves (imports, class bodies,
    default arguments) is not part of the model. *)

From Stdlib Require Import ZArith Lia String Ascii.
From Stdlib Require Import DecimalString DecimalZ DecimalNat DecimalPos.
From stdpp Require Import gmap strings list sorting.

Open Scope Z_scope.

(** ** Exceptions and results *)

Inductive exn : Type :=
  | ChatBotException (message code : string)
  | MemoryServiceException (message original_error : string)
  | AIServiceException (message original_error : string)
  | HTTPException (status_code : Z) (detail : string)
  | ValidationError (what : string)
  | NameError (name : string)
  | ValueError (what : string)
  | RuntimeError (what : string)
  | IndexError (what : string)
  | ExternalError (what : string).

(** [str(e)] as the handlers use it for their [original_error] detail. *)
Definition exn_str (e : exn) : string :=
  match e with
  | ChatBotException m _ => m
  | MemoryServiceException m _ => m
  | AIServiceException m _ => m
  | HTTPException _ d => d
  | ValidationError s => s
  | NameError n => n
  | ValueError s => s
  | RuntimeError s => s
  | IndexError s => s
  | ExternalError s => s
  end.

(** [isinstance(e, ChatBotException)]: the application's own hierarchy of
    [core/exceptions.py]. *)
Definition is_ChatBotException (e : exn) : bool :=
  match e with
  | ChatBotException _ _ | MemoryServiceException _ _ | AIServiceException _ _ => true
  | _ => false
  end.

Definition is_MemoryServiceException (e : exn) : bool :=
  match e with MemoryServiceException _ _ => true | _ => false end.

Inductive result (A : Type) : Type :=
  | Ok (a : A)
  | Raise (e : exn).
Arguments Ok {A} a.
Arguments Raise {A} e.

Definition is_Ok {A} (r : result A) : bool :=
  match r with Ok _ => true | Raise _ => false end.

(** ** Python sequence and string primitives *)

(** A slice bound [i] of a sequence of length [n]: negative bounds count from
    the end, and every bound is clamped into [0..n]. *)
Definition py_index (n i : Z) : Z :=
  if i <? 0 then Z.max (i + n) 0 else Z.min i n.

(** [l[start:stop]] with step 1; [None] is an omitted bound. *)
Definition py_slice {A} (l : list A) (start stop : option Z) : list A :=
  let n := Z.of_nat (length l) in
  let lo := from_option (py_index n) 0 start in
  let hi := from_option (py_index n) n stop in
  take (Z.to_nat (hi - lo)) (drop (Z.to_nat lo) l).

Definition py_len {A} (l : list A) : Z := Z.of_nat (length l).

Definition nl : string := String (ascii_of_nat 10) EmptyString.

(** [sep.join(parts)]. *)
Fixpoint str_join (sep : string) (parts : list string) : string :=
  match parts with
  | [] => EmptyString
  | [p] => p
  | p :: rest => p +:+ sep +:+ str_join sep rest
  end.

(** [str.isspace] on one character; a character stands for a code point below
    256. *)
Definition is_space (c : ascii) : bool :=
  let n := nat_of_ascii c in
  ((9 <=? n) && (n <=? 13) || (28 <=? n) && (n <=? 32)
   || (n =? 133) || (n =? 160))%nat.

Fixpoint lstrip (s : string) : string :=
  match s with
  | String c s' => if is_space c then lstrip s' else s
  | EmptyString => EmptyString
  end.

Fixpoint rstrip (s : string) : string :=
  match s with
  | String c s' =>
      match rstrip s' with
      | EmptyString => if is_space c then EmptyString else String c EmptyString
      | t => String c t
      end
  | EmptyString => EmptyString
  end.

(** [s.strip()]. *)
Definition str_strip (s : string) : string := rstrip (lstrip s).

Definition str_is_empty (s : string) : bool :=
  match s with EmptyString => true | _ => false end.

Definition str_len (s : string) : Z := Z.of_nat (String.length s).

(** [s.replace(old, new)] for a non-empty [old]: the occurrences of [old]
    are found from left to right and do not overlap.  [skip] counts the
    characters of a found occurrence that are still to be passed over. *)
Fixpoint replace_from (old new : string) (skip : nat) (s : string) : string :=
  match s with
  | EmptyString => EmptyString
  | String c s' =>
      match skip with
      | S k => replace_from old new k s'
      | O =>
          if String.prefix old s
          then new +:+ replace_from old new (String.length old - 1) s'
          else String c (replace_from old new 0 s')
      end
  end.

Definition str_replace (old new s : string) : string := replace_from old new 0 s.

(** ** JSON values, as pydantic reads and writes them *)

#[local] Unset Elimination Schemes.
Inductive json : Type :=
  | JNull
  | JBool (b : bool)
  | JNum (n : Z)
  | JStr (s : string)
  | JArr (items : list json)
  | JObj (fields : list (string * json)).
#[local] Set Elimination Schemes.

(** ** app/models/chat.py *)

Inductive Role : Type := user | assistant | system.

Definition datetime := nat.

Record Message : Type := mkMessage {
  msg_id : string;
  content : string;
  role : Role;
  timestamp : datetime;
  metadata : option (list (string * json));
  session_id : option string
}.

Definition set_session_id (m : Message) (sid : option string) : Message :=
  mkMessage (msg_id m) (content m) (role m) (timestamp m) (metadata m) sid.

Definition set_content (m : Message) (c : string) : Message :=
  mkMessage (msg_id m) c (role m) (timestamp m) (metadata m) (session_id m).

(** The [content] field: [Field(..., min_length=1, max_length=4000)] is
    checked on the raw text, then [validate_content] rejects blank text and
    returns the stripped text. *)
Definition validate_content (v : string) : result string :=
  if (str_len v <? 1) || (4000 <? str_len v)
  then Raise (ValidationError "content length")
  else if str_is_empty v || str_is_empty (str_strip v)
  then Raise (ValidationError "Message content cannot be empty")
  else Ok (str_strip v).

Record Conversation : Type := mkConversation {
  conv_session_id : string;
  messages : list Message;
  created_at : datetime;
  updated_at : datetime;
  conv_metadata : list (string * json);
  title : option string
}.

Definition set_messages (c : Conversation) (ms : list Message) : Conversation :=
  mkConversation (conv_session_id c) ms (created_at c) (updated_at c)
                 (conv_metadata c) (title c).

(** [Conversation.message_count]. *)
Definition message_count (c : Conversation) : Z := py_len (messages c).

(** [Conversation.add_message(message)] at clock reading [now]. *)
Definition Conversation_add_message (c : Conversation) (m : Message) (now : datetime)
  : Conversation :=
  mkConversation (conv_session_id c)
                 (messages c ++ [set_session_id m (Some (conv_session_id c))])
                 (created_at c) now (conv_metadata c) (title c).

(** [Conversation.get_context(max_messages)]:
    [self.messages[-max_messages:] if self.messages else []]. *)
Definition Conversation_get_context (c : Conversation) (max_messages : Z) : list Message :=
  match messages c with
  | [] => []
  | _ => py_slice (messages c) (Some (- max_messages)) None
  end.

(** The fields of [ChatRequest] the message route reads. *)
Record ChatRequest : Type := mkChatRequest {
  request_message : string;
  request_session_id : option string
}.

(** The [message] field of [ChatRequest]: the same length bounds and the
    same kind of validator as [Message.content]. *)
Definition validate_message (v : string) : result string :=
  if (str_len v <? 1) || (4000 <? str_len v)
  then Raise (ValidationError "message length")
  else if str_is_empty v || str_is_empty (str_strip v)
  then Raise (ValidationError "Message cannot be empty")
  else Ok (str_strip v).

(** [ChatRequest(message=..., session_id=...)]. *)
Definition new_ChatRequest (message : string) (sid : option string) : result ChatRequest :=
  match validate_message message with
  | Ok m => Ok (mkChatRequest m sid)
  | Raise e => Raise e
  end.

(** [ChatResponse]; of its [metadata] the entry [user_message_id] is kept. *)
Record ChatResponse : Type := mkChatResponse {
  response : string;
  response_session_id : string;
  response_message_id : string;
  response_timestamp : datetime;
  response_user_message_id : string
}.

(** [ConversationSummary]. *)
Record ConversationSummary : Type := mkConversationSummary {
  summary_session_id : string;
  summary_title : option string;
  summary_message_count : Z;
  summary_created_at : datetime;
  summary_updated_at : datetime;
  last_message_preview : option string
}.

(** Every character is white space ([str.isspace] on each). *)
Definition all_space (s : string) : bool :=
  forallb is_space (list_ascii_of_string s).

(** ** JSON text, as pydantic writes and reads it *)

Definition quote_char : ascii := "034"%char.
Definition backslash_char : ascii := "092"%char.
Definition nl_char : ascii := "010"%char.

(** [n] spaces. *)
Fixpoint spaces (n : nat) : string :=
  match n with
  | O => EmptyString
  | S n' => String " " (spaces n')
  end.

(** The line break and indentation before an entry at nesting [depth];
    nothing when no [indent] is asked for. *)
Definition newline_indent (indent : option nat) (depth : nat) : string :=
  match indent with
  | None => EmptyString
  | Some k => String nl_char (spaces (k * depth))
  end.

Definition colon_sep (indent : option nat) : string :=
  match indent with
  | None => ":"
  | Some _ => ": "
  end.

Definition hex_char (n : nat) : ascii :=
  ascii_of_nat (if (n <? 10)%nat then 48 + n else 87 + n).

(** One character of a string literal. *)
Definition escape_char (c : ascii) : string :=
  let n := nat_of_ascii c in
  if (n =? 34)%nat then String backslash_char (String quote_char EmptyString)
  else if (n =? 92)%nat then String backslash_char (String backslash_char EmptyString)
  else if (n =? 8)%nat then String backslash_char "b"
  else if (n =? 12)%nat then String backslash_char "f"
  else if (n =? 10)%nat then String backslash_char "n"
  else if (n =? 13)%nat then String backslash_char "r"
  else if (n =? 9)%nat then String backslash_char "t"
  else if (n <? 32)%nat
  then String backslash_char
         (String "u" (String "0" (String "0"
            (String (hex_char (n / 16)) (String (hex_char (n mod 16)) EmptyString)))))
  else String c EmptyString.

Fixpoint escape (s : string) : string :=
  match s with
  | String c s' => escape_char c +:+ escape s'
  | EmptyString => EmptyString
  end.

Definition print_string (s : string) : string :=
  String quote_char (escape s +:+ String quote_char EmptyString).

Definition print_Z (z : Z) : string :=
  match Z.to_int z with
  | Decimal.Pos u => NilEmpty.string_of_uint u
  | Decimal.Neg u => String "-" (NilEmpty.string_of_uint u)
  end.

(** [f x1 sep f x2 sep ... f xn]. *)
Definition print_seq {A} (f : A -> string) (sep : string) : list A -> string :=
  fix go (l : list A) : string :=
    match l with
    | [] => EmptyString
    | x :: l' =>
        match l' with
        | [] => f x
        | _ :: _ => f x +:+ sep +:+ go l'
        end
    end.

(** The serializer: compact without [indent], one entry per line with it. *)
Fixpoint print_json (indent : option nat) (depth : nat) (j : json) {struct j} : string :=
  match j with
  | JNull => "null"
  | JBool b => if b then "true" else "false"
  | JNum z => print_Z z
  | JStr s => print_string s
  | JArr [] => "[]"
  | JArr items =>
      "[" +:+ newline_indent indent (S depth)
      +:+ print_seq (print_json indent (S depth))
                    ("," +:+ newline_indent indent (S depth)) items
      +:+ newline_indent indent depth +:+ "]"
  | JObj [] => "{}"
  | JObj fields =>
      "{" +:+ newline_indent indent (S depth)
      +:+ print_seq (fun kv : string * json =>
                       let (k, v) := kv in
                       print_string k +:+ colon_sep indent +:+ print_json indent (S depth) v)
                    ("," +:+ newline_indent indent (S depth)) fields
      +:+ newline_indent indent depth +:+ "}"
  end.

Definition json_ws (c : ascii) : bool :=
  Ascii.eqb c " " || Ascii.eqb c nl_char || Ascii.eqb c "009" || Ascii.eqb c "013".

Fixpoint skip_ws (s : string) : string :=
  match s with
  | String c s' => if json_ws c then skip_ws s' else s
  | EmptyString => EmptyString
  end.

Definition hex_value (c : ascii) : option nat :=
  let n := nat_of_ascii c in
  if ((48 <=? n) && (n <=? 57))%nat then Some (n - 48)%nat
  else if ((97 <=? n) && (n <=? 102))%nat then Some (n - 87)%nat
  else if ((65 <=? n) && (n <=? 70))%nat then Some (n - 55)%nat
  else None.

(** The character written as [\uXXXX]; code points from 256 on are outside
    the characters modelled. *)
Definition hex4 (h1 h2 h3 h4 : ascii) : option ascii :=
  match hex_value h1, hex_value h2, hex_value h3, hex_value h4 with
  | Some a, Some b, Some c, Some d =>
      let code := (((a * 16 + b) * 16 + c) * 16 + d)%nat in
      if (code <? 256)%nat then Some (ascii_of_nat code) else None
  | _, _, _, _ => None
  end.

Definition unescape (e : ascii) : option ascii :=
  if Ascii.eqb e quote_char then Some quote_char
  else if Ascii.eqb e backslash_char then Some backslash_char
  else if Ascii.eqb e "/" then Some "/"%char
  else if Ascii.eqb e "b" then Some "008"%char
  else if Ascii.eqb e "f" then Some "012"%char
  else if Ascii.eqb e "n" then Some nl_char
  else if Ascii.eqb e "r" then Some "013"%char
  else if Ascii.eqb e "t" then Some "009"%char
  else None.

Definition prepend (c : ascii) (r : option (string * string)) : option (string * string) :=
  match r with
  | Some (s, rest) => Some (String c s, rest)
  | None => None
  end.

(** The characters of a string literal after its opening quote, and what
    follows its closing quote. *)
Fixpoint parse_string_body (s : string) : option (string * string) :=
  match s with
  | EmptyString => None
  | String c rest =>
      if Ascii.eqb c quote_char then Some (EmptyString, rest)
      else if Ascii.eqb c backslash_char then
        match rest with
        | String e rest1 =>
            if Ascii.eqb e "u" then
              match rest1 with
              | String h1 (String h2 (String h3 (String h4 rest2))) =>
                  match hex4 h1 h2 h3 h4 with
                  | Some ch => prepend ch (parse_string_body rest2)
                  | None => None
                  end
              | _ => None
              end
            else
              match unescape e with
              | Some ch => prepend ch (parse_string_body rest1)
              | None => None
              end
        | EmptyString => None
        end
      else if (nat_of_ascii c <? 32)%nat then None
      else prepend c (parse_string_body rest)
  end.

Definition digit_cons (c : ascii) : option (Decimal.uint -> Decimal.uint) :=
  if Ascii.eqb c "0" then Some Decimal.D0
  else if Ascii.eqb c "1" then Some Decimal.D1
  else if Ascii.eqb c "2" then Some Decimal.D2
  else if Ascii.eqb c "3" then Some Decimal.D3
  else if Ascii.eqb c "4" then Some Decimal.D4
  else if Ascii.eqb c "5" then Some Decimal.D5
  else if Ascii.eqb c "6" then Some Decimal.D6
  else if Ascii.eqb c "7" then Some Decimal.D7
  else if Ascii.eqb c "8" then Some Decimal.D8
  else if Ascii.eqb c "9" then Some Decimal.D9
  else None.

(** The longest run of digits at the head of the text. *)
Fixpoint parse_digits (s : string) : Decimal.uint * string :=
  match s with
  | String c rest =>
      match digit_cons c with
      | Some d => let (u, r) := parse_digits rest in (d u, r)
      | None => (Decimal.Nil, s)
      end
  | EmptyString => (Decimal.Nil, EmptyString)
  end.

(** An integer literal. *)
Definition parse_number (s : string) : option (json * string) :=
  match s with
  | String c rest =>
      if Ascii.eqb c "-" then
        match parse_digits rest with
        | (Decimal.Nil, _) => None
        | (u, r) => Some (JNum (Z.of_int (Decimal.Neg u)), r)
        end
      else
        match parse_digits s with
        | (Decimal.Nil, _) => None
        | (u, r) => Some (JNum (Z.of_int (Decimal.Pos u)), r)
        end
  | EmptyString => None
  end.

(** The text after the prefix [word], when the text starts with it. *)
Fixpoint strip_prefix (word s : string) : option string :=
  match word with
  | EmptyString => Some s
  | String c word' =>
      match s with
      | String d s' => if Ascii.eqb c d then strip_prefix word' s' else None
      | EmptyString => None
      end
  end.

Definition expect (word : string) (s : string) (v : json) : option (json * string) :=
  match strip_prefix word s with
  | Some rest => Some (v, rest)
  | None => None
  end.

(** The parser; [fuel] bounds the number of values and entries read. *)
Fixpoint parse_value (fuel : nat) (s : string) {struct fuel} : option (json * string) :=
  match fuel with
  | O => None
  | S fuel =>
      match skip_ws s with
      | EmptyString => None
      | String c rest =>
          if Ascii.eqb c quote_char then
            match parse_string_body rest with
            | Some (str, r) => Some (JStr str, r)
            | None => None
            end
          else if Ascii.eqb c "[" then
            match skip_ws rest with
            | String c' r =>
                if Ascii.eqb c' "]" then Some (JArr [], r)
                else
                  match parse_elements fuel rest with
                  | Some (vs, r) => Some (JArr vs, r)
                  | None => None
                  end
            | EmptyString => None
            end
          else if Ascii.eqb c "{" then
            match skip_ws rest with
            | String c' r =>
                if Ascii.eqb c' "}" then Some (JObj [], r)
                else
                  match parse_members fuel rest with
                  | Some (ms, r) => Some (JObj ms, r)
                  | None => None
                  end
            | EmptyString => None
            end
          else if Ascii.eqb c "n" then expect "ull" rest JNull
          else if Ascii.eqb c "t" then expect "rue" rest (JBool true)
          else if Ascii.eqb c "f" then expect "alse" rest (JBool false)
          else parse_number (String c rest)
      end
  end
with parse_elements (fuel : nat) (s : string) {struct fuel}
  : option (list json * string) :=
  match fuel with
  | O => None
  | S fuel =>
      match parse_value fuel s with
      | Some (v, r) =>
          match skip_ws r with
          | String c r' =>
              if Ascii.eqb c "," then
                match parse_elements fuel r' with
                | Some (vs, r'') => Some (v :: vs, r'')
                | None => None
                end
              else if Ascii.eqb c "]" then Some ([v], r')
              else None
          | EmptyString => None
          end
      | None => None
      end
  end
with parse_members (fuel : nat) (s : string) {struct fuel}
  : option (list (string * json) * string) :=
  match fuel with
  | O => None
  | S fuel =>
      match skip_ws s with
      | String q r0 =>
          if Ascii.eqb q quote_char then
            match parse_string_body r0 with
            | Some (k, r1) =>
                match skip_ws r1 with
                | String c1 r2 =>
                    if Ascii.eqb c1 ":" then
                      match parse_value fuel r2 with
                      | Some (v, r3) =>
                          match skip_ws r3 with
                          | String c r4 =>
                              if Ascii.eqb c "," then
                                match parse_members fuel r4 with
                                | Some (ms, r5) => Some ((k, v) :: ms, r5)
                                | None => None
                                end
                              else if Ascii.eqb c "}" then Some ([(k, v)], r4)
                              else None
                          | EmptyString => None
                          end
                      | None => None
                      end
                    else None
                | EmptyString => None
                end
            | None => None
            end
          else None
      | EmptyString => None
      end
  end.

(** A whole JSON document. *)
Definition parse_json (text : string) : option json :=
  match parse_value (S (String.length text)) text with
  | Some (j, rest) => if str_is_empty (skip_ws rest) then Some j else None
  | None => None
  end.


(** The number of values and entries of a JSON value. *)
Fixpoint json_size (j : json) : nat :=
  match j with
  | JArr items => S (list_sum (map (fun x => S (json_size x)) items))
  | JObj fields => S (list_sum (map (fun kv : string * json => S (json_size (snd kv))) fields))
  | _ => 1
  end.

(** A dedicated induction principle: the entries of arrays and objects
    satisfy the property. *)
Fixpoint json_induction (P : json -> Prop)
    (Hnull : P JNull) (Hbool : forall b, P (JBool b)) (Hnum : forall n, P (JNum n))
    (Hstr : forall s, P (JStr s))
    (Harr : forall items, Forall P items -> P (JArr items))
    (Hobj : forall fields, Forall (fun kv => P (snd kv)) fields -> P (JObj fields))
    (j : json) {struct j} : P j :=
  match j with
  | JNull => Hnull
  | JBool b => Hbool b
  | JNum n => Hnum n
  | JStr s => Hstr s
  | JArr items =>
      Harr items
        ((fix go (l : list json) : Forall P l :=
            match l with
            | [] => @List.Forall_nil _ P
            | x :: l' =>
                @List.Forall_cons _ P x l' (json_induction P Hnull Hbool Hnum Hstr Harr Hobj x) (go l')
            end) items)
  | JObj fields =>
      Hobj fields
        ((fix go (l : list (string * json)) : Forall (fun kv => P (snd kv)) l :=
            match l with
            | [] => @List.Forall_nil _ _
            | kv :: l' =>
                @List.Forall_cons _ _ kv l'
                  (json_induction P Hnull Hbool Hnum Hstr Harr Hobj (snd kv)) (go l')
            end) fields)
  end.

(** Text made of JSON whitespace only. *)
Fixpoint all_ws (s : string) : bool :=
  match s with
  | String c s' => json_ws c && all_ws s'
  | EmptyString => true
  end.

(** The text does not go on with a digit. *)
Definition no_digit_ahead (s : string) : Prop :=
  match s with
  | String c _ => digit_cons c = None
  | EmptyString => True
  end.

(** The text starts with a character that opens a value. *)
Definition value_head (s : string) : Prop :=
  match s with
  | String c _ =>
      json_ws c = false /\ Ascii.eqb c "]" = false /\ Ascii.eqb c "}" = false
  | EmptyString => False
  end.

(** Parsing the text of [j], whatever follows it, gives [j] back. *)
Definition round_trips (j : json) : Prop :=
  forall ind d fuel rest,
    (json_size j <= fuel)%nat -> no_digit_ahead rest ->
    parse_value fuel (print_json ind d j +:+ rest) = Some (j, rest).

(** The text of one object entry. *)
Definition print_member (indent : option nat) (depth : nat) (kv : string * json) : string :=
  let (k, v) := kv in
  print_string k +:+ colon_sep indent +:+ print_json indent depth v.

(** ** pydantic: dumping and validating the models *)

Definition result_bind {A B} (r : result A) (k : A -> result B) : result B :=
  match r with
  | Ok a => k a
  | Raise e => Raise e
  end.

Fixpoint result_map {A B} (f : A -> result B) (l : list A) : result (list B) :=
  match l with
  | [] => Ok []
  | x :: l' =>
      result_bind (f x) (fun y => result_bind (result_map f l') (fun ys => Ok (y :: ys)))
  end.

(** The value of a key of a JSON object; of two entries with one key the
    later one counts. *)
Fixpoint json_get (key : string) (fields : list (string * json)) : option json :=
  match fields with
  | [] => None
  | (k, v) :: rest =>
      match json_get key rest with
      | Some later => Some later
      | None => if String.eqb k key then Some v else None
      end
  end.

Definition role_name (r : Role) : string :=
  match r with
  | user => "user"
  | assistant => "assistant"
  | system => "system"
  end.

Definition role_of_name (s : string) : option Role :=
  if String.eqb s "user" then Some user
  else if String.eqb s "assistant" then Some assistant
  else if String.eqb s "system" then Some system
  else None.

(** A clock reading is written as its decimal numeral, which stands for the
    ISO 8601 text of the datetime. *)
Definition isoformat (t : datetime) : string :=
  NilEmpty.string_of_uint (Nat.to_uint t).

Definition fromisoformat (s : string) : option datetime :=
  match NilEmpty.uint_of_string s with
  | Some Decimal.Nil => None
  | Some u => Some (Nat.of_uint u)
  | None => None
  end.

Definition json_of_option_str (o : option string) : json :=
  match o with
  | Some s => JStr s
  | None => JNull
  end.

(** [Message.model_dump(mode="json")]: the fields in declaration order. *)
Definition Message_dump (m : Message) : json :=
  JObj [("id", JStr (msg_id m));
        ("content", JStr (content m));
        ("role", JStr (role_name (role m)));
        ("timestamp", JStr (isoformat (timestamp m)));
        ("metadata", match metadata m with Some o => JObj o | None => JNull end);
        ("session_id", json_of_option_str (session_id m))].

Definition Conversation_dump (c : Conversation) : json :=
  JObj [("session_id", JStr (conv_session_id c));
        ("messages", JArr (map Message_dump (messages c)));
        ("created_at", JStr (isoformat (created_at c)));
        ("updated_at", JStr (isoformat (updated_at c)));
        ("metadata", JObj (conv_metadata c));
        ("title", json_of_option_str (title c))].

Definition field_str (what : string) (dflt : option string) (v : option json)
  : result string :=
  match v, dflt with
  | Some (JStr s), _ => Ok s
  | None, Some d => Ok d
  | _, _ => Raise (ValidationError what)
  end.

Definition field_optional_str (what : string) (v : option json) : result (option string) :=
  match v with
  | Some (JStr s) => Ok (Some s)
  | Some JNull | None => Ok None
  | Some _ => Raise (ValidationError what)
  end.

Definition field_datetime (what : string) (dflt : datetime) (v : option json)
  : result datetime :=
  match v with
  | Some (JStr s) =>
      match fromisoformat s with
      | Some t => Ok t
      | None => Raise (ValidationError what)
      end
  | None => Ok dflt
  | Some _ => Raise (ValidationError what)
  end.

(** [Message.model_validate]; [fresh] holds what the default factories of
    [id] and [timestamp] supply for an absent field. *)
Definition Message_validate (fresh : string * datetime) (j : json) : result Message :=
  match j with
  | JObj fields =>
      result_bind (field_str "id" (Some (fst fresh)) (json_get "id" fields)) (fun i =>
      result_bind (field_str "content" None (json_get "content" fields)) (fun raw =>
      result_bind (validate_content raw) (fun c =>
      result_bind (field_str "role" None (json_get "role" fields)) (fun rn =>
      result_bind (match role_of_name rn with
                   | Some r => Ok r
                   | None => Raise (ValidationError "role")
                   end) (fun r =>
      result_bind (field_datetime "timestamp" (snd fresh) (json_get "timestamp" fields))
        (fun t =>
      result_bind (match json_get "metadata" fields with
                   | Some (JObj o) => Ok (Some o)
                   | Some JNull => Ok None
                   | None => Ok (Some [])
                   | Some _ => Raise (ValidationError "metadata")
                   end) (fun md =>
      result_bind (field_optional_str "session_id" (json_get "session_id" fields))
        (fun sid =>
      Ok (mkMessage i c r t md sid)))))))))
  | _ => Raise (ValidationError "Message")
  end.

Definition Conversation_validate (fresh : string * datetime) (j : json)
  : result Conversation :=
  match j with
  | JObj fields =>
      result_bind (field_str "session_id" (Some (fst fresh)) (json_get "session_id" fields))
        (fun sid =>
      result_bind (match json_get "messages" fields with
                   | Some (JArr items) => result_map (Message_validate fresh) items
                   | None => Ok []
                   | Some _ => Raise (ValidationError "messages")
                   end) (fun ms =>
      result_bind (field_datetime "created_at" (snd fresh) (json_get "created_at" fields))
        (fun created =>
      result_bind (field_datetime "updated_at" (snd fresh) (json_get "updated_at" fields))
        (fun updated =>
      result_bind (match json_get "metadata" fields with
                   | Some (JObj o) => Ok o
                   | None => Ok []
                   | Some _ => Raise (ValidationError "metadata")
                   end) (fun md =>
      result_bind (field_optional_str "title" (json_get "title" fields)) (fun ttl =>
      Ok (mkConversation sid ms created updated md ttl)))))))
  | _ => Raise (ValidationError "Conversation")
  end.

(** [Conversation.model_dump_json(indent=...)]. *)
Definition model_dump_json (indent : option nat) (c : Conversation) : string :=
  print_json indent 0 (Conversation_dump c).

(** [Conversation.parse_raw(text)]. *)
Definition parse_raw (fresh : string * datetime) (text : string) : result Conversation :=
  match parse_json text with
  | Some j => Conversation_validate fresh j
  | None => Raise (ValidationError "Invalid JSON")
  end.

(** [Message.model_dump_json()] and [Message.parse_raw(text)], as the Redis
    backend writes and reads the entries of a message list. *)
Definition Message_model_dump_json (m : Message) : string :=
  print_json None 0 (Message_dump m).

Definition Message_parse_raw (fresh : string * datetime) (text : string) : result Message :=
  match parse_json text with
  | Some j => Message_validate fresh j
  | None => Raise (ValidationError "Invalid JSON")
  end.

(** Every message of the conversation went through [validate_content]. *)
Definition validated (c : Conversation) : Prop :=
  Forall (fun m => exists raw, validate_content raw = Ok (content m)) (messages c).

(** ** The world the services act on *)

Inductive MemoryType : Type := memory_json | memory_redis.

(** The fields of [core/config.py: Settings] the modelled code reads. *)
Record Settings : Type := mkSettings {
  memory_type : MemoryType;
  max_history_messages : Z;
  rag_top_k : Z;
  ai_provider : string;
  redis_ttl : Z
}.

(** The hash [conversation:<session_id>:meta]; a field that was never written
    is [None]. *)
Record RedisMeta : Type := mkRedisMeta {
  meta_session_id : option string;
  meta_title : option string;
  meta_created_at : option datetime;
  meta_updated_at : option datetime;
  meta_last_message_preview : option string
}.

(** One call into a storage engine. *)
Inductive BackendCall : Type :=
  | JsonSave (c : Conversation)
  | JsonLoad (sid : string)
  | JsonDelete (sid : string)
  | RedisAddMessage (sid : string) (m : Message)
  | RedisLoad (sid : string)
  | RedisDelete (sid : string).

Inductive Level : Type := info | warning | error.

(** What an observer of one request can see, in the order it happens. *)
Inductive Event : Type :=
  | Log (level : Level) (event : string)
  | ChromaQuery (query_text : string) (n_results : Z)
  | ProviderInit (name : string)
  | ProviderGenerate (name : string) (message : string) (context : list Message)
  | CreateTask_populate_vector_memory (user_query ai_response session : string)
  | CeleryDelay (question : string).

Record World : Type := mkWorld {
  json_files : gmap string Conversation;
  redis_messages : gmap string (list Message);
  redis_meta : gmap string RedisMeta;
  redis_index : gmap string datetime;
  initialized_providers : list string;
  uuid_counter : nat;
  clock : datetime;
  trace : list Event
}.

(** A document as [VectorMemoryService.query] formats it. *)
Record RetrievedDocument : Type := mkRetrievedDocument {
  document : string;
  doc_metadata : list (string * json)
}.

(** The answers of the external collaborators.
    - [backend_fault call] is the error a storage engine raises on [call], if
      it raises; a faulting call leaves the stored data as it was;
    - [uuid_stream] is the sequence [uuid.uuid4] draws from;
    - [collection_query] is what the ChromaDB collection answers;
    - [registered_providers] are the keys of [AIService._providers],
      [provider_init_fault] is the error a provider class raises when it is
      instantiated, [provider_generate] is what an instantiated provider
      answers to [generate_response];
    - [error_messages] is the entry [response_templates.error_messages] of
      the loaded prompts, [None] when it is missing, and [random_index] the
      draw of [random.choice];
    - [celery_available] tells whether [app.worker] could be imported,
      [research_triggers] is the [research_triggers] entry of the prompts and
      [celery_fault] the error [research_and_learn.delay] raises. *)
Record Env : Type := mkEnv {
  settings : Settings;
  backend_fault : BackendCall -> option string;
  uuid_stream : nat -> string;
  collection_query : string -> Z -> result (list RetrievedDocument);
  registered_providers : list string;
  provider_init_fault : string -> option string;
  provider_generate : string -> string -> list Message -> result string;
  error_messages : option (list string);
  random_index : nat;
  celery_available : bool;
  research_triggers : list string;
  celery_fault : option string
}.

(** ** State and exceptions *)

Definition M (A : Type) : Type := World -> result A * World.

Definition ret {A} (a : A) : M A := fun w => (Ok a, w).

Definition raise {A} (e : exn) : M A := fun w => (Raise e, w).

Definition bind {A B} (m : M A) (k : A -> M B) : M B :=
  fun w => match m w with
           | (Ok a, w') => k a w'
           | (Raise e, w') => (Raise e, w')
           end.

(** [try: body  except Exception as e: handler(e)]. *)
Definition try_except {A} (body : M A) (handler : exn -> M A) : M A :=
  fun w => match body w with
           | (Ok a, w') => (Ok a, w')
           | (Raise e, w') => handler e w'
           end.

(** [try: body  finally: cleanup], for a [cleanup] that does not raise. *)
Definition try_finally {A} (body : M A) (cleanup : M unit) : M A :=
  fun w => match body w with
           | (r, w') => (r, snd (cleanup w'))
           end.

Definition lift {A} (r : result A) : M A := fun w => (r, w).

Notation "'let*' x ':=' c1 'in' c2" := (bind c1 (fun x => c2))
  (at level 10, x name, c1 at level 100, c2 at level 200).
Notation "'let*' ' p ':=' c1 'in' c2" :=
  (bind c1 (fun x => match x with p => c2 end))
  (at level 10, p pattern, c1 at level 100, c2 at level 200).
Notation "'do' c1 'then' c2" := (bind c1 (fun _ => c2))
  (at level 10, c1 at level 100, c2 at level 200).

Definition emit (e : Event) : M unit :=
  fun w => (Ok tt,
            mkWorld (json_files w) (redis_messages w) (redis_meta w) (redis_index w)
                    (initialized_providers w) (uuid_counter w) (clock w)
                    (trace w ++ [e])).

Definition logger (l : Level) (event : string) : M unit := emit (Log l event).

(** [str(uuid.uuid4())]. *)
Definition uuid4 (env : Env) : M string :=
  fun w => (Ok (uuid_stream env (uuid_counter w)),
            mkWorld (json_files w) (redis_messages w) (redis_meta w) (redis_index w)
                    (initialized_providers w) (S (uuid_counter w)) (clock w)
                    (trace w)).

(** [datetime.utcnow()]. *)
Definition utcnow : M datetime :=
  fun w => (Ok (clock w),
            mkWorld (json_files w) (redis_messages w) (redis_meta w) (redis_index w)
                    (initialized_providers w) (uuid_counter w) (S (clock w))
                    (trace w)).

Definition set_json_files (f : gmap string Conversation) : M unit :=
  fun w => (Ok tt,
            mkWorld f (redis_messages w) (redis_meta w) (redis_index w)
                    (initialized_providers w) (uuid_counter w) (clock w) (trace w)).

Definition set_redis (ms : gmap string (list Message)) (meta : gmap string RedisMeta)
    (idx : gmap string datetime) : M unit :=
  fun w => (Ok tt,
            mkWorld (json_files w) ms meta idx
                    (initialized_providers w) (uuid_counter w) (clock w) (trace w)).

Definition set_initialized_providers (ps : list string) : M unit :=
  fun w => (Ok tt,
            mkWorld (json_files w) (redis_messages w) (redis_meta w) (redis_index w)
                    ps (uuid_counter w) (clock w) (trace w)).

Definition get_world : M World := fun w => (Ok w, w).

(** A call into a storage engine: raises when the engine faults. *)
Definition engine (env : Env) (call : BackendCall) : M unit :=
  match backend_fault env call with
  | Some err => raise (ExternalError err)
  | None => ret tt
  end.

(** [Message(content=..., role=..., session_id=...)]: the id and the timestamp
    come from their default factories, the content goes through its
    validator. *)
Definition new_Message (env : Env) (c : string) (r : Role) (sid : option string)
  : M Message :=
  let* i := uuid4 env in
  let* c' := lift (validate_content c) in
  let* t := utcnow in
  ret (mkMessage i c' r t (Some []) sid).

(** [Conversation(session_id=...)]. *)
Definition new_Conversation (sid : string) : M Conversation :=
  let* t1 := utcnow in
  let* t2 := utcnow in
  ret (mkConversation sid [] t1 t2 [] None).

(** ** app/services/memory_service.py: the storage backends *)

Inductive StorageBackend : Type := backend_json | backend_redis.

(** [message.content[:100]]. *)
Definition preview (s : string) : string := substring 0 100 s.

Module JSONStorageBackend.

(** The data directory as a map from session ids to conversations: the key
    [sid] stands for the file [data_dir / f"{sid}.json"], the value for the
    text of that file as [Conversation.parse_raw] reads it (the service
    writes dumps of validated models, which are read back as they were
    written).  Session ids without a path separator name different files,
    all of them in the data directory; where two sessions or the contents of
    the directory are compared, the ids are taken to be such plain ids. *)
Definition save_conversation (env : Env) (conversation : Conversation) : M unit :=
  do engine env (JsonSave conversation) then
  let* w := get_world in
  set_json_files (<[conv_session_id conversation := conversation]> (json_files w)).

Definition load_conversation (env : Env) (sid : string) : M (option Conversation) :=
  let* w := get_world in
  match json_files w !! sid with
  | None => ret None
  | Some c => do engine env (JsonLoad sid) then ret (Some c)
  end.

Definition delete_conversation (env : Env) (sid : string) : M unit :=
  let* w := get_world in
  match json_files w !! sid with
  | None => ret tt
  | Some _ =>
      do engine env (JsonDelete sid) then
      set_json_files (delete sid (json_files w))
  end.

(** [_get_file(session_id).name]. *)
Definition file_name (sid : string) : string := sid +:+ ".json".

(** The order of [sorted(..., reverse=True)] on the files of the data
    directory: paths of one directory compare as their names do. *)
Definition file_after (a b : string * Conversation) : Prop :=
  Is_true (String.leb (file_name (fst b)) (file_name (fst a))).

(** [sorted(self.data_dir.glob("*.json"), reverse=True)]: every file of the
    store, with its text, by descending name.  The files of plain session
    ids are the files the glob finds. *)
Definition sorted_files (w : World) : list (string * Conversation) :=
  merge_sort file_after (map_to_list (json_files w)).

(** The [ConversationSummary] built from a parsed file. *)
Definition summary_of (conv : Conversation) : ConversationSummary :=
  mkConversationSummary (conv_session_id conv)
    (Some (match title conv with
           | Some t => t
           | None => EmptyString
           end))
    (message_count conv) (created_at conv) (updated_at conv)
    (match last (messages conv) with
     | Some m => Some (preview (content m))
     | None => None
     end).

(** The loop of [list_conversations]: each file is read and parsed. *)
Fixpoint read_summaries (env : Env) (files : list (string * Conversation))
  : M (list ConversationSummary) :=
  match files with
  | [] => ret []
  | (sid, conv) :: rest =>
      do engine env (JsonLoad sid) then
      let* summaries := read_summaries env rest in
      ret (summary_of conv :: summaries)
  end.

Definition list_conversations (env : Env) (limit offset : Z)
  : M (list ConversationSummary) :=
  let* w := get_world in
  let files := py_slice (sorted_files w) (Some offset) (Some (offset + limit)) in
  read_summaries env files.

End JSONStorageBackend.

Module RedisStorageBackend.

(** [LTRIM key start stop]: both ends inclusive, negative indexes count from
    the tail. *)
Definition ltrim {A} (l : list A) (start stop : Z) : list A :=
  let n := Z.of_nat (length l) in
  let s := if start <? 0 then Z.max (n + start) 0 else start in
  let e := if stop <? 0 then n + stop else Z.min stop (n - 1) in
  if (e <? s) || (n <=? s) then []
  else take (Z.to_nat (e - s + 1)) (drop (Z.to_nat s) l).

(** [HSET key_meta mapping={session_id, updated_at, last_message_preview}]. *)
Definition hset_on_add (old : option RedisMeta) (sid : string) (now : datetime)
    (last : string) : RedisMeta :=
  match old with
  | Some m => mkRedisMeta (Some sid) (meta_title m) (meta_created_at m) (Some now)
                          (Some last)
  | None => mkRedisMeta (Some sid) None None (Some now) (Some last)
  end.

(** A list that becomes empty is removed by Redis. *)
Definition store_list (sid : string) (l : list Message)
    (ms : gmap string (list Message)) : gmap string (list Message) :=
  match l with
  | [] => delete sid ms
  | _ => <[sid := l]> ms
  end.

(** [EXPIRE key seconds] on the key of [sid]: a time to live that is not
    positive deletes the key at once.  A positive one lets the key live for
    that many seconds; the model has no wall clock, so it describes the store
    for as long as no time to live has run out. *)
Definition expire {A} (sid : string) (seconds : Z) (keys : gmap string A)
  : gmap string A :=
  if seconds <=? 0 then delete sid keys else keys.

Definition add_message (env : Env) (sid : string) (message : Message) : M unit :=
  try_except
    (let* now := utcnow in
     do engine env (RedisAddMessage sid message) then
     let* w := get_world in
     let old := default [] (redis_messages w !! sid) in
     let kept := ltrim (old ++ [message]) (- max_history_messages (settings env)) (-1) in
     let ttl := redis_ttl (settings env) in
     set_redis (expire sid ttl (store_list sid kept (redis_messages w)))
               (expire sid ttl
                  (<[sid := hset_on_add (redis_meta w !! sid) sid now
                              (preview (content message))]> (redis_meta w)))
               (<[sid := now]> (redis_index w)))
    (fun e => do logger error "Redis add_message failed" then raise e).

Definition load_conversation (env : Env) (sid : string) : M (option Conversation) :=
  try_except
    (do engine env (RedisLoad sid) then
     let* w := get_world in
     match redis_messages w !! sid with
     | None | Some [] => ret None
     | Some ms =>
         match redis_meta w !! sid with
         | None => ret None
         | Some meta =>
             let* created :=
               match meta_created_at meta with
               | Some t => ret t
               | None => utcnow
               end in
             let* updated :=
               match meta_updated_at meta with
               | Some t => ret t
               | None => utcnow
               end in
             ret (Some (mkConversation (default sid (meta_session_id meta)) ms
                                       created updated []
                                       (Some (default EmptyString (meta_title meta)))))
         end
     end)
    (fun e => do logger error "Redis load_conversation failed" then ret None).

Definition delete_conversation (env : Env) (sid : string) : M unit :=
  try_except
    (do engine env (RedisDelete sid) then
     let* w := get_world in
     set_redis (delete sid (redis_messages w)) (delete sid (redis_meta w))
               (redis_index w))
    (fun e =>
       do logger error "Redis delete_conversation failed, falling back to JSON" then
       JSONStorageBackend.delete_conversation env sid).

End RedisStorageBackend.

(** ** app/services/memory_service.py: MemoryService *)

Module MemoryService.

(** [__init__]: Redis when configured and reachable, else the JSON files. *)
Definition init (env : Env) (redis_init_fails : bool) : StorageBackend :=
  match memory_type (settings env) with
  | memory_redis => if redis_init_fails then backend_json else backend_redis
  | memory_json => backend_json
  end.

(** [save_conversation]; its caller here is the JSON branch of
    [add_message], where [storage_backend] is the JSON backend. *)
Definition save_conversation (env : Env) (conversation : Conversation) : M bool :=
  try_except
    (do JSONStorageBackend.save_conversation env conversation then
     do logger info "Conversation saved" then
     ret true)
    (fun e => do logger error "Failed to save conversation" then ret false).

Definition load_conversation (env : Env) (self : StorageBackend) (sid : string)
  : M (option Conversation) :=
  try_except
    (let* conversation :=
       match self with
       | backend_json => JSONStorageBackend.load_conversation env sid
       | backend_redis => RedisStorageBackend.load_conversation env sid
       end in
     do match conversation with
        | Some _ => logger info "Conversation loaded"
        | None => ret tt
        end then
     ret conversation)
    (fun e => do logger error "Failed to load conversation" then ret None).

Definition add_message (env : Env) (self : StorageBackend) (sid : string)
    (message : Message) : M bool :=
  try_except
    (match self with
     | backend_redis =>
         do RedisStorageBackend.add_message env sid message then
         do logger info "Message added (atomic Redis)" then
         ret true
     | backend_json =>
         let* loaded := load_conversation env self sid in
         let* conversation :=
           match loaded with
           | Some c => ret c
           | None => new_Conversation sid
           end in
         let* now := utcnow in
         let conversation := Conversation_add_message conversation message now in
         let n := max_history_messages (settings env) in
         let conversation :=
           if n <? py_len (messages conversation)
           then set_messages conversation (py_slice (messages conversation) (Some (- n)) None)
           else conversation in
         save_conversation env conversation
     end)
    (fun e => do logger error "Failed to add message" then ret false).

Definition get_conversation_history (env : Env) (self : StorageBackend)
    (sid : string) (limit offset : Z) : M (list Message) :=
  let* conversation := load_conversation env self sid in
  match conversation with
  | None => ret []
  | Some c =>
      let messages := messages c in
      let start_idx := Z.max 0 (py_len messages - offset - limit) in
      let end_idx := if 0 <? offset then py_len messages - offset else py_len messages in
      ret (py_slice messages (Some start_idx) (Some end_idx))
  end.

Definition delete_conversation (env : Env) (self : StorageBackend) (sid : string)
  : M bool :=
  try_except
    (do match self with
        | backend_json => JSONStorageBackend.delete_conversation env sid
        | backend_redis => RedisStorageBackend.delete_conversation env sid
        end then
     do logger info "Conversation deleted" then
     ret true)
    (fun e => do logger error "Failed to delete conversation" then ret false).

Definition role_upper (r : Role) : string :=
  match r with
  | user => "USER"
  | assistant => "ASSISTANT"
  | system => "SYSTEM"
  end.

Definition role_title (r : Role) : string :=
  match r with
  | user => "User"
  | assistant => "Assistant"
  | system => "System"
  end.

(** [str(n)] for a count. *)
Definition str_of_count (n : Z) : string := print_Z n.

Definition dashes : string := "--------------------------------------------------".

(** [MemoryService._export_as_text]. *)
Definition _export_as_text (c : Conversation) : string :=
  str_join nl
    (["Conversation: " +:+ conv_session_id c;
      "Created: " +:+ isoformat (created_at c);
      "Messages: " +:+ str_of_count (message_count c);
      dashes]
     ++ map (fun m => "[" +:+ isoformat (timestamp m) +:+ "] " +:+ role_upper (role m)
                      +:+ ": " +:+ content m)
            (messages c)).

(** [MemoryService._export_as_markdown]. *)
Definition _export_as_markdown (c : Conversation) : string :=
  str_join nl
    (["# Conversation " +:+ conv_session_id c;
      "**Created:** " +:+ isoformat (created_at c);
      "**Messages:** " +:+ str_of_count (message_count c);
      EmptyString]
     ++ concat (map (fun m =>
                       ["## " +:+ (match role m with user => "🧑" | _ => "🤖" end)
                        +:+ " " +:+ role_title (role m) +:+ " - " +:+ isoformat (timestamp m);
                        content m;
                        EmptyString])
                    (messages c))).

(** [export_conversation]. *)
Definition export_conversation (env : Env) (self : StorageBackend) (sid : string)
    (format : string) : M (option string) :=
  let* conversation := load_conversation env self sid in
  match conversation with
  | None => ret None
  | Some c =>
      if String.eqb format "json" then ret (Some (model_dump_json (Some 2%nat) c))
      else if String.eqb format "txt" then ret (Some (_export_as_text c))
      else if String.eqb format "markdown" then ret (Some (_export_as_markdown c))
      else raise (ValueError "Unsupported export format")
  end.

(** [list_conversations], for a service whose [storage_backend] is the JSON
    backend. *)
Definition list_conversations (env : Env) (limit offset : Z)
  : M (list ConversationSummary) :=
  try_except
    (JSONStorageBackend.list_conversations env limit offset)
    (fun e => do logger error "Failed to list conversations" then ret []).

(** What an instance of a backend class has: the methods its class defines
    and the attributes its [__init__] sets. *)
Definition backend_attributes (self : StorageBackend) : list string :=
  match self with
  | backend_redis =>
      ["__init__"; "add_message"; "save_conversation"; "load_conversation";
       "list_conversations"; "delete_conversation"; "cleanup_old_conversations";
       "health_check"; "settings"; "redis"; "max_history"; "ttl"]
  | backend_json =>
      ["__init__"; "_get_file"; "save_conversation"; "load_conversation";
       "list_conversations"; "delete_conversation"; "cleanup_old_conversations";
       "health_check"; "settings"; "data_dir"]
  end.

(** [AttributeError], which no handler here tells apart from other errors,
    is carried by [ExternalError] under its class name. *)
Definition AttributeError (name : string) : exn :=
  ExternalError ("AttributeError: " +:+ name).

(** [self.storage_backend.<name>]. *)
Definition backend_getattr (self : StorageBackend) (name : string) : result unit :=
  if bool_decide (name ∈ backend_attributes self)
  then Ok tt
  else Raise (AttributeError name).

(** [clear_all_conversations]: the method it calls on the backend is looked
    up on the instance first; [backend_clear] stands for the body a backend
    class would give that method. *)
Definition clear_all_conversations (env : Env) (self : StorageBackend)
    (backend_clear : M Z) : M Z :=
  try_except
    (do lift (backend_getattr self "clear_all_conversations") then
     let* deleted_count := backend_clear in
     do logger info "Cleared all conversations" then
     ret deleted_count)
    (fun e => do logger error "Failed to clear all conversations" then ret 0).

End MemoryService.

(** ** app/api/routes/chat.py: history and deletion *)

Record ChatHistory : Type := mkChatHistory {
  history_session_id : string;
  history_messages : list Message;
  total_messages : Z;
  page : Z;
  page_size : Z;
  has_more : bool
}.

(** The [StreamingResponse] of the export route: the chunks of its body, its
    media type and its [Content-Disposition] header. *)
Record StreamingResponse : Type := mkStreamingResponse {
  response_body : list string;
  response_media_type : string;
  content_disposition : string
}.

Module ChatRoutes.

(** The two [except] clauses every route ends with.  [HTTPException] is an
    [Exception] and not a [MemoryServiceException], so one raised inside the
    [try] reaches the second clause. *)
Definition route_handlers {A} (what : string) (body : M A) : M A :=
  try_except body
    (fun e =>
       if is_MemoryServiceException e
       then do logger error "Memory service error" then
            raise (HTTPException 500 (exn_str e))
       else do logger error what then
            raise (HTTPException 500 "Internal server error")).

(** [GET /history/{session_id}]. *)
Definition get_chat_history (env : Env) (memory_service : StorageBackend)
    (sid : string) (page page_size : Z) : M ChatHistory :=
  route_handlers "Unexpected error getting history"
    (if page <? 1 then raise (HTTPException 400 "Page must be >= 1")
     else if (page_size <? 1) || (100 <? page_size)
     then raise (HTTPException 400 "Page size must be between 1 and 100")
     else
       let offset := (page - 1) * page_size in
       let* messages :=
         MemoryService.get_conversation_history env memory_service sid
           (page_size + 1) offset in
       let has_more := page_size <? py_len messages in
       let messages :=
         if has_more then py_slice messages None (Some page_size) else messages in
       let* conversation := MemoryService.load_conversation env memory_service sid in
       let total_messages :=
         match conversation with
         | Some c => message_count c
         | None => 0
         end in
       do logger info "Chat history retrieved" then
       ret (mkChatHistory sid messages total_messages page page_size has_more)).

(** [DELETE /conversation/{session_id}]; the returned text is the
    [message] entry of the response body. *)
Definition delete_conversation (env : Env) (memory_service : StorageBackend)
    (sid : string) : M string :=
  route_handlers "Unexpected error deleting conversation"
    (let* success := MemoryService.delete_conversation env memory_service sid in
     if negb success
     then raise (HTTPException 404 "Conversation not found")
     else do logger info "Conversation deleted" then
          ret "Conversation deleted successfully").

(** [GET /conversations], over the JSON backend. *)
Definition list_conversations (env : Env) (page page_size : Z)
  : M (list ConversationSummary) :=
  route_handlers "Unexpected error listing conversations"
    (if page <? 1 then raise (HTTPException 400 "Page must be >= 1")
     else if (page_size <? 1) || (50 <? page_size)
     then raise (HTTPException 400 "Page size must be between 1 and 50")
     else
       let offset := (page - 1) * page_size in
       let* conversations := MemoryService.list_conversations env page_size offset in
       do logger info "Conversations listed" then
       ret conversations).

Definition content_types : gmap string string :=
  list_to_map [("json", "application/json"); ("txt", "text/plain");
               ("markdown", "text/markdown")].

(** [GET /conversation/{session_id}/export]. *)
Definition export_conversation (env : Env) (memory_service : StorageBackend)
    (sid format : string) : M StreamingResponse :=
  route_handlers "Unexpected error exporting conversation"
    (if negb (bool_decide (format ∈ ["json"; "txt"; "markdown"]))
     then raise (HTTPException 400 "Format must be one of: json, txt, markdown")
     else
       let* exported_data :=
         MemoryService.export_conversation env memory_service sid format in
       match exported_data with
       | None | Some EmptyString => raise (HTTPException 404 "Conversation not found")
       | Some data =>
           match content_types !! format with
           | None => raise (ExternalError "KeyError")
           | Some media_type =>
               let filename := "conversation_" +:+ sid +:+ "." +:+ format in
               do logger info "Conversation exported" then
               ret (mkStreamingResponse [data] media_type
                      ("attachment; filename=" +:+ filename))
           end
       end).

(** [POST /clear_all_conversations]; the returned number is the
    [deleted_count] entry of the response body. *)
Definition clear_all_conversations (env : Env) (memory_service : StorageBackend)
    (backend_clear : M Z) : M Z :=
  route_handlers "Unexpected error during clearing all conversations"
    (let* deleted_count :=
       MemoryService.clear_all_conversations env memory_service backend_clear in
     do logger info "All conversations cleared" then
     ret deleted_count).

End ChatRoutes.

(** A client that reads the whole history: pages 1, 2, ... of the history
    route, concatenated in the order they are fetched, until a page reports
    [has_more = false] (or a request fails).  [fuel] bounds the number of
    requests. *)
Fixpoint fetch_history (fuel : nat) (env : Env) (memory_service : StorageBackend)
    (sid : string) (page page_size : Z) : M (list Message) :=
  match fuel with
  | O => ret []
  | S fuel' =>
      let* h := ChatRoutes.get_chat_history env memory_service sid page page_size in
      if has_more h
      then let* rest := fetch_history fuel' env memory_service sid (page + 1) page_size in
           ret (history_messages h ++ rest)
      else ret (history_messages h)
  end.

(** The summaries of every stored conversation, in the order of the
    listing (by descending file name). *)
Definition listing (w : World) : list ConversationSummary :=
  map (fun file => JSONStorageBackend.summary_of (snd file))
      (JSONStorageBackend.sorted_files w).

(** A client that reads the whole listing: pages 1, 2, ... of the
    conversations route, concatenated, until a page comes back with fewer
    than [page_size] entries (or a request fails).  [fuel] bounds the number
    of requests. *)
Fixpoint fetch_conversations (fuel : nat) (env : Env) (page page_size : Z)
  : M (list ConversationSummary) :=
  match fuel with
  | O => ret []
  | S fuel' =>
      let* conversations := ChatRoutes.list_conversations env page page_size in
      if py_len conversations <? page_size
      then ret conversations
      else let* rest := fetch_conversations fuel' env (page + 1) page_size in
           ret (conversations ++ rest)
  end.

(** Repeated [add_message], as a caller that ignores the returned flag. *)
Fixpoint add_messages (env : Env) (memory_service : StorageBackend) (sid : string)
    (ms : list Message) : M unit :=
  match ms with
  | [] => ret tt
  | m :: rest =>
      do MemoryService.add_message env memory_service sid m then
      add_messages env memory_service sid rest
  end.

(** The message log a backend holds for a session ([[]] when it holds none). *)
Definition stored_log (memory_service : StorageBackend) (w : World) (sid : string)
  : list Message :=
  match memory_service with
  | backend_json =>
      match json_files w !! sid with
      | Some c => messages c
      | None => []
      end
  | backend_redis => default [] (redis_messages w !! sid)
  end.

(** A message as a backend keeps it: the JSON path stamps the session id of
    the conversation on it, the Redis path stores it as given. *)
Definition as_stored (memory_service : StorageBackend) (sid : string) (m : Message)
  : Message :=
  match memory_service with
  | backend_json => set_session_id m (Some sid)
  | backend_redis => m
  end.

(** The [n] newest entries of a log. *)
Definition newest {A} (n : Z) (l : list A) : list A :=
  drop (length l - Z.to_nat n) l.

(** ** app/services/vector_memory_service.py *)

Module VectorMemoryService.

Definition query (env : Env) (query_text : string) (top_k : Z)
  : M (list RetrievedDocument) :=
  try_except
    (do emit (ChromaQuery query_text top_k) then
     let* formatted_results := lift (collection_query env query_text top_k) in
     do logger info "ChromaDB query successful" then
     ret formatted_results)
    (fun e => do logger error "Failed to query ChromaDB" then raise e).

End VectorMemoryService.

(** ** app/utils/prompts.py *)

Module PromptManager.

(** [random.choice(seq)] with the draw [r]. *)
Definition random_choice (r : nat) (seq : list string) : result string :=
  match seq !! (r mod length seq)%nat with
  | Some x => Ok x
  | None => Raise (IndexError "Cannot choose from an empty sequence")
  end.

Definition get_error_message (env : Env) : M string :=
  let messages :=
    default ["Sorry, something went wrong. Please try again."] (error_messages env) in
  lift (random_choice (random_index env) messages).

End PromptManager.

(** ** app/services/ai_providers *)

(** The fields of [ChatSettings] the providers read when they build a
    request. *)
Record ChatSettings : Type := mkChatSettings {
  chat_system_prompt : option string;
  context_window : Z
}.

(** [ChatSettings()]. *)
Definition default_ChatSettings : ChatSettings := mkChatSettings None 50.

(** One entry of the message list handed to the provider's API. *)
Record ApiMessage : Type := mkApiMessage {
  api_role : string;
  api_content : string
}.

(** [settings.system_prompt or self.prompt_manager.get_system_prompt()];
    [prompt] is what the prompt manager answers. *)
Definition system_prompt_of (prompt : string) (settings : ChatSettings) : string :=
  match chat_system_prompt settings with
  | Some s => if str_is_empty s then prompt else s
  | None => prompt
  end.

(** [_wrap_user_query], the same in both provider classes. *)
Definition _wrap_user_query (text : string) : string :=
  let sanitized := str_replace "</user_query>" "</ user_query>" text in
  "<user_query>" +:+ sanitized +:+ "</user_query>".

Module OpenAIProvider.

(** [build_messages]. *)
Definition build_messages (prompt user_message : string) (context : list Message)
    (settings : ChatSettings) : list ApiMessage :=
  let system_prompt := system_prompt_of prompt settings in
  (if str_is_empty system_prompt then [] else [mkApiMessage "system" system_prompt])
  ++ flat_map
       (fun msg =>
          match role msg with
          | user => [mkApiMessage "user" (_wrap_user_query (content msg))]
          | assistant => [mkApiMessage "assistant" (content msg)]
          | system => []
          end)
       (py_slice context (Some (- context_window settings)) None)
  ++ [mkApiMessage "user" (_wrap_user_query user_message)].

End OpenAIProvider.

Module GeminiProvider.

(** [_build_conversation_text]. *)
Definition _build_conversation_text (prompt user_message : string)
    (context : list Message) (settings : ChatSettings) : string :=
  let system_prompt := system_prompt_of prompt settings in
  String.concat EmptyString
    ((if str_is_empty system_prompt then [] else ["System: " +:+ system_prompt +:+ nl])
     ++ flat_map
          (fun msg =>
             match role msg with
             | user => ["Human: " +:+ _wrap_user_query (content msg) +:+ nl]
             | assistant => ["Assistant: " +:+ content msg +:+ nl]
             | system => []
             end)
          (py_slice context (Some (- context_window settings)) None)
     ++ ["Human: " +:+ _wrap_user_query user_message +:+ nl; "Assistant: "]).

End GeminiProvider.

(** ** app/services/ai_service.py *)

(** The names bound where the body of [AIService.generate_response] runs:
    its parameters and the locals it assigns, the globals of the module
    [ai_service], and the builtins. *)
Definition generate_response_locals : list string :=
  ["self"; "message"; "context"; "settings"; "stream"; "provider"; "start_time";
   "ai_provider"; "provider_name"; "chat_settings"; "modified_context";
   "rag_enabled"; "response"; "e"; "processing_time"].

Definition ai_service_globals : list string :=
  ["asyncio"; "json"; "time"; "List"; "Dict"; "Any"; "Optional"; "AsyncGenerator";
   "Type"; "structlog"; "get_settings"; "Message"; "ChatSettings"; "PromptManager";
   "OpenAIProvider"; "GeminiProvider"; "VectorMemoryService"; "logger"; "AIService"].

Definition python_builtins : list string :=
  ["len"; "bool"; "list"; "str"; "int"; "dict"; "tuple"; "hasattr"; "getattr";
   "issubclass"; "isinstance"; "Exception"; "ValueError"; "RuntimeError";
   "TypeError"; "NameError"; "None"; "True"; "False"; "print"; "range"; "type"].

(** Reading a name: local, then global, then builtin, else [NameError]. *)
Definition resolve_name (locals globals : list string) (name : string) : result unit :=
  if bool_decide (name ∈ locals ++ globals ++ python_builtins)
  then Ok tt
  else Raise (NameError name).

Module AIService.

(** [get_provider]: the provider instance is identified by its name. *)
Definition get_provider (env : Env) (provider_name : option string) : M string :=
  let provider_name :=
    match provider_name with
    | Some p => if str_is_empty p then ai_provider (settings env) else p
    | None => ai_provider (settings env)
    end in
  if negb (bool_decide (provider_name ∈ registered_providers env))
  then raise (ValueError "Provider not registered")
  else
    let* w := get_world in
    do (if bool_decide (provider_name ∈ initialized_providers w) then ret tt
        else
          try_except
            (do emit (ProviderInit provider_name) then
             do match provider_init_fault env provider_name with
                | Some err => raise (ExternalError err)
                | None => ret tt
                end then
             do set_initialized_providers (provider_name :: initialized_providers w) then
             logger info "provider initialized")
            (fun e =>
               do logger error "Failed to initialize provider" then
               raise (RuntimeError "Failed to initialize provider"))) then
    ret provider_name.

Definition _get_fallback_response (env : Env) : M string :=
  PromptManager.get_error_message env.

Definition rag_note (retrieved_docs : list RetrievedDocument) : string :=
  (nl +:+ nl +:+ "Relevant information from memory:" +:+ nl)
    +:+ str_join nl (map document retrieved_docs).

(** [_get_rag_context_and_modify_messages].  [modified_context] is a new
    list of the same message objects: the update of its first element is
    an update of the caller's first message too. *)
Definition _get_rag_context_and_modify_messages (env : Env) (message : string)
    (context : list Message) : M (list Message * bool) :=
  let* retrieved_docs := VectorMemoryService.query env message (rag_top_k (settings env)) in
  let* '(rag_context, rag_enabled) :=
    match retrieved_docs with
    | [] => ret (EmptyString, false)
    | _ => do logger info "RAG context retrieved" then
           ret (rag_note retrieved_docs, true)
    end in
  let modified_context := context in
  if negb (str_is_empty rag_context) then
    match modified_context with
    | first :: rest =>
        match role first with
        | system =>
            ret (set_content first (content first +:+ rag_context) :: rest, rag_enabled)
        | _ =>
            let* note := new_Message env rag_context system (Some "rag_context") in
            ret (note :: modified_context, rag_enabled)
        end
    | [] =>
        let* note := new_Message env rag_context system (Some "rag_context") in
        ret (note :: modified_context, rag_enabled)
    end
  else ret (modified_context, rag_enabled).

(** [generate_response]; [settings] and [stream] are handed to the provider
    as they come and are left out. *)
Definition generate_response (env : Env) (message : string) (context : list Message)
    (provider : option string) : M string :=
  try_finally
    (try_except
       (let* ai_provider := get_provider env provider in
        let* '(modified_context, rag_enabled) :=
          _get_rag_context_and_modify_messages env message context in
        (* logger.info("AI request started", ..., rag_enabled=bool(rag_context)) *)
        do lift (resolve_name generate_response_locals ai_service_globals "rag_context") then
        do logger info "AI request started" then
        do emit (ProviderGenerate ai_provider message modified_context) then
        let* response := lift (provider_generate env ai_provider message modified_context) in
        ret response)
       (fun e =>
          do logger error "AI generation failed" then
          _get_fallback_response env))
    (logger info "AI request completed").

(** [generate_streaming_response].  What the instantiated provider's own
    generator does is [provider_stream]: the chunks it yields and, if it
    breaks off, the exception it then raises.  The result is what the
    consumer of the generator receives: the chunks in order and, if the
    generator itself raises, the exception after them. *)
Definition generate_streaming_response (env : Env)
    (provider_stream : string -> string -> list Message -> list string * option exn)
    (message : string) (context : list Message) (provider : option string)
  : M (list string * option exn) :=
  let* started :=
    try_except
      (let* ai_provider := get_provider env provider in
       let* '(modified_context, rag_enabled) :=
         _get_rag_context_and_modify_messages env message context in
       do logger info "AI streaming request started" then
       ret (provider_stream ai_provider message modified_context))
      (fun e => ret ([], Some e)) in
  match started with
  | (chunks, None) => ret (chunks, None)
  | (chunks, Some e) =>
      do logger error "AI streaming generation failed" then
      try_except
        (let* fallback := _get_fallback_response env in
         ret (chunks ++ [fallback], None))
        (fun e' => ret (chunks, Some e'))
  end.

(** [get_available_models]; [provider_models] is what an instantiated
    provider answers to its own [get_available_models]. *)
Definition get_available_models (env : Env)
    (provider_models : string -> result (list string)) (provider : option string)
  : M (list string) :=
  try_except
    (let* ai_provider := get_provider env provider in
     lift (provider_models ai_provider))
    (fun e => do logger error "Failed to fetch models" then ret []).

(** The loop of [get_all_available_models] over the registered names. *)
Fixpoint collect_models (env : Env) (provider_models : string -> result (list string))
    (names : list string) (all_models : gmap string (list string))
  : M (gmap string (list string)) :=
  match names with
  | [] => ret all_models
  | provider_name :: rest =>
      let* all_models :=
        try_except
          (let* provider_instance := get_provider env (Some provider_name) in
           let* models := lift (provider_models provider_instance) in
           ret (<[provider_name := models]> all_models))
          (fun e =>
             do logger warning "Failed to fetch models for provider" then
             ret (<[provider_name := []]> all_models)) in
      collect_models env provider_models rest all_models
  end.

Definition get_all_available_models (env : Env)
    (provider_models : string -> result (list string))
  : M (gmap string (list string)) :=
  collect_models env provider_models (registered_providers env) ∅.

End AIService.

(** ** app/services/research_service.py *)

(** [c.lower()] for a code point below 256: the capitals are A-Z and the
    Latin-1 capitals U+00C0-U+00DE without the sign U+00D7, each 32 below its
    small letter; every other code point is its own lower case. *)
Definition lower_char (c : ascii) : ascii :=
  let n := nat_of_ascii c in
  if (((65 <=? n) && (n <=? 90))
      || ((192 <=? n) && (n <=? 222) && negb (n =? 215)))%nat
  then ascii_of_nat (n + 32) else c.

(** [s.lower()]. *)
Fixpoint str_lower (s : string) : string :=
  match s with
  | String c s' => String (lower_char c) (str_lower s')
  | EmptyString => EmptyString
  end.

(** [needle in haystack]. *)
Fixpoint str_contains (needle haystack : string) : bool :=
  String.prefix needle haystack
  || match haystack with
     | String _ rest => str_contains needle rest
     | EmptyString => false
     end.

Module ResearchService.

Definition trigger_research_if_needed (env : Env) (user_message ai_response : string)
    (sid : option string) : M unit :=
  if negb (celery_available env)
  then logger warning "Celery worker not available, research_and_learn not imported"
  else
    let response_lower := str_lower ai_response in
    if existsb (fun trigger => str_contains (str_lower trigger) response_lower)
               (research_triggers env)
    then
      do logger info "Triggering research_and_learn Celery task" then
      do emit (CeleryDelay user_message) then
      match celery_fault env with
      | Some err => raise (ExternalError err)
      | None => ret tt
      end
    else ret tt.

End ResearchService.

(** ** app/services/message_handler_service.py *)

(** The collaborators a [MessageHandlerService] is constructed with, by the
    methods [process_message] calls on them. *)
Record Services : Type := mkServices {
  memory_add_message : string -> Message -> M bool;
  memory_get_conversation_history : string -> Z -> Z -> M (list Message);
  ai_generate_response : string -> list Message -> M string;
  research_trigger_research_if_needed : string -> string -> option string -> M unit
}.

(** The dictionary [process_message] returns. *)
Record Reply : Type := mkReply {
  reply_message : string;
  reply_message_id : string;
  reply_session_id : string;
  reply_role : string
}.

Module MessageHandlerService.

Definition process_message (env : Env) (self : Services) (sid : option string)
    (message : Message) : M Reply :=
  if str_is_empty (str_strip (content message))
  then raise (ChatBotException "Empty message" "EMPTY_MESSAGE")
  else
    let* sid :=
      match sid with
      | Some s => if str_is_empty s then uuid4 env else ret s
      | None => uuid4 env
      end in
    let message := set_session_id message (Some sid) in
    do try_except
         (do memory_add_message self sid message then ret tt)
         (fun e =>
            do logger error "Error adding user message to memory" then
            raise (MemoryServiceException "Failed to save user message" (exn_str e))) then
    let* context := memory_get_conversation_history self sid 10 0 in
    let* ai_response :=
      try_except
        (ai_generate_response self (content message) (py_slice context None (Some (-1))))
        (fun e =>
           do logger error "Error generating AI response" then
           raise (AIServiceException "Failed to generate AI response" (exn_str e))) in
    let* ai_msg := new_Message env ai_response assistant (Some sid) in
    do try_except
         (do memory_add_message self sid ai_msg then ret tt)
         (fun e =>
            do logger error "Error adding AI message to memory" then
            raise (MemoryServiceException "Failed to save AI message" (exn_str e))) then
    do emit (CreateTask_populate_vector_memory (content message) ai_response sid) then
    do try_except
         (research_trigger_research_if_needed self (content message) ai_response (Some sid))
         (fun e => logger error "Failed to trigger research agent") then
    ret (mkReply ai_response (msg_id ai_msg) sid "assistant").

(** [MessageHandlerService()] over the application's own services. *)
Definition default_services (env : Env) (memory_service : StorageBackend) : Services :=
  mkServices (MemoryService.add_message env memory_service)
             (MemoryService.get_conversation_history env memory_service)
             (fun message context => AIService.generate_response env message context None)
             (ResearchService.trigger_research_if_needed env).

End MessageHandlerService.

(** ** app/api/routes/chat.py: the message route *)

(** The names bound where the body of the route [send_message] runs: its
    parameters and locals, and the globals of the module [chat] (what it
    imports and defines). *)
Definition send_message_locals : list string :=
  ["request"; "provider"; "handler_service"; "user_msg"; "result"; "e"].

Definition chat_routes_globals : list string :=
  ["APIRouter"; "HTTPException"; "Depends"; "StreamingResponse"; "List"; "Optional";
   "structlog"; "uuid4"; "ChatRequest"; "ChatResponse"; "ChatHistory";
   "ConversationSummary"; "Message"; "ChatSettings"; "AIService"; "MemoryService";
   "AIServiceException"; "MemoryServiceException"; "MessageHandlerService";
   "ResearchService"; "logger"; "router"; "get_ai_service"; "get_memory_service";
   "get_message_handler_service"; "get_research_service"; "send_message";
   "get_chat_history"; "list_conversations"; "delete_conversation";
   "export_conversation"; "cleanup_old_conversations"; "clear_all_conversations";
   "get_ai_providers"; "switch_ai_provider"; "get_available_models"].

(** [POST /message].  An exception of the [try] body is matched against the
    [except] clauses in order, and matching the first one reads the name
    [ChatBotException]. *)
Definition send_message (env : Env) (handler_service : Services) (request : ChatRequest)
  : M ChatResponse :=
  try_except
    (let* user_msg :=
       new_Message env (request_message request) user (request_session_id request) in
     let* result :=
       MessageHandlerService.process_message env handler_service
         (request_session_id request) user_msg in
     let* now := utcnow in
     ret (mkChatResponse (reply_message result) (reply_session_id result)
            (reply_message_id result) now (msg_id user_msg)))
    (fun e =>
       do lift (resolve_name send_message_locals chat_routes_globals
                  "ChatBotException") then
       if is_ChatBotException e
       then do logger error "ChatBot exception in chat endpoint" then
            raise (HTTPException 400 (exn_str e))
       else do logger error "Unexpected error in chat endpoint" then
            raise (HTTPException 500 "Internal server error")).

(** ** Conditions on the environment, and concrete environments *)

(** No storage engine call faults. *)
Definition healthy (env : Env) : Prop := forall call, backend_fault env call = None.

(** The session's file, if there is one, holds a conversation of that
    session (what [JSONStorageBackend.save_conversation] writes). *)
Definition session_consistent (w : World) (sid : string) : Prop :=
  match json_files w !! sid with
  | Some c => conv_session_id c = sid
  | None => True
  end.

(** Nothing was ever stored for the session. *)
Definition fresh_session (w : World) (sid : string) : Prop :=
  json_files w !! sid = None /\ redis_messages w !! sid = None.

(** The Redis keys stay: [redis_ttl] is positive, so that [EXPIRE] deletes
    nothing (and it has not run out, see [RedisStorageBackend.expire]).  The
    JSON files have no time to live. *)
Definition keys_persist (env : Env) (be : StorageBackend) : Prop :=
  match be with
  | backend_redis => 0 < redis_ttl (settings env)
  | backend_json => True
  end.

(** A session id that names its own file.  The JSON store is keyed by session
    id, which stands for the POSIX path [data_dir / f"{session_id}.json"]:
    for ids without a path separator that is the file [<session_id>.json] of
    the data directory, another file for another id.  An id with a separator
    can name the file of another session (['./x'] and ['x']) or a file
    outside the data directory (['../x']), which [glob("*.json")] does not
    list. *)
Definition plain_session_id (sid : string) : Prop := str_contains "/" sid = false.

(** Two session ids that name two places of the backend's store: any two
    ids on Redis (the keys [conversation:<id>:messages] differ), two plain
    ids on the JSON backend. *)
Definition separate_sessions (be : StorageBackend) (a b : string) : Prop :=
  a <> b /\
  match be with
  | backend_json => plain_session_id a /\ plain_session_id b
  | backend_redis => True
  end.

(** The data directory holds files of plain session ids only. *)
Definition plain_store (w : World) : Prop :=
  forall sid, is_Some (json_files w !! sid) -> plain_session_id sid.

Definition no_faults : BackendCall -> option string := fun _ => None.

Definition test_env (mt : MemoryType) (limit : Z) (faults : BackendCall -> option string)
    (docs : result (list RetrievedDocument)) (errs : option (list string)) : Env :=
  mkEnv (mkSettings mt limit 3 "openai" 86400) faults (fun _ => "0000-uuid")
        (fun _ _ => docs) ["openai"; "gemini"] (fun _ => None)
        (fun _ _ _ => Ok "Hi!") errs 0%nat false [] None.

Definition empty_world : World := mkWorld ∅ ∅ ∅ ∅ [] 0%nat 0%nat [].

Definition test_message (i c : string) (r : Role) : Message :=
  mkMessage i c r 0%nat (Some []) None.

(** A world whose JSON store holds one session [s1] with the given log. *)
Definition world_with_log (ms : list Message) : World :=
  mkWorld {["s1" := mkConversation "s1" ms 0%nat 0%nat [] None]} ∅ ∅ ∅ [] 0%nat 0%nat [].

Definition m0 : Message := mkMessage "0" "msg0" user 0%nat (Some []) (Some "s1").
Definition m1 : Message := mkMessage "1" "msg1" assistant 0%nat (Some []) (Some "s1").
Definition m2 : Message := mkMessage "2" "msg2" user 0%nat (Some []) (Some "s1").

(** A world whose JSON store holds the sessions [a], [b] and [c], one
    message each. *)
Definition world_with_sessions : World :=
  mkWorld (<["a" := mkConversation "a" [m0] 0%nat 0%nat [] None]>
             (<["b" := mkConversation "b" [m1] 0%nat 0%nat [] None]>
                {["c" := mkConversation "c" [m2] 0%nat 0%nat [] None]}))
          ∅ ∅ ∅ [] 0%nat 0%nat [].

(** The calls of a provider's [generate_response] recorded in a world. *)
Definition is_generate (ev : Event) : bool :=
  match ev with ProviderGenerate _ _ _ => true | _ => false end.

Definition generate_calls (w : World) : list Event := List.filter is_generate (trace w).

(** What the conversation store holds. *)
Definition store_of (w : World)
  : gmap string Conversation * gmap string (list Message) * gmap string RedisMeta
    * gmap string datetime :=
  (json_files w, redis_messages w, redis_meta w, redis_index w).

(** A computation that leaves an observation [obs] of the world as it was,
    whatever it returns. *)
Definition preserves {S A} (obs : World -> S) (m : M A) : Prop :=
  forall w, obs (snd (m w)) = obs w.

(** A computation that never calls a provider's [generate_response]. *)
Definition quiet {A} (m : M A) : Prop := preserves generate_calls m.

Definition is_assistant (m : Message) : bool :=
  match role m with assistant => true | _ => false end.

(** A storage engine call whose newest entry is an assistant message. *)
Definition assistant_write (call : BackendCall) : bool :=
  match call with
  | JsonSave c =>
      match last (messages c) with
      | Some m => is_assistant m
      | None => false
      end
  | RedisAddMessage _ m => is_assistant m
  | _ => false
  end.

(** What the memory service logs when the engine rejects an append. *)
Definition failure_log (memory_service : StorageBackend) : list Event :=
  match memory_service with
  | backend_json => [Log error "Failed to save conversation"]
  | backend_redis => [Log error "Redis add_message failed"; Log error "Failed to add message"]
  end.

(** The session a request runs in: the one given, or a generated one. *)
Definition effective_session (env : Env) (w : World) (sid : option string) : string :=
  match sid with
  | Some s => if str_is_empty s then uuid_stream env (uuid_counter w) else s
  | None => uuid_stream env (uuid_counter w)
  end.

(** The prompts' fallback texts, as [get_error_message] reads them. *)
Definition fallback_texts (env : Env) : list string :=
  default ["Sorry, something went wrong. Please try again."] (error_messages env).

(** Every fallback text can be the content of a [Message]. *)
Definition fallback_texts_valid (env : Env) : Prop :=
  fallback_texts env <> [] /\
  Forall (fun s => is_Ok (validate_content s) = true) (fallback_texts env).

(** The world [w] after the events [evs] were recorded. *)
Definition record_events (evs : list Event) (w : World) : World :=
  mkWorld (json_files w) (redis_messages w) (redis_meta w) (redis_index w)
          (initialized_providers w) (uuid_counter w) (clock w) (trace w ++ evs).

(** The system message [_get_rag_context_and_modify_messages] constructs
    from the note text in world [w]. *)
Definition leading_note (env : Env) (w : World) (note : string) : result Message :=
  match validate_content note with
  | Ok c => Ok (mkMessage (uuid_stream env (uuid_counter w)) c system (clock w)
                          (Some []) (Some "rag_context"))
  | Raise e => Raise e
  end.

Definition doc (text : string) : RetrievedDocument := mkRetrievedDocument text [].

Definition system_prompt : Message :=
  mkMessage "sys" "You are helpful." system 0%nat (Some []) (Some "s1").

Definition is_user (m : Message) : bool :=
  match role m with user => true | _ => false end.

(** An engine that rejects every write whose newest entry is an assistant
    message, and one that rejects every write whose newest entry is a user
    message. *)
Definition fail_assistant_writes (call : BackendCall) : option string :=
  if assistant_write call then Some "disk full" else None.

Definition fail_user_writes (call : BackendCall) : option string :=
  match call with
  | JsonSave c =>
      match last (messages c) with
      | Some m => if is_user m then Some "disk full" else None
      | None => None
      end
  | RedisAddMessage _ m => if is_user m then Some "disk full" else None
  | _ => None
  end.

(** An engine that cannot read the session files. *)
Definition fail_reads (call : BackendCall) : option string :=
  match call with
  | JsonLoad _ => Some "io error"
  | _ => None
  end.

(** A healthy Redis configured with [REDIS_TTL=0]. *)
Definition zero_ttl_env : Env :=
  mkEnv (mkSettings memory_redis 50 3 "openai" 0) no_faults (fun _ => "0000-uuid")
        (fun _ _ => Ok []) ["openai"; "gemini"] (fun _ => None)
        (fun _ _ _ => Ok "Hi!") None 0%nat false [] None.

(** An environment whose provider raises on every call. *)
Definition outage_env (mt : MemoryType) (limit : Z) : Env :=
  mkEnv (mkSettings mt limit 3 "openai" 86400) no_faults (fun _ => "0000-uuid")
        (fun _ _ => Ok []) ["openai"; "gemini"] (fun _ => None)
        (fun _ _ _ => Raise (ExternalError "provider down")) None 0%nat false [] None.

(** The same with the [error_messages] of the prompts file given. *)
Definition outage_env_with (mt : MemoryType) (limit : Z) (errs : list string) : Env :=
  mkEnv (mkSettings mt limit 3 "openai" 86400) no_faults (fun _ => "0000-uuid")
        (fun _ _ => Ok []) ["openai"; "gemini"] (fun _ => None)
        (fun _ _ _ => Raise (ExternalError "provider down")) (Some errs) 0%nat false [] None.

(** The world in which [process_message] makes its first append: a session
    id may have been drawn. *)
Definition after_session_choice (env : Env) (w : World) (sid : option string) : World :=
  match sid with
  | Some s => if str_is_empty s then snd (uuid4 env w) else w
  | None => snd (uuid4 env w)
  end.

(** Memory services whose [add_message] raises, as the unit tests of the
    handler install them: on every call, or for the assistant message. *)
Definition raising_memory (e : exn) : Services :=
  mkServices (fun _ _ => raise e) (fun _ _ _ => ret []) (fun _ _ => ret "Hi!")
             (fun _ _ _ => ret tt).

Definition raising_for_assistant (e : exn) : Services :=
  mkServices (fun _ m => if is_assistant m then raise e else ret true)
             (fun _ _ _ => ret []) (fun _ _ => ret "Hi!") (fun _ _ _ => ret tt).

(** * Properties *)

(** ** Retention, pagination and deletion *)

(** *** Slices and trimmed logs *)


Lemma newest_all {A} (n : Z) (l : list A) :
  py_len l <= n -> newest n l = l.
Proof.
  unfold newest, py_len. intros H.
  replace (length l - Z.to_nat n)%nat with 0%nat by lia. reflexivity.
Qed.

Lemma py_slice_tail {A} (n : Z) (l : list A) :
  1 <= n -> n < py_len l -> py_slice l (Some (- n)) None = newest n l.
Proof.
  unfold py_slice, newest, py_len, py_index. intros H1 H2. simpl.
  destruct (Z.ltb_spec (- n) 0); [|lia].
  rewrite Z.max_l by lia.
  replace (Z.to_nat (- n + Z.of_nat (length l))) with (length l - Z.to_nat n)%nat by lia.
  apply take_ge. rewrite length_drop. lia.
Qed.

Lemma newest_snoc {A} (n : Z) (l : list A) (x : A) :
  1 <= n -> newest n (newest n l ++ [x]) = newest n (l ++ [x]).
Proof.
  unfold newest. intros H. rewrite !length_app, length_drop. simpl.
  destruct (decide (length l < Z.to_nat n)%nat) as [Hlt|Hge].
  - replace (length l - Z.to_nat n)%nat with 0%nat by lia. simpl.
    rewrite Nat.sub_0_r. reflexivity.
  - replace (length l - (length l - Z.to_nat n) + 1 - Z.to_nat n)%nat with 1%nat by lia.
    rewrite drop_app_le by (rewrite length_drop; lia).
    rewrite drop_drop.
    rewrite (drop_app_le l) by lia.
    f_equal. f_equal. lia.
Qed.

Lemma ltrim_tail {A} (n : Z) (l : list A) :
  1 <= n -> l <> [] -> RedisStorageBackend.ltrim l (- n) (-1) = newest n l.
Proof.
  intros H Hl. unfold RedisStorageBackend.ltrim, newest.
  assert (0 < length l)%nat by (destruct l; simpl; [congruence|lia]).
  destruct (Z.ltb_spec (- n) 0); [|lia].
  destruct (Z.ltb_spec (-1) 0); [|lia].
  set (len := Z.of_nat (length l)).
  destruct (Z.ltb_spec (len + -1) (Z.max (len + - n) 0)); [lia|].
  destruct (Z.leb_spec len (Z.max (len + - n) 0)); [lia|]. simpl.
  replace (Z.to_nat (Z.max (len + - n) 0)) with (length l - Z.to_nat n)%nat by lia.
  apply take_ge. rewrite length_drop. lia.
Qed.

Lemma engine_healthy env call w : healthy env -> engine env call w = (Ok tt, w).
Proof. intros H. unfold engine. rewrite H. reflexivity. Qed.

Ltac run :=
  unfold MemoryService.add_message, MemoryService.load_conversation,
    MemoryService.save_conversation, MemoryService.delete_conversation,
    MemoryService.get_conversation_history,
    JSONStorageBackend.load_conversation, JSONStorageBackend.save_conversation,
    JSONStorageBackend.delete_conversation,
    RedisStorageBackend.add_message, RedisStorageBackend.load_conversation,
    RedisStorageBackend.delete_conversation,
    new_Conversation, logger, emit, utcnow, get_world, set_json_files, set_redis,
    try_except, bind, ret, raise, lift in *.

Ltac step H := repeat (rewrite (engine_healthy _ _ _ H); cbn).

Lemma json_add_message_step env sid m w :
  healthy env -> 1 <= max_history_messages (settings env) ->
  session_consistent w sid ->
  exists w',
    MemoryService.add_message env backend_json sid m w = (Ok true, w') /\
    session_consistent w' sid /\
    stored_log backend_json w' sid
    = newest (max_history_messages (settings env))
             (stored_log backend_json w sid ++ [as_stored backend_json sid m]).
Proof.
  intros Hh HN Hc. unfold session_consistent, stored_log in *. run.
  cbn. destruct (json_files w !! sid) as [c|] eqn:Hf; cbn; step Hh.
  - subst sid.
    destruct (Z.ltb_spec (max_history_messages (settings env))
                (py_len (messages c ++ [set_session_id m (Some (conv_session_id c))])));
      cbn; step Hh; (eexists; split; [reflexivity|]); cbn;
      rewrite lookup_insert_eq; (split; [reflexivity|]); cbn.
    + apply py_slice_tail; lia.
    + symmetry. apply newest_all. lia.
  - destruct (Z.ltb_spec (max_history_messages (settings env))
                (py_len [set_session_id m (Some sid)])).
    + unfold py_len in *; simpl in *; lia.
    + cbn; step Hh. eexists; split; [reflexivity|]. cbn.
      rewrite lookup_insert_eq. split; [reflexivity|]. cbn.
      symmetry. apply (newest_all _ [_]). unfold py_len in *; simpl in *; lia.
Qed.

Lemma expire_positive {A} sid ttl (keys : gmap string A) :
  0 < ttl -> RedisStorageBackend.expire sid ttl keys = keys.
Proof.
  intros H. unfold RedisStorageBackend.expire.
  destruct (Z.leb_spec ttl 0); [lia | reflexivity].
Qed.

Lemma redis_add_message_step env sid m w :
  healthy env -> 1 <= max_history_messages (settings env) ->
  0 < redis_ttl (settings env) ->
  exists w',
    MemoryService.add_message env backend_redis sid m w = (Ok true, w') /\
    stored_log backend_redis w' sid
    = newest (max_history_messages (settings env))
             (stored_log backend_redis w sid ++ [as_stored backend_redis sid m]).
Proof.
  intros Hh HN Ht. unfold stored_log. run. cbn. step Hh.
  eexists; split; [reflexivity|]. cbn. rewrite expire_positive by assumption.
  rewrite ltrim_tail by (try lia; destruct (default [] (redis_messages w !! sid)); discriminate).
  set (l := newest _ _).
  assert (l <> []).
  { subst l. unfold newest. intros E. apply (f_equal length) in E.
    rewrite length_drop, length_app in E. simpl in E. lia. }
  unfold RedisStorageBackend.store_list. destruct l; [congruence|].
  rewrite lookup_insert_eq. reflexivity.
Qed.

Lemma newest_newest_app {A} (n : Z) (l r : list A) :
  newest n (newest n l ++ r) = newest n (l ++ r).
Proof.
  unfold newest. rewrite !length_app, length_drop.
  destruct (decide (length l <= Z.to_nat n)%nat) as [Hle|Hgt].
  - replace (length l - Z.to_nat n)%nat with 0%nat by lia.
    rewrite Nat.sub_0_r. reflexivity.
  - rewrite !drop_app, drop_drop, length_drop. f_equal; f_equal; lia.
Qed.

Lemma newest_length {A} (n : Z) (l : list A) :
  0 <= n -> py_len (newest n l) = Z.min (py_len l) n.
Proof. unfold newest, py_len. intros H. rewrite length_drop. lia. Qed.

Lemma add_message_step env be sid m w :
  healthy env -> 1 <= max_history_messages (settings env) ->
  keys_persist env be ->
  session_consistent w sid ->
  exists w',
    MemoryService.add_message env be sid m w = (Ok true, w') /\
    session_consistent w' sid /\
    stored_log be w' sid
    = newest (max_history_messages (settings env))
             (stored_log be w sid ++ [as_stored be sid m]).
Proof.
  intros Hh HN Ht Hc. destruct be.
  - apply json_add_message_step; assumption.
  - destruct (redis_add_message_step env sid m w Hh HN Ht) as (w1 & E & L).
    exists w1. split; [assumption|]. split; [|assumption].
    revert E. clear -Hc Hh. unfold session_consistent in *. run. cbn. step Hh.
    intros [= <-]. cbn. assumption.
Qed.

Lemma add_messages_cons env be sid ms : forall m w,
  healthy env -> 1 <= max_history_messages (settings env) ->
  keys_persist env be ->
  session_consistent w sid ->
  exists w',
    add_messages env be sid (m :: ms) w = (Ok tt, w') /\
    session_consistent w' sid /\
    stored_log be w' sid
    = newest (max_history_messages (settings env))
             (stored_log be w sid ++ map (as_stored be sid) (m :: ms)).
Proof.
  induction ms as [|m2 ms IH]; intros m w Hh HN Ht Hc;
    destruct (add_message_step env be sid m w Hh HN Ht Hc) as (w1 & E1 & Hc1 & L1).
  - exists w1. split; [|split; assumption].
    cbn. unfold bind. rewrite E1. reflexivity.
  - destruct (IH m2 w1 Hh HN Ht Hc1) as (w' & E2 & Hc2 & L2).
    exists w'. split; [|split; [assumption|]].
    + change (add_messages env be sid (m :: m2 :: ms))
        with (bind (MemoryService.add_message env be sid m)
                   (fun _ => add_messages env be sid (m2 :: ms))).
      unfold bind at 1. rewrite E1. exact E2.
    + rewrite L2, L1, newest_newest_app, <- app_assoc. reflexivity.
Qed.

Lemma fresh_session_consistent w sid : fresh_session w sid -> session_consistent w sid.
Proof. intros [H _]. unfold session_consistent. rewrite H. exact I. Qed.

Lemma fresh_session_log be w sid : fresh_session w sid -> stored_log be w sid = [].
Proof. intros [H1 H2]. destruct be; unfold stored_log; [rewrite H1 | rewrite H2]; reflexivity. Qed.

(** Where the retention holds.  With healthy storage engines, a retention
    limit [max_history_messages] of at least 1 and, on Redis, a positive time
    to live, any sequence of [add_message] calls on a session that held
    nothing leaves exactly the newest [min (number appended) limit] messages,
    oldest first, on either backend. *)
Lemma add_messages_keep_newest env be sid ms w :
  healthy env ->
  1 <= max_history_messages (settings env) ->
  keys_persist env be ->
  fresh_session w sid ->
  exists w',
    add_messages env be sid ms w = (Ok tt, w') /\
    stored_log be w' sid
    = newest (max_history_messages (settings env)) (map (as_stored be sid) ms) /\
    py_len (stored_log be w' sid)
    = Z.min (py_len ms) (max_history_messages (settings env)).
Proof.
  intros Hh HN Ht Hf. destruct ms as [|m ms].
  - exists w. split; [reflexivity|]. rewrite (fresh_session_log be w sid Hf).
    split; [reflexivity|]. unfold py_len. simpl. lia.
  - destruct (add_messages_cons env be sid ms m w Hh HN Ht (fresh_session_consistent _ _ Hf))
      as (w' & E & _ & L).
    exists w'. split; [exact E|]. rewrite (fresh_session_log be w sid Hf), app_nil_l in L.
    rewrite L. split; [reflexivity|].
    rewrite newest_length by lia. unfold py_len. rewrite List.length_map. reflexivity.
Qed.

Lemma add_messages_keep_newest_witness :
  exists w',
    add_messages (test_env memory_redis 2 no_faults (Ok []) None) backend_redis "s1"
                 [m0; m1; m2] empty_world = (Ok tt, w') /\
    stored_log backend_redis w' "s1" = [m1; m2] /\
    py_len (stored_log backend_redis w' "s1") = 2.
Proof.
  destruct (add_messages_keep_newest (test_env memory_redis 2 no_faults (Ok []) None)
              backend_redis "s1" [m0; m1; m2] empty_world) as (w' & E & L & N).
  - intros call. reflexivity.
  - simpl. lia.
  - simpl. lia.
  - split; reflexivity.
  - exists w'. split; [exact E|]. split; [exact L | exact N].
Defined.

(** C6 at a failing input.  With the retention limit 0 the trim
    [messages[-0:]] is the whole list (as [LTRIM key 0 -1] keeps every
    entry), so three appends leave three messages where [min 3 0 = 0] are
    to remain. *)
Theorem retention_limit_zero_keeps_all :
  let env := test_env memory_json 0 no_faults (Ok []) None in
  let w' := snd (add_messages env backend_json "s1" [m0; m1; m2] empty_world) in
  stored_log backend_json w' "s1" = [m0; m1; m2] /\
  py_len (stored_log backend_json w' "s1")
  <> Z.min (py_len [m0; m1; m2]) (max_history_messages (settings env)).
Proof. vm_compute. split; [reflexivity | discriminate]. Qed.

(** The same on Redis, where the trim is [LTRIM key 0 -1]. *)
Lemma redis_limit_zero_keeps_all :
  let env := test_env memory_redis 0 no_faults (Ok []) None in
  stored_log backend_redis
    (snd (add_messages env backend_redis "s1" [m0; m1; m2] empty_world)) "s1"
  = [m0; m1; m2].
Proof. vm_compute. reflexivity. Qed.

(** The retention needs the reads as well.  When the session file cannot be
    read, [load_conversation] answers [None], and [add_message] starts a new
    conversation and reports [True]: three appends leave the last message
    alone. *)
Lemma failing_reads_reset_the_log :
  let env := test_env memory_json 50 fail_reads (Ok []) None in
  let r0 := MemoryService.add_message env backend_json "s1" m0 empty_world in
  let r1 := MemoryService.add_message env backend_json "s1" m1 (snd r0) in
  let r2 := MemoryService.add_message env backend_json "s1" m2 (snd r1) in
  (fst r0, fst r1, fst r2) = (Ok true, Ok true, Ok true)
  /\ stored_log backend_json (snd r2) "s1" = [m2].
Proof. vm_compute. split; reflexivity. Qed.

(** With a time to live of 0 the append itself deletes the keys: it reports
    [True], and the session cannot be loaded. *)
Lemma zero_ttl_keeps_nothing :
  let r := MemoryService.add_message zero_ttl_env backend_redis "s1" m0 empty_world in
  fst r = Ok true
  /\ stored_log backend_redis (snd r) "s1" = []
  /\ fst (MemoryService.load_conversation zero_ttl_env backend_redis "s1" (snd r))
     = Ok None.
Proof. vm_compute. repeat split; reflexivity. Qed.

(** *** The history route *)

(** C5 at a failing input.  A log of three messages read with
    [page_size = 2]: page 1 is trimmed to [m0; m1] (the look-ahead entry that
    is dropped is the newest message, not the oldest), page 2 is [m0]; the
    concatenation repeats [m0] and never delivers [m2]. *)
Theorem history_pages_repeat_and_skip :
  let env := test_env memory_json 50 no_faults (Ok []) None in
  fst (fetch_history 5 env backend_json "s1" 1 2 (world_with_log [m0; m1; m2]))
  = Ok [m0; m1; m0].
Proof. vm_compute. reflexivity. Qed.

Lemma load_conversation_json_healthy env sid w c :
  healthy env -> json_files w !! sid = Some c ->
  MemoryService.load_conversation env backend_json sid w
  = (Ok (Some c), snd (logger info "Conversation loaded" w)).
Proof.
  intros Hh Hf. run. cbn. rewrite Hf. cbn. step Hh. reflexivity.
Qed.

(** The same holds for every log longer than one page: page 1 stops one
    entry short of the newest message. *)
Lemma first_page_misses_newest env sid w c s :
  healthy env ->
  json_files w !! sid = Some c ->
  1 <= s <= 100 ->
  s < py_len (messages c) ->
  exists h w',
    ChatRoutes.get_chat_history env backend_json sid 1 s w = (Ok h, w') /\
    has_more h = true /\
    history_messages h
    = take (Z.to_nat s) (drop (Z.to_nat (py_len (messages c) - s - 1)) (messages c)).
Proof.
  intros Hh Hf Hs Hn.
  unfold ChatRoutes.get_chat_history, ChatRoutes.route_handlers.
  destruct (Z.ltb_spec 1 1); [lia|].
  destruct (Z.ltb_spec s 1); [lia|]. destruct (Z.ltb_spec 100 s); [lia|]. cbn [orb].
  unfold MemoryService.get_conversation_history.
  unfold try_except, bind at 1 2.
  rewrite (load_conversation_json_healthy env sid w c Hh Hf).
  cbn [snd logger emit].
  set (w1 := mkWorld _ _ _ _ _ _ _ _).
  assert (Hf1 : json_files w1 !! sid = Some c) by exact Hf.
  cbn [ret].
  set (page1 := py_slice (messages c) _ _).
  assert (Hp : page1 = drop (Z.to_nat (py_len (messages c) - s - 1)) (messages c)).
  { subst page1. unfold py_slice, py_index, py_len in *. cbn [from_option].
    replace ((1 - 1) * s) with 0 by lia. cbn [Z.ltb Z.compare].
    set (n := Z.of_nat (length (messages c))) in *.
    destruct (Z.ltb_spec (Z.max 0 (n - 0 - (s + 1))) 0); [lia|].
    destruct (Z.ltb_spec n 0); [lia|].
    rewrite !Z.min_l by lia. rewrite Z.max_r by lia.
    replace (n - 0 - (s + 1)) with (n - s - 1) by lia.
    apply take_ge. rewrite length_drop. lia. }
  assert (Hl : py_len page1 = s + 1).
  { rewrite Hp. unfold py_len in *. rewrite length_drop. lia. }
  unfold bind. rewrite (load_conversation_json_healthy env sid w1 c Hh Hf1).
  destruct (Z.ltb_spec s (py_len page1)); [|lia].
  cbn. eexists _, _. split; [reflexivity|]. cbn. split; [reflexivity|].
  unfold py_slice, py_index. cbn [from_option].
  destruct (Z.ltb_spec s 0); [lia|]. unfold py_len in Hl.
  rewrite Z.min_l by lia. rewrite Z.sub_0_r. cbn [Z.to_nat drop].
  rewrite Hp. reflexivity.
Qed.

(** *** The delete route *)

(** C7 at a failing input.  Deleting a session that was never stored
    answers with the success body, and so does deleting it a second time:
    no request is answered with "not found". *)
Theorem delete_of_absent_session_reports_success :
  let env := test_env memory_json 50 no_faults (Ok []) None in
  let first := ChatRoutes.delete_conversation env backend_json "absent" empty_world in
  let second := ChatRoutes.delete_conversation env backend_json "absent" (snd first) in
  fst first = Ok "Conversation deleted successfully" /\
  fst second = Ok "Conversation deleted successfully".
Proof. vm_compute. split; reflexivity. Qed.

(** For every backend and every engine behaviour, deleting a session that
    has no file succeeds. *)
Lemma delete_absent_any_backend env be sid w :
  json_files w !! sid = None ->
  fst (ChatRoutes.delete_conversation env be sid w) = Ok "Conversation deleted successfully".
Proof.
  intros Hf. unfold ChatRoutes.delete_conversation, ChatRoutes.route_handlers. run.
  destruct be; cbn.
  - rewrite Hf. reflexivity.
  - unfold engine. destruct (backend_fault env (RedisDelete sid)); cbn.
    + unfold raise. cbn. rewrite Hf. reflexivity.
    + reflexivity.
Qed.

(** The route has two outcomes only: the success body, or status 500.  The
    404 it raises when the service reports a failure is raised inside the
    [try] and taken by [except Exception]. *)
Lemma delete_route_never_404 env be sid w :
  fst (ChatRoutes.delete_conversation env be sid w) = Ok "Conversation deleted successfully"
  \/ fst (ChatRoutes.delete_conversation env be sid w)
     = Raise (HTTPException 500 "Internal server error").
Proof.
  unfold ChatRoutes.delete_conversation, ChatRoutes.route_handlers. run. run.
  unfold engine, raise, ret.
  destruct be; cbn.
  - destruct (json_files w !! sid); cbn; [|left; reflexivity].
    destruct (backend_fault env (JsonDelete sid)); cbn; [right|left]; reflexivity.
  - destruct (backend_fault env (RedisDelete sid)); cbn; [|left; reflexivity].
    destruct (json_files w !! sid); cbn; [|left; reflexivity].
    destruct (backend_fault env (JsonDelete sid)); cbn; [right|left]; reflexivity.
Qed.

(** ** Generation *)

(** *** What a computation leaves as it was *)

Section Preserves.
Context {S A B : Type} (obs : World -> S).

Lemma preserves_ret (a : A) : preserves obs (ret a).
Proof. intros w. reflexivity. Qed.

Lemma preserves_raise (e : exn) : preserves obs (@raise A e).
Proof. intros w. reflexivity. Qed.

Lemma preserves_lift (r : result A) : preserves obs (lift r).
Proof. intros w. reflexivity. Qed.

Lemma preserves_get_world : preserves obs get_world.
Proof. intros w. reflexivity. Qed.

Lemma preserves_bind (m : M A) (k : A -> M B) :
  preserves obs m -> (forall a, preserves obs (k a)) -> preserves obs (bind m k).
Proof.
  intros Hm Hk w. unfold bind. specialize (Hm w).
  destruct (m w) as [[a|e] w1]; cbn in *; [|exact Hm].
  rewrite (Hk a w1). exact Hm.
Qed.

Lemma preserves_try_except (body : M A) (handler : exn -> M A) :
  preserves obs body -> (forall e, preserves obs (handler e)) ->
  preserves obs (try_except body handler).
Proof.
  intros Hm Hk w. unfold try_except. specialize (Hm w).
  destruct (body w) as [[a|e] w1]; cbn in *; [exact Hm|].
  rewrite (Hk e w1). exact Hm.
Qed.

Lemma preserves_try_finally (body : M A) (cleanup : M unit) :
  preserves obs body -> preserves obs cleanup -> preserves obs (try_finally body cleanup).
Proof.
  intros Hm Hc w. unfold try_finally. specialize (Hm w).
  destruct (body w) as [r w1]; cbn in *. rewrite (Hc w1). exact Hm.
Qed.
End Preserves.

Lemma quiet_emit ev : is_generate ev = false -> preserves generate_calls (emit ev).
Proof.
  intros H w. unfold generate_calls, emit. cbn.
  rewrite List.filter_app. cbn. rewrite H. apply app_nil_r.
Qed.

Lemma quiet_logger l s : preserves generate_calls (logger l s).
Proof. apply quiet_emit. reflexivity. Qed.

Lemma quiet_uuid4 env : preserves generate_calls (uuid4 env).
Proof. intros w. reflexivity. Qed.

Lemma quiet_utcnow : preserves generate_calls utcnow.
Proof. intros w. reflexivity. Qed.

Lemma quiet_set_initialized_providers ps :
  preserves generate_calls (set_initialized_providers ps).
Proof. intros w. reflexivity. Qed.

Lemma quiet_set_json_files f : preserves generate_calls (set_json_files f).
Proof. intros w. reflexivity. Qed.

Lemma quiet_set_redis a b c : preserves generate_calls (set_redis a b c).
Proof. intros w. reflexivity. Qed.

Lemma store_emit ev : preserves store_of (emit ev).
Proof. intros w. reflexivity. Qed.

Lemma store_logger l s : preserves store_of (logger l s).
Proof. intros w. reflexivity. Qed.

Lemma store_uuid4 env : preserves store_of (uuid4 env).
Proof. intros w. reflexivity. Qed.

Lemma store_utcnow : preserves store_of utcnow.
Proof. intros w. reflexivity. Qed.

Lemma store_set_initialized_providers ps :
  preserves store_of (set_initialized_providers ps).
Proof. intros w. reflexivity. Qed.

Create HintDb preserves.
#[local] Hint Resolve preserves_ret preserves_raise preserves_lift preserves_get_world
  quiet_logger quiet_uuid4 quiet_utcnow quiet_set_initialized_providers
  quiet_set_json_files quiet_set_redis
  store_emit store_logger store_uuid4 store_utcnow store_set_initialized_providers
  : preserves.

Ltac preserves_step :=
  first
    [ solve [auto with preserves]
    | apply quiet_emit; reflexivity
    | apply preserves_bind; [|intros ?]
    | apply preserves_try_except; [|intros ?]
    | apply preserves_try_finally
    | match goal with
      | |- preserves _ (match ?x with _ => _ end) => destruct x
      | |- preserves _ (if ?b then _ else _) => destruct b
      end ].

Ltac preserves_tac := unfold quiet; repeat preserves_step.

Lemma preserves_engine {S} (obs : World -> S) env call : preserves obs (engine env call).
Proof. unfold engine. preserves_tac. Qed.
#[local] Hint Resolve preserves_engine : preserves.

Lemma quiet_new_Message env c r sid : quiet (new_Message env c r sid).
Proof. unfold new_Message. preserves_tac. Qed.

Lemma store_new_Message env c r sid : preserves store_of (new_Message env c r sid).
Proof. unfold new_Message. preserves_tac. Qed.

Lemma quiet_get_provider env p : quiet (AIService.get_provider env p).
Proof. unfold AIService.get_provider. preserves_tac. Qed.

Lemma store_get_provider env p : preserves store_of (AIService.get_provider env p).
Proof. unfold AIService.get_provider. preserves_tac. Qed.

Lemma quiet_query env q k : quiet (VectorMemoryService.query env q k).
Proof. unfold VectorMemoryService.query. preserves_tac. Qed.

Lemma store_query env q k : preserves store_of (VectorMemoryService.query env q k).
Proof. unfold VectorMemoryService.query. preserves_tac. Qed.

#[local] Hint Resolve quiet_new_Message quiet_get_provider quiet_query
  store_new_Message store_get_provider store_query : preserves.

Lemma quiet_get_rag env message context :
  quiet (AIService._get_rag_context_and_modify_messages env message context).
Proof. unfold AIService._get_rag_context_and_modify_messages. preserves_tac. Qed.

Lemma store_get_rag env message context :
  preserves store_of (AIService._get_rag_context_and_modify_messages env message context).
Proof. unfold AIService._get_rag_context_and_modify_messages. preserves_tac. Qed.

Lemma store_generate_response env message context provider :
  preserves store_of (AIService.generate_response env message context provider).
Proof.
  unfold AIService.generate_response, AIService._get_fallback_response,
    PromptManager.get_error_message.
  pose proof store_get_rag. preserves_tac.
Qed.

Lemma rag_context_is_unbound :
  resolve_name generate_response_locals ai_service_globals "rag_context"
  = Raise (NameError "rag_context").
Proof. vm_compute. reflexivity. Qed.

Lemma generate_response_body_raises env message context provider w :
  exists e w1,
    bind (AIService.get_provider env provider)
      (fun ai_provider =>
         bind (AIService._get_rag_context_and_modify_messages env message context)
           (fun x =>
              match x with
              | (modified_context, rag_enabled) =>
                  bind (lift (resolve_name generate_response_locals ai_service_globals
                                "rag_context"))
                    (fun _ =>
                       bind (logger info "AI request started")
                         (fun _ =>
                            bind (emit (ProviderGenerate ai_provider message modified_context))
                              (fun _ =>
                                 bind (lift (provider_generate env ai_provider message
                                               modified_context))
                                   (fun response => ret response))))
              end)) w
    = (Raise e, w1)
    /\ generate_calls w1 = generate_calls w /\ store_of w1 = store_of w.
Proof.
  unfold bind at 1.
  pose proof (quiet_get_provider env provider w) as Q1.
  pose proof (store_get_provider env provider w) as S1.
  destruct (AIService.get_provider env provider w) as [[name|e] w1]; cbn in Q1, S1;
    [|eauto].
  unfold bind at 1.
  pose proof (quiet_get_rag env message context w1) as Q2.
  pose proof (store_get_rag env message context w1) as S2.
  destruct (AIService._get_rag_context_and_modify_messages env message context w1)
    as [[[mc re]|e] w2]; cbn in Q2, S2;
    [|exists e, w2; split; [reflexivity|split; congruence]].
  unfold bind at 1. rewrite rag_context_is_unbound. cbn.
  exists (NameError "rag_context"), w2. split; [reflexivity|split; congruence].
Qed.

Lemma generate_response_run env message context provider w :
  exists w',
    AIService.generate_response env message context provider w
    = (fst (AIService._get_fallback_response env w), w')
    /\ generate_calls w' = generate_calls w /\ store_of w' = store_of w.
Proof.
  unfold AIService.generate_response, try_finally, try_except.
  destruct (generate_response_body_raises env message context provider w)
    as (e & w1 & -> & Hq & Hs).
  unfold bind, logger, emit. cbn.
  eexists. split; [reflexivity|]. split.
  - unfold generate_calls in *. cbn. rewrite !List.filter_app. cbn.
    rewrite !app_nil_r. exact Hq.
  - exact Hs.
Qed.

(** C3.  For every message, context, requested provider and provider
    behaviour, [generate_response] returns what [_get_fallback_response]
    (that is, [PromptManager.get_error_message]) yields, and records no call
    of a provider's [generate_response]: every run that gets past retrieval
    stops at the unbound name [rag_context]. *)
Theorem generate_response_always_falls_back env message context provider w :
  fst (AIService.generate_response env message context provider w)
  = fst (AIService._get_fallback_response env w)
  /\ generate_calls (snd (AIService.generate_response env message context provider w))
     = generate_calls w.
Proof.
  destruct (generate_response_run env message context provider w) as (w' & -> & Hq & _).
  split; [reflexivity | exact Hq].
Qed.

(** *** Retrieval and the note it adds *)

Lemma query_raises env message w e :
  collection_query env message (rag_top_k (settings env)) = Raise e ->
  VectorMemoryService.query env message (rag_top_k (settings env)) w
  = (Raise e,
     record_events [ChromaQuery message (rag_top_k (settings env));
                    Log error "Failed to query ChromaDB"] w).
Proof.
  intros H. unfold VectorMemoryService.query, try_except, bind, emit, logger, lift, raise.
  cbn. rewrite H. cbn. unfold record_events. cbn. rewrite <- app_assoc. reflexivity.
Qed.

Lemma query_returns env message w docs :
  collection_query env message (rag_top_k (settings env)) = Ok docs ->
  VectorMemoryService.query env message (rag_top_k (settings env)) w
  = (Ok docs,
     record_events [ChromaQuery message (rag_top_k (settings env));
                    Log info "ChromaDB query successful"] w).
Proof.
  intros H. unfold VectorMemoryService.query, try_except, bind, emit, logger, lift, raise.
  cbn. rewrite H. cbn. unfold record_events. cbn. rewrite <- app_assoc. reflexivity.
Qed.

(** C4, amended.  When the provider is available and the collection query
    raises, [generate_response] logs the retrieval error, takes the catch-all
    handler and returns the fallback text; the query is the last collaborator
    it calls, so no provider is asked to generate.  The request is not
    aborted. *)
Theorem retrieval_failure_yields_fallback env message context provider w name w1 e :
  AIService.get_provider env provider w = (Ok name, w1) ->
  collection_query env message (rag_top_k (settings env)) = Raise e ->
  AIService.generate_response env message context provider w
  = (fst (AIService._get_fallback_response env w),
     record_events [ChromaQuery message (rag_top_k (settings env));
                    Log error "Failed to query ChromaDB";
                    Log error "AI generation failed";
                    Log info "AI request completed"] w1).
Proof.
  intros Hp Hq.
  unfold AIService.generate_response, try_finally, try_except.
  unfold bind at 1. rewrite Hp.
  unfold AIService._get_rag_context_and_modify_messages.
  unfold bind at 1 2. rewrite (query_raises env message w1 e Hq).
  unfold bind, logger, emit, record_events. cbn.
  rewrite <- !app_assoc. reflexivity.
Qed.

Lemma retrieval_failure_yields_fallback_witness :
  let env := test_env memory_json 50 no_faults (Raise (ExternalError "chroma down")) None in
  fst (AIService.generate_response env "Hello" [] None empty_world)
  = Ok "Sorry, something went wrong. Please try again.".
Proof.
  intros env.
  rewrite (retrieval_failure_yields_fallback env "Hello" [] None empty_world "openai"
             (snd (AIService.get_provider env None empty_world))
             (ExternalError "chroma down") eq_refl eq_refl).
  reflexivity.
Defined.

(** C4 as stated fails: with a raising collection query no provider call is
    recorded and the result is not the provider's answer. *)
Lemma retrieval_failure_skips_provider :
  let env := test_env memory_json 50 no_faults (Raise (ExternalError "chroma down")) None in
  let run := AIService.generate_response env "Hello" [] None empty_world in
  generate_calls (snd run) = [] /\
  fst run <> provider_generate env "openai" "Hello" [].
Proof. vm_compute. split; [reflexivity | discriminate]. Qed.

(** C9, amended.  When the query returns documents, the note text is
    appended to the content of the context's first message if that is a
    system message (no message is added); otherwise a system message holding
    the validated note is inserted at the head, or the validation error of
    the note is raised. *)
Theorem rag_note_placement env message context docs w :
  collection_query env message (rag_top_k (settings env)) = Ok docs ->
  docs <> [] ->
  fst (AIService._get_rag_context_and_modify_messages env message context w)
  = match context with
    | first :: rest =>
        match role first with
        | system =>
            Ok (set_content first (content first +:+ AIService.rag_note docs) :: rest, true)
        | _ =>
            match leading_note env w (AIService.rag_note docs) with
            | Ok note => Ok (note :: context, true)
            | Raise e => Raise e
            end
        end
    | [] =>
        match leading_note env w (AIService.rag_note docs) with
        | Ok note => Ok ([note], true)
        | Raise e => Raise e
        end
    end.
Proof.
  intros Hq Hd.
  unfold AIService._get_rag_context_and_modify_messages.
  unfold bind at 1. rewrite (query_returns env message w docs Hq).
  destruct docs as [|d ds]; [congruence|].
  set (note := AIService.rag_note (d :: ds)).
  assert (Hn : str_is_empty note = false) by reflexivity.
  unfold bind at 1. unfold bind at 1. cbn [logger emit ret]. rewrite Hn. cbn [negb].
  unfold leading_note, new_Message, bind, uuid4, utcnow, lift, ret, record_events.
  destruct context as [|first rest]; cbn.
  - destruct (validate_content note); reflexivity.
  - destruct (role first); cbn; try reflexivity;
      destruct (validate_content note); reflexivity.
Qed.

Lemma rag_note_placement_witness :
  let env := test_env memory_json 50 no_faults (Ok [doc "D1"; doc "D2"]) None in
  fst (AIService._get_rag_context_and_modify_messages env "q" [system_prompt] empty_world)
  = Ok ([set_content system_prompt
           ("You are helpful." +:+ nl +:+ nl +:+ "Relevant information from memory:"
            +:+ nl +:+ "D1" +:+ nl +:+ "D2")], true).
Proof.
  intros env.
  rewrite (rag_note_placement env "q" [system_prompt] [doc "D1"; doc "D2"] empty_world
             eq_refl).
  - reflexivity.
  - discriminate.
Defined.

(** C9 as stated fails: with an existing system message the result is one
    message, the existing prompt followed by the note; no note message stands
    ahead of the system message. *)
Lemma rag_note_is_merged_not_prepended :
  let env := test_env memory_json 50 no_faults (Ok [doc "D1"]) None in
  let run :=
    AIService._get_rag_context_and_modify_messages env "q" [system_prompt] empty_world in
  (exists merged,
     fst run = Ok ([merged], true) /\
     content merged
     = "You are helpful." +:+ nl +:+ nl +:+ "Relevant information from memory:"
       +:+ nl +:+ "D1")
  /\ forall note, fst run <> Ok ([note; system_prompt], true).
Proof.
  split.
  - eexists. vm_compute. split; reflexivity.
  - intros note. vm_compute. discriminate.
Qed.

(** ** The message pipeline *)

(** *** Its stages *)

Lemma bind_ok {A B} (m : M A) (k : A -> M B) w a w1 :
  m w = (Ok a, w1) -> bind m k w = k a w1.
Proof. intros H. unfold bind. rewrite H. reflexivity. Qed.

Lemma bind_raise {A B} (m : M A) (k : A -> M B) w e w1 :
  m w = (Raise e, w1) -> bind m k w = (Raise e, w1).
Proof. intros H. unfold bind. rewrite H. reflexivity. Qed.

Lemma try_except_ok {A} (body : M A) h w a w1 :
  body w = (Ok a, w1) -> try_except body h w = (Ok a, w1).
Proof. intros H. unfold try_except. rewrite H. reflexivity. Qed.

Lemma try_except_raise {A} (body : M A) h w e w1 :
  body w = (Raise e, w1) -> try_except body h w = h e w1.
Proof. intros H. unfold try_except. rewrite H. reflexivity. Qed.

(** The memory service reports a failure by its result, never by raising. *)
Lemma add_message_never_raises env be sid m w :
  exists b w', MemoryService.add_message env be sid m w = (Ok b, w').
Proof.
  unfold MemoryService.add_message, try_except.
  match goal with |- context [match ?x w with _ => _ end] => destruct (x w) as [[b|e] w1] end.
  - eauto.
  - unfold bind, logger, emit, ret. cbn. eauto.
Qed.

Lemma load_conversation_never_raises env be sid w :
  exists c w', MemoryService.load_conversation env be sid w = (Ok c, w').
Proof.
  unfold MemoryService.load_conversation, try_except.
  match goal with |- context [match ?x w with _ => _ end] => destruct (x w) as [[b|e] w1] end.
  - eauto.
  - unfold bind, logger, emit, ret. cbn. eauto.
Qed.

Lemma get_conversation_history_never_raises env be sid limit offset w :
  exists ms w',
    MemoryService.get_conversation_history env be sid limit offset w = (Ok ms, w').
Proof.
  unfold MemoryService.get_conversation_history.
  destruct (load_conversation_never_raises env be sid w) as (c & w1 & E).
  rewrite (bind_ok _ _ _ _ _ E). destruct c; unfold ret; eauto.
Qed.

Lemma research_is_guarded env um ar sid w :
  exists t,
    try_except (ResearchService.trigger_research_if_needed env um ar sid)
               (fun e => logger error "Failed to trigger research agent") w
    = (Ok tt, record_events t w).
Proof.
  unfold ResearchService.trigger_research_if_needed, try_except.
  destruct (celery_available env); cbn.
  - destruct (existsb _ _); cbn.
    + unfold bind, logger, emit, raise, ret. cbn.
      destruct (celery_fault env); cbn; unfold record_events; cbn;
        eexists; rewrite <- !app_assoc; reflexivity.
    + exists []. unfold ret, record_events. rewrite app_nil_r. destruct w; reflexivity.
  - eexists. reflexivity.
Qed.

Lemma session_choice env sid w :
  exists w0,
    match sid with
    | Some s => if str_is_empty s then uuid4 env else ret s
    | None => uuid4 env
    end w = (Ok (effective_session env w sid), w0)
    /\ trace w0 = trace w /\ store_of w0 = store_of w.
Proof.
  unfold effective_session. destruct sid as [s|]; [destruct (str_is_empty s)|];
    eexists; (split; [reflexivity|split; reflexivity]).
Qed.

Lemma new_Message_valid env c r sid w :
  is_Ok (validate_content c) = true ->
  exists m w',
    new_Message env c r sid w = (Ok m, w') /\ role m = r /\
    validate_content c = Ok (content m) /\ session_id m = sid /\
    trace w' = trace w /\ store_of w' = store_of w.
Proof.
  intros H. unfold new_Message, bind, uuid4, lift, utcnow, ret. cbn.
  destruct (validate_content c) as [c'|]; [|discriminate]. cbn.
  eexists _, _. split; [reflexivity|]. cbn. repeat split; reflexivity.
Qed.

Lemma last_py_slice_tail {A} (l : list A) (x : A) (n : Z) :
  0 <= n -> n < py_len (l ++ [x]) ->
  last (py_slice (l ++ [x]) (Some (- n)) None) = Some x.
Proof.
  intros H0 Hlt. unfold py_slice, py_index, py_len in *. cbn [from_option].
  rewrite length_app in *. cbn [length] in *.
  set (len := Z.of_nat (length l + 1)) in *.
  assert (exists k, (k <= length l)%nat /\
            (if - n <? 0 then Z.max (- n + len) 0 else Z.min (- n) len) = Z.of_nat k)
    as (k & Hk & ->).
  { destruct (Z.ltb_spec (- n) 0).
    - exists (Z.to_nat (- n + len)). subst len. lia.
    - exists 0%nat. subst len. lia. }
  rewrite Nat2Z.id.
  rewrite take_ge by (rewrite length_drop, length_app; cbn; subst len; lia).
  rewrite drop_app_le by lia. apply last_snoc.
Qed.

Lemma add_message_assistant_fails env be sid m w :
  is_assistant m = true ->
  0 <= max_history_messages (settings env) ->
  (forall call, assistant_write call = true -> backend_fault env call <> None) ->
  exists pre w',
    MemoryService.add_message env be sid m w = (Ok false, w') /\
    trace w' = trace w ++ pre ++ failure_log be /\
    store_of w' = store_of w.
Proof.
  intros Hm HN Hf. unfold MemoryService.add_message. destruct be.
  - destruct (load_conversation_never_raises env backend_json sid w) as (c & w1 & E).
    assert (Ht : exists pre, trace w1 = trace w ++ pre /\ store_of w1 = store_of w).
    { revert E. unfold MemoryService.load_conversation, JSONStorageBackend.load_conversation,
        try_except, bind, get_world, engine, logger, emit, raise, ret. cbn.
      destruct (json_files w !! sid); cbn.
      - destruct (backend_fault env (JsonLoad sid)); cbn; intros [= <- <-]; cbn; eauto.
      - intros [= <- <-]. exists []. rewrite app_nil_r. split; reflexivity. }
    destruct Ht as (pre & Ht & Hs).
    assert (exists conv w2,
               match c with Some c => ret c | None => new_Conversation sid end w1
               = (Ok conv, w2) /\ trace w2 = trace w1 /\ store_of w2 = store_of w1)
      as (conv & w2 & E2 & Ht2 & Hs2).
    { destruct c; eexists _, _; (split; [reflexivity|split; reflexivity]). }
    set (n := max_history_messages (settings env)) in *.
    set (conv1 := Conversation_add_message conv m (clock w2)).
    set (conv2 := if n <? py_len (messages conv1)
                  then set_messages conv1 (py_slice (messages conv1) (Some (- n)) None)
                  else conv1).
    assert (Hlast : assistant_write (JsonSave conv2) = true).
    { cbn. subst conv2 conv1. cbn.
      destruct (Z.ltb_spec n (py_len (messages conv ++ [set_session_id m (Some (conv_session_id conv))]))).
      - cbn. rewrite last_py_slice_tail by assumption. exact Hm.
      - cbn. rewrite last_snoc. exact Hm. }
    specialize (Hf _ Hlast).
    unfold try_except. rewrite (bind_ok _ _ _ _ _ E). rewrite (bind_ok _ _ _ _ _ E2).
    unfold bind at 1. cbn [utcnow].
    unfold MemoryService.save_conversation, JSONStorageBackend.save_conversation,
      try_except, bind, engine, logger, emit, raise, ret. fold n. fold conv1. fold conv2.
    destruct (backend_fault env (JsonSave conv2)); [|congruence]. cbn.
    exists pre. eexists. split; [reflexivity|]. cbn. rewrite Ht2, Ht, <- app_assoc.
    split; [reflexivity|]. rewrite <- Hs, <- Hs2. reflexivity.
  - assert (Hw : assistant_write (RedisAddMessage sid m) = true) by exact Hm.
    specialize (Hf _ Hw).
    unfold RedisStorageBackend.add_message, try_except, bind, utcnow, engine, logger,
      emit, raise, ret. cbn.
    destruct (backend_fault env (RedisAddMessage sid m)); [|congruence]. cbn.
    exists []. eexists. split; [reflexivity|]. cbn. rewrite <- app_assoc.
    split; reflexivity.
Qed.

(** *** A storage failure after generation *)

(** C1.  Over the application's memory service, when the storage engine
    rejects the write that carries the assistant message, [process_message]
    still returns the reply text that was produced: the memory service logs
    the failure and reports it by its result, nothing is raised, and the
    handler goes on to its background work. *)
Theorem reply_survives_failed_assistant_write env be sid message w r :
  str_is_empty (str_strip (content message)) = false ->
  fst (AIService._get_fallback_response env w) = Ok r ->
  is_Ok (validate_content r) = true ->
  0 <= max_history_messages (settings env) ->
  (forall call, assistant_write call = true -> backend_fault env call <> None) ->
  exists reply w' before after,
    MessageHandlerService.process_message env
      (MessageHandlerService.default_services env be) sid message w = (Ok reply, w')
    /\ reply_message reply = r
    /\ reply_session_id reply = effective_session env w sid
    /\ trace w'
       = before ++ failure_log be
         ++ CreateTask_populate_vector_memory (content message) r
              (effective_session env w sid) :: after.
Proof.
  intros Hne Hr Hv HN Hf.
  unfold MessageHandlerService.process_message. rewrite Hne.
  destruct (session_choice env sid w) as (w0 & E0 & _ & _).
  rewrite (bind_ok _ _ _ _ _ E0). clear E0.
  set (s := effective_session env w sid).
  cbn [memory_add_message memory_get_conversation_history ai_generate_response
       research_trigger_research_if_needed MessageHandlerService.default_services].
  destruct (add_message_never_raises env be s (set_session_id message (Some s)) w0)
    as (b1 & w1 & E1).
  unfold bind at 1.
  rewrite (try_except_ok _ _ w0 tt w1) by (rewrite (bind_ok _ _ _ _ _ E1); reflexivity).
  destruct (get_conversation_history_never_raises env be s 10 0 w1) as (ctx & w2 & E2).
  rewrite (bind_ok _ _ _ _ _ E2).
  destruct (generate_response_run env (content (set_session_id message (Some s)))
              (py_slice ctx None (Some (-1))) None w2) as (w3 & E3 & _ & _).
  change (fst (AIService._get_fallback_response env w2)) with
    (fst (AIService._get_fallback_response env w)) in E3. rewrite Hr in E3.
  unfold bind at 1. rewrite (try_except_ok _ _ w2 r w3) by exact E3.
  destruct (new_Message_valid env r assistant (Some s) w3 Hv)
    as (ai & w4 & E4 & Hrole & _ & _ & Ht4 & _).
  rewrite (bind_ok _ _ _ _ _ E4).
  assert (Ha : is_assistant ai = true) by (unfold is_assistant; rewrite Hrole; reflexivity).
  destruct (add_message_assistant_fails env be s ai w4 Ha HN Hf)
    as (pre & w5 & E5 & Ht5 & _).
  unfold bind at 1.
  rewrite (try_except_ok _ _ w4 tt w5) by (rewrite (bind_ok _ _ _ _ _ E5); reflexivity).
  unfold bind at 1. cbn [emit].
  match goal with |- context [bind _ _ ?w6] => set (w6' := w6) end.
  destruct (research_is_guarded env (content (set_session_id message (Some s))) r (Some s) w6')
    as (t & E6).
  unfold bind. rewrite E6. unfold ret.
  eexists _, _, (trace w4 ++ pre), t. split; [reflexivity|]. cbn.
  split; [reflexivity|]. split; [reflexivity|].
  rewrite Ht5, <- !app_assoc. reflexivity.
Qed.

Lemma reply_survives_failed_assistant_write_witness :
  let env := test_env memory_json 50 fail_assistant_writes (Ok []) None in
  exists reply w' before after,
    MessageHandlerService.process_message env
      (MessageHandlerService.default_services env backend_json) (Some "s1")
      (test_message "u1" "Hello" user) empty_world = (Ok reply, w')
    /\ reply_message reply = "Sorry, something went wrong. Please try again."
    /\ reply_session_id reply = "s1"
    /\ trace w'
       = before ++ [Log error "Failed to save conversation"]
         ++ CreateTask_populate_vector_memory "Hello"
              "Sorry, something went wrong. Please try again." "s1" :: after.
Proof.
  intros env.
  apply (reply_survives_failed_assistant_write env backend_json (Some "s1")
           (test_message "u1" "Hello" user) empty_world
           "Sorry, something went wrong. Please try again.").
  - reflexivity.
  - reflexivity.
  - reflexivity.
  - simpl. lia.
  - intros call H. unfold env, test_env, fail_assistant_writes. simpl.
    rewrite H. discriminate.
Defined.

(** *** A storage failure before generation *)

(** C2 at a failing input.  The engine rejects the write of the user
    message; the memory service logs that and returns [False], which the
    handler does not look at: retrieval is queried, a reply is produced,
    stored and returned, and the stored log holds the assistant message
    without the prompt. *)
Theorem user_write_failure_does_not_abort :
  let env := test_env memory_json 50 fail_user_writes (Ok []) None in
  let run :=
    MessageHandlerService.process_message env
      (MessageHandlerService.default_services env backend_json) (Some "s1")
      (test_message "u1" "Hello" user) empty_world in
  fst run = Ok (mkReply "Sorry, something went wrong. Please try again."
                        "0000-uuid" "s1" "assistant")
  /\ map role (stored_log backend_json (snd run) "s1") = [assistant]
  /\ trace (snd run)
     = [Log error "Failed to save conversation"; ProviderInit "openai";
        Log info "provider initialized"; ChromaQuery "Hello" 3;
        Log info "ChromaDB query successful";
        Log error "AI generation failed"; Log info "AI request completed";
        Log info "Conversation saved";
        CreateTask_populate_vector_memory "Hello"
          "Sorry, something went wrong. Please try again." "s1";
        Log warning "Celery worker not available, research_and_learn not imported"].
Proof. vm_compute. repeat split; reflexivity. Qed.

Lemma new_Message_raises_validation env c r sid w e w' :
  new_Message env c r sid w = (Raise e, w') -> is_MemoryServiceException e = false.
Proof.
  unfold new_Message, bind, uuid4, lift, utcnow, ret, validate_content. cbn.
  repeat match goal with |- context [if ?b then _ else _] => destruct b end;
    cbn; intros [= <- <-]; reflexivity.
Qed.

(** Over the application's own memory service, [process_message] never
    raises [MemoryServiceException], whatever the storage engines do. *)
Lemma process_message_never_raises_memory_error env be sid message w :
  match fst (MessageHandlerService.process_message env
               (MessageHandlerService.default_services env be) sid message w) with
  | Ok _ => True
  | Raise e => is_MemoryServiceException e = false
  end.
Proof.
  unfold MessageHandlerService.process_message.
  destruct (str_is_empty (str_strip (content message))); [reflexivity|].
  destruct (session_choice env sid w) as (w0 & E0 & _ & _).
  rewrite (bind_ok _ _ _ _ _ E0). clear E0.
  set (s := effective_session env w sid).
  cbn [memory_add_message memory_get_conversation_history ai_generate_response
       research_trigger_research_if_needed MessageHandlerService.default_services].
  destruct (add_message_never_raises env be s (set_session_id message (Some s)) w0)
    as (b1 & w1 & E1).
  unfold bind at 1.
  rewrite (try_except_ok _ _ w0 tt w1) by (rewrite (bind_ok _ _ _ _ _ E1); reflexivity).
  destruct (get_conversation_history_never_raises env be s 10 0 w1) as (ctx & w2 & E2).
  rewrite (bind_ok _ _ _ _ _ E2).
  destruct (generate_response_run env (content (set_session_id message (Some s)))
              (py_slice ctx None (Some (-1))) None w2) as (w3 & E3 & _ & _).
  unfold bind at 1.
  destruct (fst (AIService._get_fallback_response env w2)) as [r|e].
  2:{ rewrite (try_except_raise _ _ w2 e w3) by exact E3. reflexivity. }
  rewrite (try_except_ok _ _ w2 r w3) by exact E3.
  unfold bind at 1.
  destruct (new_Message env r assistant (Some s) w3) as [[ai|e] w4] eqn:E4.
  2:{ cbn. exact (new_Message_raises_validation _ _ _ _ _ _ _ E4). }
  destruct (add_message_never_raises env be s ai w4) as (b5 & w5 & E5).
  unfold bind at 1.
  rewrite (try_except_ok _ _ w4 tt w5) by (rewrite (bind_ok _ _ _ _ _ E5); reflexivity).
  unfold bind at 1. cbn [emit].
  match goal with |- context [bind _ _ ?w6] => set (w6' := w6) end.
  destruct (research_is_guarded env (content (set_session_id message (Some s))) r (Some s) w6')
    as (t & E6).
  unfold bind. rewrite E6. exact I.
Qed.

(** With a memory service whose [add_message] raises, the handler aborts
    before anything else runs. *)
Lemma process_message_aborts_when_add_raises env self sid message w e w1 :
  str_is_empty (str_strip (content message)) = false ->
  memory_add_message self (effective_session env w sid)
    (set_session_id message (Some (effective_session env w sid)))
    (after_session_choice env w sid) = (Raise e, w1) ->
  MessageHandlerService.process_message env self sid message w
  = (Raise (MemoryServiceException "Failed to save user message" (exn_str e)),
     record_events [Log error "Error adding user message to memory"] w1).
Proof.
  intros Hne Hadd. unfold MessageHandlerService.process_message. rewrite Hne.
  assert (E0 : match sid with
               | Some s => if str_is_empty s then uuid4 env else ret s
               | None => uuid4 env
               end w = (Ok (effective_session env w sid), after_session_choice env w sid)).
  { unfold effective_session, after_session_choice.
    destruct sid as [s|]; [destruct (str_is_empty s)|]; reflexivity. }
  rewrite (bind_ok _ _ _ _ _ E0).
  apply bind_raise. unfold try_except. rewrite (bind_raise _ _ _ _ _ Hadd).
  reflexivity.
Qed.

(** The scenario of [test_process_message_memory_error]: a memory service
    whose [add_message] raises makes the handler abort at once. *)
Example handler_aborts_on_raising_memory :
  let env := test_env memory_json 50 no_faults (Ok []) None in
  MessageHandlerService.process_message env (raising_memory (ExternalError "mem fail"))
    (Some "s1") (test_message "u1" "Hello" user) empty_world
  = (Raise (MemoryServiceException "Failed to save user message" "mem fail"),
     record_events [Log error "Error adding user message to memory"] empty_world).
Proof.
  intros env.
  apply (process_message_aborts_when_add_raises env _ (Some "s1") _ empty_world
           (ExternalError "mem fail") empty_world); reflexivity.
Qed.

(** The scenario of [test_process_message_ai_save_error]: a memory service
    whose [add_message] raises for the assistant message makes the handler
    raise and drop the reply.  Over the application's memory service this
    branch is out of reach, since its [add_message] never raises
    ([add_message_never_raises]). *)
Example handler_raises_on_raising_assistant_add :
  let env := test_env memory_json 50 no_faults (Ok []) None in
  fst (MessageHandlerService.process_message env
         (raising_for_assistant (ExternalError "ai save fail"))
         (Some "s1") (test_message "u1" "Hello" user) empty_world)
  = Raise (MemoryServiceException "Failed to save AI message" "ai save fail").
Proof. vm_compute. reflexivity. Qed.

(** *** A provider outage *)

Lemma stored_log_store be w w' sid :
  store_of w' = store_of w -> stored_log be w' sid = stored_log be w sid.
Proof.
  unfold store_of. intros [= H1 H2 H3 H4]. unfold stored_log. rewrite H1, H2. reflexivity.
Qed.

Lemma session_consistent_store w w' sid :
  store_of w' = store_of w -> session_consistent w sid -> session_consistent w' sid.
Proof.
  unfold store_of. intros [= H1 H2 H3 H4]. unfold session_consistent. rewrite H1. tauto.
Qed.

Lemma store_load_conversation env be sid :
  preserves store_of (MemoryService.load_conversation env be sid).
Proof.
  unfold MemoryService.load_conversation, JSONStorageBackend.load_conversation,
    RedisStorageBackend.load_conversation.
  destruct be; preserves_tac.
Qed.

Lemma store_get_conversation_history env be sid limit offset :
  preserves store_of (MemoryService.get_conversation_history env be sid limit offset).
Proof.
  unfold MemoryService.get_conversation_history. pose proof store_load_conversation.
  preserves_tac.
Qed.

Lemma random_choice_in r (l : list string) :
  l <> [] -> exists x, PromptManager.random_choice r l = Ok x /\ x ∈ l.
Proof.
  intros Hl. unfold PromptManager.random_choice.
  assert (Hlt : (r mod length l < length l)%nat).
  { apply Nat.mod_upper_bound. destruct l; [congruence|]. discriminate. }
  destruct (lookup_lt_is_Some_2 l _ Hlt) as [x Hx]. rewrite Hx.
  exists x. split; [reflexivity|]. eapply list_elem_of_lookup_2. exact Hx.
Qed.

Lemma fallback_is_valid env w :
  fallback_texts_valid env ->
  exists r, fst (AIService._get_fallback_response env w) = Ok r /\
            is_Ok (validate_content r) = true.
Proof.
  intros [Hne Hall]. destruct (random_choice_in (random_index env) _ Hne) as (x & Hx & Hin).
  exists x. split; [exact Hx|].
  rewrite Forall_forall in Hall. apply Hall. exact Hin.
Qed.

Lemma valid_content_nonempty s :
  is_Ok (validate_content s) = true -> s <> EmptyString.
Proof. intros H ->. discriminate. Qed.

Lemma newest_keeps_last_two {A} (n : Z) (l : list A) (x y : A) :
  2 <= n -> x ∈ newest n (l ++ [x; y]).
Proof.
  intros Hn. unfold newest. rewrite length_app. cbn [length].
  rewrite drop_app_le by lia. apply elem_of_app. right. left.
Qed.

Lemma as_stored_own_session be sid m :
  session_id m = Some sid -> as_stored be sid m = m.
Proof. intros H. destruct be; [|reflexivity]. destruct m; cbn in *. subst. reflexivity. Qed.

(** C8, amended.  With a provider that raises on every call, healthy
    storage engines, on Redis a positive time to live, fallback texts that
    are a non-empty list of valid message contents, a message that is not
    blank, a retention limit of at least 2 and a session whose file, if there
    is one, is its own: [process_message] returns a non-empty fallback text
    as the reply, the user message and the assistant message holding the
    fallback are the newest entries of the stored log, and
    [generate_response] returns for every input. *)
Theorem provider_outage_yields_stored_fallback env be sid message w :
  healthy env ->
  keys_persist env be ->
  (forall name msg ctx, is_Ok (provider_generate env name msg ctx) = false) ->
  fallback_texts_valid env ->
  str_is_empty (str_strip (content message)) = false ->
  2 <= max_history_messages (settings env) ->
  session_consistent w (effective_session env w sid) ->
  let s := effective_session env w sid in
  let stored_user := as_stored be s (set_session_id message (Some s)) in
  exists reply w' ai,
    MessageHandlerService.process_message env
      (MessageHandlerService.default_services env be) sid message w = (Ok reply, w')
    /\ reply_message reply <> EmptyString
    /\ fst (AIService._get_fallback_response env w) = Ok (reply_message reply)
    /\ role ai = assistant
    /\ validate_content (reply_message reply) = Ok (content ai)
    /\ stored_log be w' s
       = newest (max_history_messages (settings env))
                (stored_log be w s ++ [stored_user; ai])
    /\ stored_user ∈ stored_log be w' s
    /\ (forall msg ctx provider w0,
          is_Ok (fst (AIService.generate_response env msg ctx provider w0)) = true).
Proof.
  intros Hh Ht _ Hfb Hne HN Hc s stored_user.
  destruct (fallback_is_valid env w Hfb) as (r & Hr & Hv).
  unfold MessageHandlerService.process_message. rewrite Hne.
  destruct (session_choice env sid w) as (w0 & E0 & _ & Hs0).
  rewrite (bind_ok _ _ _ _ _ E0). clear E0. fold s.
  cbn [memory_add_message memory_get_conversation_history ai_generate_response
       research_trigger_research_if_needed MessageHandlerService.default_services].
  assert (HN1 : 1 <= max_history_messages (settings env)) by lia.
  destruct (add_message_step env be s (set_session_id message (Some s)) w0 Hh HN1 Ht
              (session_consistent_store _ _ _ Hs0 Hc)) as (w1 & E1 & Hc1 & L1).
  unfold bind at 1.
  rewrite (try_except_ok _ _ w0 tt w1) by (rewrite (bind_ok _ _ _ _ _ E1); reflexivity).
  destruct (get_conversation_history_never_raises env be s 10 0 w1) as (ctx & w2 & E2).
  pose proof (store_get_conversation_history env be s 10 0 w1) as Hs2.
  rewrite E2 in Hs2. cbn [snd] in Hs2.
  rewrite (bind_ok _ _ _ _ _ E2).
  destruct (generate_response_run env (content (set_session_id message (Some s)))
              (py_slice ctx None (Some (-1))) None w2) as (w3 & E3 & _ & Hs3).
  change (fst (AIService._get_fallback_response env w2)) with
    (fst (AIService._get_fallback_response env w)) in E3. rewrite Hr in E3.
  unfold bind at 1. rewrite (try_except_ok _ _ w2 r w3) by exact E3.
  destruct (new_Message_valid env r assistant (Some s) w3 Hv)
    as (ai & w4 & E4 & Hrole & Hcontent & Hsid & _ & Hs4).
  rewrite (bind_ok _ _ _ _ _ E4).
  assert (Hs41 : store_of w4 = store_of w1) by congruence.
  destruct (add_message_step env be s ai w4 Hh HN1 Ht
              (session_consistent_store _ _ _ Hs41 Hc1)) as (w5 & E5 & Hc5 & L5).
  unfold bind at 1.
  rewrite (try_except_ok _ _ w4 tt w5) by (rewrite (bind_ok _ _ _ _ _ E5); reflexivity).
  unfold bind at 1. cbn [emit].
  match goal with |- context [bind _ _ ?w6] => set (w6' := w6) end.
  destruct (research_is_guarded env (content (set_session_id message (Some s))) r (Some s) w6')
    as (t & E6).
  unfold bind. rewrite E6. unfold ret.
  assert (Hlog : stored_log be (record_events t w6') s
                 = newest (max_history_messages (settings env))
                          (stored_log be w s ++ [stored_user; ai])).
  { change (stored_log be (record_events t w6') s) with (stored_log be w5 s).
    rewrite L5, (stored_log_store be w1 w4 s Hs41), L1, newest_newest_app.
    rewrite (stored_log_store be w w0 s Hs0), (as_stored_own_session be s ai Hsid).
    rewrite <- app_assoc. reflexivity. }
  exists (mkReply r (msg_id ai) s "assistant"), (record_events t w6'), ai.
  split; [reflexivity|]. cbn [reply_message].
  split; [exact (valid_content_nonempty r Hv)|].
  split; [exact Hr|]. split; [exact Hrole|]. split; [exact Hcontent|].
  split; [exact Hlog|].
  split; [rewrite Hlog; apply newest_keeps_last_two; exact HN|].
  intros msg ctx' provider w0'.
  destruct (generate_response_run env msg ctx' provider w0') as (w9 & E9 & _ & _).
  rewrite E9. cbn [fst].
  change (fst (AIService._get_fallback_response env w0')) with
    (fst (AIService._get_fallback_response env w)). rewrite Hr. reflexivity.
Qed.

Lemma provider_outage_yields_stored_fallback_witness :
  let env := outage_env memory_json 50 in
  exists reply w' ai,
    MessageHandlerService.process_message env
      (MessageHandlerService.default_services env backend_json) None
      (test_message "u1" "Hello" user) empty_world = (Ok reply, w')
    /\ reply_message reply <> EmptyString
    /\ fst (AIService._get_fallback_response env empty_world) = Ok (reply_message reply)
    /\ role ai = assistant
    /\ validate_content (reply_message reply) = Ok (content ai)
    /\ stored_log backend_json w' "0000-uuid"
       = [mkMessage "u1" "Hello" user 0%nat (Some []) (Some "0000-uuid"); ai]
    /\ mkMessage "u1" "Hello" user 0%nat (Some []) (Some "0000-uuid")
       ∈ stored_log backend_json w' "0000-uuid"
    /\ (forall msg ctx provider w0,
          is_Ok (fst (AIService.generate_response env msg ctx provider w0)) = true).
Proof.
  intros env.
  apply (provider_outage_yields_stored_fallback env backend_json None
           (test_message "u1" "Hello" user) empty_world).
  - intros call. reflexivity.
  - exact I.
  - intros name msg ctx. reflexivity.
  - split; [discriminate|]. repeat constructor.
  - reflexivity.
  - simpl. lia.
  - exact I.
Defined.

(** C8 as stated fails where these conditions do not hold.  With the
    retention limit 1 the append of the assistant message trims the user
    message away: the reply is the fallback text and the stored log holds
    the assistant message alone.  With an empty [error_messages] list
    [random.choice] raises in the handler of [generate_response], which
    raises [IndexError] to its caller, and [process_message] raises
    [AIServiceException] with the user message stored and no reply. *)
Lemma provider_outage_conditions_are_needed :
  (let env := outage_env memory_json 1 in
   let r := MessageHandlerService.process_message env
              (MessageHandlerService.default_services env backend_json) (Some "s1")
              (test_message "u1" "Hello" user) empty_world in
   is_Ok (fst r) = true /\
   map (fun m => (msg_id m, role m)) (stored_log backend_json (snd r) "s1")
   = [("0000-uuid", assistant)]) /\
  (let env := outage_env_with memory_json 50 [] in
   let r := MessageHandlerService.process_message env
              (MessageHandlerService.default_services env backend_json) (Some "s1")
              (test_message "u1" "Hello" user) empty_world in
   fst (AIService.generate_response env "Hello" [] None empty_world)
   = Raise (IndexError "Cannot choose from an empty sequence") /\
   fst r = Raise (AIServiceException "Failed to generate AI response"
                                     "Cannot choose from an empty sequence") /\
   map (fun m => (msg_id m, role m)) (stored_log backend_json (snd r) "s1")
   = [("u1", user)]).
Proof. vm_compute. repeat split; reflexivity. Qed.

(** ** JSON text: parsing what was printed *)

#[local] Arguments String.append !s1 s2 : simpl nomatch.

Lemma str_app_assoc (a b c : string) : (a +:+ b) +:+ c = a +:+ (b +:+ c).
Proof. induction a as [|x a IH]; simpl; [reflexivity | f_equal; exact IH]. Qed.

Lemma str_length_app (a b : string) :
  String.length (a +:+ b) = (String.length a + String.length b)%nat.
Proof. induction a as [|x a IH]; simpl; [reflexivity | f_equal; exact IH]. Qed.

Lemma skip_ws_app ws s : all_ws ws = true -> skip_ws (ws +:+ s) = skip_ws s.
Proof.
  induction ws as [|c ws IH]; cbn; [reflexivity|].
  intros H. apply andb_true_iff in H as [Hc Hws]. rewrite Hc. exact (IH Hws).
Qed.

Lemma all_ws_spaces n : all_ws (spaces n) = true.
Proof. induction n; cbn; [reflexivity | assumption]. Qed.

Lemma all_ws_newline_indent ind d : all_ws (newline_indent ind d) = true.
Proof. destruct ind; cbn; [apply all_ws_spaces | reflexivity]. Qed.

Lemma parse_value_ws fuel ws s :
  all_ws ws = true -> parse_value fuel (ws +:+ s) = parse_value fuel s.
Proof. intros H. destruct fuel; cbn; [reflexivity|]. rewrite (skip_ws_app ws s H). reflexivity. Qed.

Lemma parse_elements_ws fuel ws s :
  all_ws ws = true -> parse_elements fuel (ws +:+ s) = parse_elements fuel s.
Proof.
  intros H. destruct fuel; cbn [parse_elements]; [reflexivity|].
  rewrite (parse_value_ws fuel ws s H). reflexivity.
Qed.

Lemma parse_members_ws fuel ws s :
  all_ws ws = true -> parse_members fuel (ws +:+ s) = parse_members fuel s.
Proof. intros H. destruct fuel; cbn; [reflexivity|]. rewrite (skip_ws_app ws s H). reflexivity. Qed.

(** *** String literals *)

Lemma parse_escape_char c tail :
  parse_string_body (escape_char c +:+ tail) = prepend c (parse_string_body tail).
Proof.
  destruct c as [[] [] [] [] [] [] [] []]; reflexivity.
Qed.

Lemma parse_string_escape s rest :
  parse_string_body (escape s +:+ String quote_char rest) = Some (s, rest).
Proof.
  induction s as [|c s IH]; [reflexivity|].
  cbn [escape]. rewrite str_app_assoc, parse_escape_char, IH. reflexivity.
Qed.

(** *** Integer literals *)

Lemma parse_digits_print u rest :
  no_digit_ahead rest ->
  parse_digits (NilEmpty.string_of_uint u +:+ rest) = (u, rest).
Proof.
  intros H. induction u; cbn; try (rewrite IHu; reflexivity).
  destruct rest as [|c r]; cbn in *; [reflexivity|]. rewrite H. reflexivity.
Qed.

Lemma parse_number_print z rest :
  no_digit_ahead rest -> parse_number (print_Z z +:+ rest) = Some (JNum z, rest).
Proof.
  intros H. unfold print_Z. pose proof (DecimalZ.of_to z) as Hz.
  assert (Hnn : match Z.to_int z with Decimal.Pos u | Decimal.Neg u => u <> Decimal.Nil end).
  { destruct z; cbn; [discriminate | apply Unsigned.to_uint_nonnil ..]. }
  destruct (Z.to_int z) as [u|u].
  - unfold parse_number.
    destruct u; try congruence; cbn [NilEmpty.string_of_uint append Ascii.eqb eqb];
      cbn [parse_digits digit_cons Ascii.eqb eqb];
      rewrite (parse_digits_print _ rest H), <- Hz; reflexivity.
  - cbn [append parse_number Ascii.eqb eqb].
    rewrite (parse_digits_print u rest H), <- Hz. destruct u; congruence.
Qed.

(** *** Values *)

Lemma skip_ws_head s : value_head s -> skip_ws s = s.
Proof. destruct s as [|c s]; cbn; [tauto|]. intros (H & _). rewrite H. reflexivity. Qed.

Lemma uint_head u rest :
  u <> Decimal.Nil ->
  exists c tl, NilEmpty.string_of_uint u +:+ rest = String c tl /\
               (48 <= nat_of_ascii c <= 57)%nat.
Proof.
  intros H. destruct u; [congruence|..]; cbn; eexists _, _; (split; [reflexivity|]);
    split; apply Nat.leb_le; reflexivity.
Qed.

Lemma print_Z_head z rest :
  exists c tl, print_Z z +:+ rest = String c tl /\
               (nat_of_ascii c = 45 \/ 48 <= nat_of_ascii c <= 57)%nat.
Proof.
  unfold print_Z.
  assert (Hnn : match Z.to_int z with Decimal.Pos u | Decimal.Neg u => u <> Decimal.Nil end).
  { destruct z; cbn; [discriminate | apply Unsigned.to_uint_nonnil ..]. }
  destruct (Z.to_int z) as [u|u].
  - destruct (uint_head u rest Hnn) as (c & tl & E & Hc). exists c, tl. split; [exact E|].
    right. exact Hc.
  - cbn. eexists _, _. split; [reflexivity|]. left. reflexivity.
Qed.

Lemma number_head_dispatch fuel c tl :
  (nat_of_ascii c = 45 \/ 48 <= nat_of_ascii c <= 57)%nat ->
  parse_value (S fuel) (String c tl) = parse_number (String c tl).
Proof.
  intros H.
  assert (Hc : c = ascii_of_nat (nat_of_ascii c)) by (symmetry; apply ascii_nat_embedding).
  destruct H as [H|H].
  - rewrite H in Hc. subst c. reflexivity.
  - assert (Hcases : In (nat_of_ascii c) (List.seq 48 10)) by (apply in_seq; lia).
    cbn in Hcases.
    repeat (destruct Hcases as [E|Hcases]; [rewrite <- E in Hc; subst c; reflexivity|]).
    contradiction.
Qed.

Lemma print_json_head ind d j rest : value_head (print_json ind d j +:+ rest).
Proof.
  destruct j as [|[]|z|s|[|x xs]|[|kv kvs]]; try (cbn; repeat split; reflexivity).
  destruct (print_Z_head z rest) as (c & tl & E & Hc). cbn [print_json]. rewrite E.
  assert (Hn : c = ascii_of_nat (nat_of_ascii c)) by (symmetry; apply ascii_nat_embedding).
  cbn. destruct Hc as [Hc|Hc].
  - rewrite Hc in Hn. subst c. repeat split; reflexivity.
  - assert (Hcases : In (nat_of_ascii c) (List.seq 48 10)) by (apply in_seq; lia).
    cbn in Hcases.
    repeat (destruct Hcases as [E'|Hcases];
            [rewrite <- E' in Hn; subst c; repeat split; reflexivity|]).
    contradiction.
Qed.

Lemma no_digit_after_ws ws c rest :
  all_ws ws = true -> digit_cons c = None -> no_digit_ahead (ws +:+ String c rest).
Proof.
  intros Hws Hc. destruct ws as [|w ws]; cbn; [exact Hc|].
  cbn in Hws. apply andb_true_iff in Hws as [Hw _].
  unfold json_ws in Hw.
  repeat (apply orb_true_iff in Hw as [Hw|Hw]);
    apply Ascii.eqb_eq in Hw; subst w; reflexivity.
Qed.

Lemma parse_elements_more fuel s v tl :
  parse_value fuel s = Some (v, String "," tl) ->
  parse_elements (S fuel) s
  = match parse_elements fuel tl with
    | Some (vs, r) => Some (v :: vs, r)
    | None => None
    end.
Proof. intros H. cbn [parse_elements]. rewrite H. reflexivity. Qed.

Lemma parse_elements_last fuel s v ws rest :
  all_ws ws = true ->
  parse_value fuel s = Some (v, ws +:+ String "]" rest) ->
  parse_elements (S fuel) s = Some ([v], rest).
Proof.
  intros Hws H. cbn [parse_elements]. rewrite H, (skip_ws_app ws _ Hws). reflexivity.
Qed.

Lemma parse_elements_print (l : list json) :
  Forall round_trips l -> l <> [] ->
  forall ind d fuel ws rest,
    all_ws ws = true ->
    (list_sum (map (fun x => S (json_size x)) l) <= fuel)%nat ->
    parse_elements fuel
      (print_seq (print_json ind d) (String "," (newline_indent ind d)) l
       +:+ ws +:+ String "]" rest)
    = Some (l, rest).
Proof.
  induction 1 as [|x xs Hx Hxs IH]; [congruence|]. intros _ ind d fuel ws rest Hws Hfuel.
  cbn [map list_sum fold_right] in Hfuel.
  destruct fuel as [|fuel]; [lia|].
  destruct xs as [|y ys].
  - cbn [print_seq]. apply (parse_elements_last fuel _ x ws rest Hws).
    apply Hx; [lia|]. apply no_digit_after_ws; [exact Hws | reflexivity].
  - change (print_seq (print_json ind d) (String "," (newline_indent ind d)) (x :: y :: ys))
      with (print_json ind d x +:+ String "," (newline_indent ind d)
            +:+ print_seq (print_json ind d) (String "," (newline_indent ind d)) (y :: ys)).
    rewrite !str_app_assoc.
    change (String "," (newline_indent ind d) +:+ ?t)
      with (String "," (newline_indent ind d +:+ t)).
    rewrite (parse_elements_more fuel _ x _) by (apply Hx; [lia | reflexivity]).
    rewrite (parse_elements_ws fuel _ _ (all_ws_newline_indent ind d)).
    rewrite (IH ltac:(discriminate) ind d fuel ws rest Hws)
      by (cbn [map list_sum fold_right] in *; lia).
    reflexivity.
Qed.

Lemma parse_member_head fuel ind d k v tail :
  round_trips v -> (json_size v <= fuel)%nat -> no_digit_ahead tail ->
  parse_members (S fuel) (print_member ind d (k, v) +:+ tail)
  = match skip_ws tail with
    | String c r4 =>
        if Ascii.eqb c ","
        then match parse_members fuel r4 with
             | Some (ms, r5) => Some ((k, v) :: ms, r5)
             | None => None
             end
        else if Ascii.eqb c "}" then Some ([(k, v)], r4) else None
    | EmptyString => None
    end.
Proof.
  intros Hv Hfuel Htail. unfold print_member, print_string.
  rewrite !str_app_assoc.
  change (String quote_char (escape k +:+ String quote_char EmptyString) +:+ ?t)
    with (String quote_char ((escape k +:+ String quote_char EmptyString) +:+ t)).
  rewrite str_app_assoc.
  change (String quote_char EmptyString +:+ ?t) with (String quote_char t).
  cbn [parse_members].
  change (skip_ws (String quote_char ?t)) with (String quote_char t).
  change (Ascii.eqb quote_char quote_char) with true. cbv iota.
  rewrite parse_string_escape.
  assert (Hcolon : exists sp, all_ws sp = true /\
                     forall t, colon_sep ind +:+ t = String ":" (sp +:+ t)).
  { destruct ind; [exists " " | exists EmptyString]; split; reflexivity. }
  destruct Hcolon as (sp & Hsp & ->).
  change (skip_ws (String ":" ?t)) with (String ":" t).
  change (Ascii.eqb ":" ":") with true. cbv iota.
  rewrite (parse_value_ws fuel sp _ Hsp), (Hv ind d fuel tail Hfuel Htail).
  reflexivity.
Qed.

Lemma parse_members_print (l : list (string * json)) :
  Forall (fun kv => round_trips (snd kv)) l -> l <> [] ->
  forall ind d fuel ws rest,
    all_ws ws = true ->
    (list_sum (map (fun kv : string * json => S (json_size (snd kv))) l) <= fuel)%nat ->
    parse_members fuel
      (print_seq (print_member ind d) (String "," (newline_indent ind d)) l
       +:+ ws +:+ String "}" rest)
    = Some (l, rest).
Proof.
  induction 1 as [|[k v] xs Hx Hxs IH]; [congruence|].
  intros _ ind d fuel ws rest Hws Hfuel.
  cbn [map list_sum fold_right snd] in Hfuel, Hx.
  destruct fuel as [|fuel]; [lia|].
  destruct xs as [|y ys].
  - cbn [print_seq].
    rewrite (parse_member_head fuel ind d k v _ Hx)
      by first [lia | apply no_digit_after_ws; [exact Hws | reflexivity]].
    rewrite (skip_ws_app ws _ Hws). reflexivity.
  - change (print_seq (print_member ind d) (String "," (newline_indent ind d))
              ((k, v) :: y :: ys))
      with (print_member ind d (k, v) +:+ String "," (newline_indent ind d)
            +:+ print_seq (print_member ind d) (String "," (newline_indent ind d)) (y :: ys)).
    rewrite !str_app_assoc.
    change (String "," (newline_indent ind d) +:+ ?t)
      with (String "," (newline_indent ind d +:+ t)).
    rewrite (parse_member_head fuel ind d k v _ Hx) by first [lia | reflexivity].
    change (skip_ws (String "," ?t)) with (String "," t).
    change (Ascii.eqb "," ",") with true. cbv iota.
    rewrite (parse_members_ws fuel _ _ (all_ws_newline_indent ind d)).
    rewrite (IH ltac:(discriminate) ind d fuel ws rest Hws)
      by (cbn [map list_sum fold_right] in *; lia).
    reflexivity.
Qed.

Lemma strip_prefix_app word rest : strip_prefix word (word +:+ rest) = Some rest.
Proof.
  induction word as [|c word IH]; [reflexivity|].
  cbn. rewrite Ascii.eqb_refl. exact IH.
Qed.

Theorem parse_print_json j : round_trips j.
Proof.
  induction j using json_induction; intros ind d fuel rest Hfuel Hrest;
    (destruct fuel as [|fuel]; [cbn in Hfuel; lia|]).
  - reflexivity.
  - destruct b; reflexivity.
  - cbn [print_json].
    destruct (print_Z_head n rest) as (c & tl & E & Hc).
    rewrite E, (number_head_dispatch fuel c tl Hc), <- E.
    apply parse_number_print. exact Hrest.
  - cbn [print_json]. unfold print_string.
    change (String quote_char (escape s +:+ String quote_char EmptyString) +:+ rest)
      with (String quote_char ((escape s +:+ String quote_char EmptyString) +:+ rest)).
    rewrite str_app_assoc.
    change (String quote_char EmptyString +:+ rest) with (String quote_char rest).
    cbn [parse_value].
    change (skip_ws (String quote_char ?t)) with (String quote_char t).
    change (Ascii.eqb quote_char quote_char) with true. cbv iota.
    rewrite parse_string_escape. reflexivity.
  - destruct items as [|x xs]; [reflexivity|].
    cbn [json_size] in Hfuel.
    change (print_json ind d (JArr (x :: xs)))
      with (String "[" (newline_indent ind (S d)
            +:+ print_seq (print_json ind (S d)) (String "," (newline_indent ind (S d)))
                  (x :: xs)
            +:+ newline_indent ind d +:+ String "]" EmptyString)).
    change (String "[" ?a +:+ rest) with (String "[" (a +:+ rest)).
    rewrite !str_app_assoc.
    change (String "]" EmptyString +:+ rest) with (String "]" rest).
    cbn [parse_value].
    change (skip_ws (String "[" ?t)) with (String "[" t).
    change (Ascii.eqb "[" quote_char) with false.
    change (Ascii.eqb "[" "[") with true. cbv iota.
    rewrite (skip_ws_app _ _ (all_ws_newline_indent ind (S d))).
    pose proof (print_json_head ind (S d) x
                  (match xs with
                   | [] => EmptyString
                   | _ :: _ => String "," (newline_indent ind (S d))
                               +:+ print_seq (print_json ind (S d))
                                     (String "," (newline_indent ind (S d))) xs
                   end +:+ newline_indent ind d +:+ String "]" rest)) as Hhead.
    assert (Hseq : print_seq (print_json ind (S d)) (String "," (newline_indent ind (S d)))
                     (x :: xs) +:+ newline_indent ind d +:+ String "]" rest
                   = print_json ind (S d) x
                     +:+ match xs with
                         | [] => EmptyString
                         | _ :: _ => String "," (newline_indent ind (S d))
                                     +:+ print_seq (print_json ind (S d))
                                           (String "," (newline_indent ind (S d))) xs
                         end +:+ newline_indent ind d +:+ String "]" rest).
    { destruct xs; cbn [print_seq]; rewrite ?str_app_assoc; reflexivity. }
    rewrite (parse_elements_ws fuel _ _ (all_ws_newline_indent ind (S d))).
    rewrite (parse_elements_print (x :: xs) H ltac:(discriminate) ind (S d) fuel
               (newline_indent ind d) rest (all_ws_newline_indent ind d)) by lia.
    rewrite Hseq. rewrite (skip_ws_head _ Hhead).
    destruct (print_json ind (S d) x +:+ _) as [|c tl]; [contradiction|].
    destruct Hhead as (_ & -> & _). reflexivity.
  - destruct fields as [|kv kvs]; [reflexivity|].
    cbn [json_size] in Hfuel.
    change (print_json ind d (JObj (kv :: kvs)))
      with (String "{" (newline_indent ind (S d)
            +:+ print_seq (print_member ind (S d)) (String "," (newline_indent ind (S d)))
                  (kv :: kvs)
            +:+ newline_indent ind d +:+ String "}" EmptyString)).
    change (String "{" ?a +:+ rest) with (String "{" (a +:+ rest)).
    rewrite !str_app_assoc.
    change (String "}" EmptyString +:+ rest) with (String "}" rest).
    cbn [parse_value].
    change (skip_ws (String "{" ?t)) with (String "{" t).
    change (Ascii.eqb "{" quote_char) with false.
    change (Ascii.eqb "{" "[") with false.
    change (Ascii.eqb "{" "{") with true. cbv iota.
    rewrite (skip_ws_app _ _ (all_ws_newline_indent ind (S d))).
    rewrite (parse_members_ws fuel _ _ (all_ws_newline_indent ind (S d))).
    rewrite (parse_members_print (kv :: kvs) H ltac:(discriminate) ind (S d) fuel
               (newline_indent ind d) rest (all_ws_newline_indent ind d)) by lia.
    destruct kv as [k v].
    assert (Hq : exists tl,
               print_seq (print_member ind (S d)) (String "," (newline_indent ind (S d)))
                 ((k, v) :: kvs) +:+ newline_indent ind d +:+ String "}" rest
               = String quote_char tl).
    { destruct kvs; cbn [print_seq print_member print_string];
        rewrite ?str_app_assoc; eexists; reflexivity. }
    destruct Hq as (tl & ->). reflexivity.
Qed.

(** *** Whole documents *)

Lemma str_app_nil_r (s : string) : s +:+ EmptyString = s.
Proof. induction s as [|c s IH]; simpl; [reflexivity | f_equal; exact IH]. Qed.

Lemma print_seq_length {A} (f : A -> string) (size : A -> nat) (sep : string) (l : list A) :
  Forall (fun x => (size x <= String.length (f x))%nat) l ->
  (1 <= String.length sep)%nat ->
  (list_sum (map (fun x => S (size x)) l) <= S (String.length (print_seq f sep l)))%nat.
Proof.
  intros H Hsep. induction H as [|x xs Hx Hxs IH]; [cbn; lia|].
  cbn [map list_sum fold_right].
  destruct xs as [|y ys].
  - cbn. lia.
  - change (print_seq f sep (x :: y :: ys)) with (f x +:+ sep +:+ print_seq f sep (y :: ys)).
    rewrite !str_length_app. cbn [map list_sum fold_right] in IH |- *. cbn beta in Hx. lia.
Qed.

Lemma print_Z_length z : (1 <= String.length (print_Z z))%nat.
Proof.
  destruct (print_Z_head z EmptyString) as (c & tl & E & _).
  rewrite str_app_nil_r in E. rewrite E. cbn. lia.
Qed.

Lemma json_size_length j : forall ind d, (json_size j <= String.length (print_json ind d j))%nat.
Proof.
  induction j using json_induction; intros ind d.
  - cbn. lia.
  - destruct b; cbn; lia.
  - cbn [json_size print_json]. apply print_Z_length.
  - cbn. lia.
  - destruct items as [|x xs]; [cbn; lia|].
    change (print_json ind d (JArr (x :: xs)))
      with (String "[" (newline_indent ind (S d)
            +:+ print_seq (print_json ind (S d)) (String "," (newline_indent ind (S d)))
                  (x :: xs)
            +:+ newline_indent ind d +:+ String "]" EmptyString)).
    cbn [json_size String.length]. rewrite !str_length_app. cbn [String.length].
    pose proof (print_seq_length (print_json ind (S d)) json_size
                  (String "," (newline_indent ind (S d))) (x :: xs)) as Hl.
    cbn [String.length] in Hl.
    assert (Hall : Forall (fun x => (json_size x <= String.length (print_json ind (S d) x))%nat)
                     (x :: xs)).
    { eapply Forall_impl; [exact H|]. intros y Hy. apply Hy. }
    specialize (Hl Hall ltac:(lia)). lia.
  - destruct fields as [|kv kvs]; [cbn; lia|].
    change (print_json ind d (JObj (kv :: kvs)))
      with (String "{" (newline_indent ind (S d)
            +:+ print_seq (print_member ind (S d)) (String "," (newline_indent ind (S d)))
                  (kv :: kvs)
            +:+ newline_indent ind d +:+ String "}" EmptyString)).
    cbn [json_size String.length]. rewrite !str_length_app. cbn [String.length].
    pose proof (print_seq_length (print_member ind (S d))
                  (fun kv : string * json => json_size (snd kv))
                  (String "," (newline_indent ind (S d))) (kv :: kvs)) as Hl.
    cbn [String.length] in Hl.
    assert (Hall : Forall (fun kv : string * json =>
                             (json_size (snd kv)
                              <= String.length (print_member ind (S d) kv))%nat)
                     (kv :: kvs)).
    { eapply Forall_impl; [exact H|]. intros [k v] Hy. cbn [snd] in *.
      unfold print_member. rewrite !str_length_app. specialize (Hy ind (S d)). lia. }
    specialize (Hl Hall ltac:(lia)). lia.
Qed.

(** Parsing a serialized value gives the value back, with or without
    indentation. *)
Theorem parse_json_print_json ind j : parse_json (print_json ind 0 j) = Some j.
Proof.
  unfold parse_json.
  rewrite <- (str_app_nil_r (print_json ind 0 j)) at 2.
  rewrite (parse_print_json j ind 0%nat _ EmptyString).
  - reflexivity.
  - pose proof (json_size_length j ind 0%nat). lia.
  - exact I.
Qed.

(** ** Export *)

(** *** The content validator is idempotent *)

Lemma lstrip_head s :
  match lstrip s with
  | String c _ => is_space c = false
  | EmptyString => True
  end.
Proof.
  induction s as [|c s IH]; cbn; [exact I|].
  destruct (is_space c) eqn:E; [exact IH | exact E].
Qed.

Lemma lstrip_fixed s :
  match s with String c _ => is_space c = false | EmptyString => True end ->
  lstrip s = s.
Proof. destruct s as [|c s]; cbn; [reflexivity|]. intros ->. reflexivity. Qed.

Lemma rstrip_head c s :
  is_space c = false -> exists r, rstrip (String c s) = String c r.
Proof.
  intros H. cbn. destruct (rstrip s); [rewrite H|]; eexists; reflexivity.
Qed.

Lemma rstrip_idempotent s : rstrip (rstrip s) = rstrip s.
Proof.
  induction s as [|c s IH]; [reflexivity|]. cbn.
  destruct (rstrip s) as [|c' r] eqn:E.
  - destruct (is_space c) eqn:Hc; [reflexivity|]. cbn. rewrite Hc. reflexivity.
  - cbn [rstrip] in IH |- *. cbn [rstrip]. rewrite IH. reflexivity.
Qed.

Lemma str_strip_idempotent s : str_strip (str_strip s) = str_strip s.
Proof.
  unfold str_strip. pose proof (lstrip_head s) as H.
  destruct (lstrip s) as [|c t]; [reflexivity|].
  destruct (rstrip_head c t H) as (r & E). rewrite E.
  rewrite (lstrip_fixed (String c r) H), <- E. apply rstrip_idempotent.
Qed.

Lemma lstrip_length s : (String.length (lstrip s) <= String.length s)%nat.
Proof. induction s as [|c s IH]; cbn; [lia|]. destruct (is_space c); cbn; lia. Qed.

Lemma rstrip_length s : (String.length (rstrip s) <= String.length s)%nat.
Proof.
  induction s as [|c s IH]; cbn; [lia|].
  destruct (rstrip s); [destruct (is_space c)|]; cbn in *; lia.
Qed.

Lemma str_strip_length s : str_len (str_strip s) <= str_len s.
Proof.
  unfold str_strip, str_len.
  pose proof (rstrip_length (lstrip s)). pose proof (lstrip_length s). lia.
Qed.

(** What the validator returns passes the validator unchanged. *)
Lemma validate_content_idempotent raw c :
  validate_content raw = Ok c -> validate_content c = Ok c.
Proof.
  unfold validate_content.
  destruct (Z.ltb_spec (str_len raw) 1); [discriminate|].
  destruct (Z.ltb_spec 4000 (str_len raw)); [discriminate|]. cbn [orb].
  destruct (str_is_empty raw); [discriminate|]. cbn [orb].
  destruct (str_is_empty (str_strip raw)) eqn:He; [discriminate|].
  intros [= <-]. pose proof (str_strip_length raw) as Hl.
  assert (Hne : 1 <= str_len (str_strip raw)).
  { destruct (str_strip raw); [discriminate|]. unfold str_len. cbn. lia. }
  destruct (Z.ltb_spec (str_len (str_strip raw)) 1); [lia|].
  destruct (Z.ltb_spec 4000 (str_len (str_strip raw))); [lia|]. cbn [orb].
  rewrite str_strip_idempotent, He. reflexivity.
Qed.

(** *** Dump then validate *)

Lemma role_round_trip r : role_of_name (role_name r) = Some r.
Proof. destruct r; reflexivity. Qed.

Lemma to_uint_nonnil n : Nat.to_uint n <> Decimal.Nil.
Proof.
  intros E. pose proof (DecimalNat.Unsigned.of_to n) as H. rewrite E in H.
  cbn in H. subst n. discriminate.
Qed.

Lemma isoformat_round_trip t : fromisoformat (isoformat t) = Some t.
Proof.
  unfold fromisoformat, isoformat. rewrite NilEmpty.usu.
  pose proof (to_uint_nonnil t) as H. pose proof (DecimalNat.Unsigned.of_to t) as E.
  destruct (Nat.to_uint t); [congruence|..]; rewrite E; reflexivity.
Qed.

#[local] Arguments isoformat : simpl never.
#[local] Arguments fromisoformat : simpl never.
#[local] Arguments validate_content : simpl never.

Lemma Message_round_trip fresh m :
  (exists raw, validate_content raw = Ok (content m)) ->
  Message_validate fresh (Message_dump m) = Ok m.
Proof.
  intros (raw & Hraw). apply validate_content_idempotent in Hraw.
  destruct m as [i c r t md sid]. cbn in *.
  rewrite Hraw. cbn. rewrite role_round_trip. cbn.
  unfold field_datetime. rewrite isoformat_round_trip. cbn.
  destruct md, sid; reflexivity.
Qed.

Lemma messages_round_trip fresh ms :
  Forall (fun m => exists raw, validate_content raw = Ok (content m)) ms ->
  result_map (Message_validate fresh) (map Message_dump ms) = Ok ms.
Proof.
  induction 1 as [|m ms Hm Hms IH]; [reflexivity|].
  cbn [map result_map]. rewrite (Message_round_trip fresh m Hm), IH. reflexivity.
Qed.

Lemma Conversation_round_trip fresh c :
  validated c -> Conversation_validate fresh (Conversation_dump c) = Ok c.
Proof.
  intros Hv. destruct c as [sid ms created updated md ttl]. unfold validated in Hv.
  cbn in *. rewrite (messages_round_trip fresh ms Hv). cbn.
  unfold field_datetime. rewrite !isoformat_round_trip. cbn.
  destruct ttl; reflexivity.
Qed.

(** Parsing the JSON text of a validated conversation gives the
    conversation back. *)
Lemma parse_raw_model_dump_json fresh indent c :
  validated c -> parse_raw fresh (model_dump_json indent c) = Ok c.
Proof.
  intros Hv. unfold parse_raw, model_dump_json.
  rewrite parse_json_print_json. apply Conversation_round_trip. exact Hv.
Qed.




(** * Further properties of the modelled code *)

(** ** Message and request validation *)

Lemma rstrip_empty_iff s : rstrip s = EmptyString <-> all_space s = true.
Proof.
  unfold all_space. induction s as [|c s IH]; cbn; [tauto|].
  destruct (rstrip s) as [|c' r] eqn:E.
  - destruct (is_space c); cbn; [tauto|]. split; [discriminate|intros [=]].
  - split; [discriminate|]. intros H. apply andb_true_iff in H as [_ H].
    apply IH in H. discriminate.
Qed.

Lemma all_space_lstrip s : all_space (lstrip s) = all_space s.
Proof.
  unfold all_space. induction s as [|c s IH]; cbn; [reflexivity|].
  destruct (is_space c) eqn:E; cbn; [exact IH|]. rewrite E. reflexivity.
Qed.

Lemma str_strip_empty_iff s : str_strip s = EmptyString <-> all_space s = true.
Proof. unfold str_strip. rewrite rstrip_empty_iff, all_space_lstrip. tauto. Qed.

Lemma str_is_empty_iff s : str_is_empty s = true <-> s = EmptyString.
Proof. destruct s; cbn; split; congruence. Qed.

Lemma validate_content_inv v c :
  validate_content v = Ok c ->
  c = str_strip v /\ 1 <= str_len v <= 4000 /\ all_space v = false.
Proof.
  unfold validate_content.
  destruct (Z.ltb_spec (str_len v) 1); [discriminate|].
  destruct (Z.ltb_spec 4000 (str_len v)); [discriminate|]. cbn [orb].
  destruct (str_is_empty v); [discriminate|]. cbn [orb].
  destruct (str_is_empty (str_strip v)) eqn:Es; [discriminate|].
  intros [= <-]. split; [reflexivity|]. split; [lia|].
  destruct (all_space v) eqn:Ea; [|reflexivity].
  apply str_strip_empty_iff in Ea. rewrite Ea in Es. discriminate.
Qed.

(** X1.  [Message.content] is accepted exactly when the text has between 1
    and 4000 characters and is not all white space; what is stored is then
    the text with the white space at both ends removed. *)
Theorem validate_content_accepts v :
  (is_Ok (validate_content v) = true
   <-> 1 <= str_len v <= 4000 /\ all_space v = false)
  /\ (is_Ok (validate_content v) = true -> validate_content v = Ok (str_strip v)).
Proof.
  unfold validate_content.
  destruct (Z.ltb_spec (str_len v) 1) as [H1|H1]; cbn [orb].
  { split; [|discriminate]. cbn [is_Ok]. split; [discriminate|intros [? _]; lia]. }
  destruct (Z.ltb_spec 4000 (str_len v)) as [H2|H2]; cbn [orb].
  { split; [|discriminate]. cbn [is_Ok]. split; [discriminate|intros [? _]; lia]. }
  destruct (str_is_empty v) eqn:Ev; cbn [orb].
  { apply str_is_empty_iff in Ev. subst v. change (str_len EmptyString) with 0 in H1. lia. }
  destruct (str_is_empty (str_strip v)) eqn:Es.
  - apply str_is_empty_iff, str_strip_empty_iff in Es.
    split; [|discriminate]. cbn [is_Ok]. split; [discriminate|]. intros [_ H]. congruence.
  - split; [|reflexivity]. cbn [is_Ok]. split; [|reflexivity]. intros _. split; [lia|].
    destruct (all_space v) eqn:Ea; [|reflexivity].
    apply str_strip_empty_iff in Ea. rewrite Ea in Es. discriminate.
Qed.

(** X2.  What the validator returns is a fixed point of validation: it has
    no white space at either end, keeps the length bounds, and validating it
    again returns it unchanged. *)
Theorem validated_content_is_normal v c :
  validate_content v = Ok c ->
  str_strip c = c /\ 1 <= str_len c <= 4000 /\ validate_content c = Ok c.
Proof.
  intros H. pose proof (validate_content_idempotent v c H) as Hi.
  destruct (validate_content_inv c c Hi) as (Hs & Hb & _).
  split; [congruence|]. split; [exact Hb|exact Hi].
Qed.

Lemma validated_content_is_normal_witness :
  validate_content "  hi there " = Ok "hi there"
  /\ str_strip "hi there" = "hi there".
Proof.
  split; [reflexivity|].
  exact (proj1 (validated_content_is_normal "  hi there " "hi there" eq_refl)).
Defined.

(** X3.  A [ChatRequest] that passed validation always yields the user
    [Message] of the message route: constructing it cannot fail, and its
    content is the request's text unchanged. *)
Theorem validated_request_builds_message env raw sid req w :
  new_ChatRequest raw sid = Ok req ->
  fst (new_Message env (request_message req) user (request_session_id req) w)
  = Ok (mkMessage (uuid_stream env (uuid_counter w)) (request_message req) user
          (clock w) (Some []) sid).
Proof.
  unfold new_ChatRequest. destruct (validate_message raw) as [m|e] eqn:E; [|discriminate].
  intros [= <-]. cbn [request_message request_session_id].
  assert (Hv : validate_content raw = Ok m).
  { revert E. unfold validate_message, validate_content.
    destruct (_ || _); [discriminate|]. destruct (_ || _); [discriminate|]. trivial. }
  apply validate_content_idempotent in Hv.
  unfold new_Message, bind, uuid4, lift, utcnow, ret. cbn. rewrite Hv. reflexivity.
Qed.

Lemma validated_request_builds_message_witness :
  fst (new_Message (test_env memory_json 50 no_faults (Ok []) None) "Hello" user
         (Some "s1") empty_world)
  = Ok (mkMessage "0000-uuid" "Hello" user 0%nat (Some []) (Some "s1")).
Proof.
  exact (validated_request_builds_message
           (test_env memory_json 50 no_faults (Ok []) None) " Hello " (Some "s1")
           (mkChatRequest "Hello" (Some "s1")) empty_world eq_refl).
Defined.

(** ** Conversation.get_context *)

Lemma py_slice_newest {A} (l : list A) (k : Z) :
  0 <= k ->
  py_slice l (Some (- k)) None = if k =? 0 then l else newest k l.
Proof.
  intros Hk. destruct (Z.eqb_spec k 0) as [->|Hnz].
  - unfold py_slice, py_index. cbn. rewrite Z.min_l by lia. cbn.
    rewrite drop_0, Z.sub_0_r, Nat2Z.id. apply firstn_all.
  - destruct (Z.lt_ge_cases k (py_len l)).
    + apply py_slice_tail; lia.
    + rewrite newest_all by lia. unfold py_slice, py_index, py_len in *.
      cbn [from_option]. destruct (Z.ltb_spec (- k) 0); [|lia].
      rewrite Z.max_r by lia. cbn [Z.to_nat]. rewrite drop_0, Z.sub_0_r, Nat2Z.id.
      apply firstn_all.
Qed.

(** X4.  [get_context(n)] returns the [min(n, len)] newest messages in
    order for [n >= 1]; for [n = 0] the slice [messages[-0:]] is the whole
    log. *)
Theorem get_context_newest c n :
  0 <= n ->
  Conversation_get_context c n
  = if n =? 0 then messages c else newest n (messages c).
Proof.
  intros Hn. unfold Conversation_get_context.
  destruct (messages c) as [|m ms] eqn:E.
  - destruct (n =? 0); reflexivity.
  - rewrite <- E. apply py_slice_newest. exact Hn.
Qed.

Lemma get_context_newest_witness :
  Conversation_get_context (mkConversation "s1" [m0; m1; m2] 0%nat 0%nat [] None) 2
  = [m1; m2].
Proof.
  exact (get_context_newest (mkConversation "s1" [m0; m1; m2] 0%nat 0%nat [] None) 2
           ltac:(lia)).
Defined.

(** ** The conversation store *)

(** *** The window of a history request *)

Lemma py_slice_window {A} (l : list A) (limit offset : Z) :
  0 <= limit -> 0 <= offset <= py_len l ->
  py_slice l (Some (Z.max 0 (py_len l - offset - limit)))
           (Some (if 0 <? offset then py_len l - offset else py_len l))
  = newest limit (take (Z.to_nat (py_len l - offset)) l).
Proof.
  intros Hlim Hoff.
  unfold py_slice, py_index, newest, py_len in *. cbn [from_option].
  set (n := Z.of_nat (length l)) in *.
  assert (Hs : (Z.max 0 (n - offset - limit) <? 0) = false) by (apply Z.ltb_ge; lia).
  rewrite Hs.
  assert (He : (if 0 <? offset then n - offset else n) = n - offset)
    by (destruct (Z.ltb_spec 0 offset); lia).
  rewrite He.
  assert (He' : (n - offset <? 0) = false) by (apply Z.ltb_ge; lia).
  rewrite He'. rewrite !Z.min_l by lia.
  rewrite length_take. rewrite take_drop_commute. f_equal; [|f_equal]; subst n; lia.
Qed.

(** X5.  For an offset inside the log, [get_conversation_history] returns
    the [limit] messages that precede the newest [offset] ones (all of them
    when there are fewer), oldest first. *)
Theorem history_is_window env be sid limit offset w c w1 :
  MemoryService.load_conversation env be sid w = (Ok (Some c), w1) ->
  0 <= limit -> 0 <= offset <= py_len (messages c) ->
  MemoryService.get_conversation_history env be sid limit offset w
  = (Ok (newest limit (take (Z.to_nat (py_len (messages c) - offset)) (messages c))), w1).
Proof.
  intros Hl Hlim Hoff. unfold MemoryService.get_conversation_history, bind.
  rewrite Hl. unfold ret. rewrite py_slice_window by assumption. reflexivity.
Qed.

Lemma history_is_window_witness :
  fst (MemoryService.get_conversation_history
         (test_env memory_json 50 no_faults (Ok []) None) backend_json "s1" 2 1
         (world_with_log [m0; m1; m2])) = Ok [m0; m1].
Proof.
  rewrite (history_is_window (test_env memory_json 50 no_faults (Ok []) None)
             backend_json "s1" 2 1 (world_with_log [m0; m1; m2])
             (mkConversation "s1" [m0; m1; m2] 0%nat 0%nat [] None)
             (snd (logger info "Conversation loaded" (world_with_log [m0; m1; m2])))).
  - reflexivity.
  - reflexivity.
  - lia.
  - vm_compute. split; discriminate.
Defined.

(** X6.  For an offset beyond the log the end of the slice turns negative
    and counts from the end of the list: the request returns the
    [2 * len - offset] oldest messages, whatever the limit, and nothing only
    from [offset >= 2 * len] on. *)
Theorem history_past_the_end env be sid limit offset w c w1 :
  MemoryService.load_conversation env be sid w = (Ok (Some c), w1) ->
  0 <= limit -> py_len (messages c) < offset ->
  MemoryService.get_conversation_history env be sid limit offset w
  = (Ok (take (Z.to_nat (2 * py_len (messages c) - offset)) (messages c)), w1).
Proof.
  intros Hl Hlim Hoff. unfold MemoryService.get_conversation_history, bind.
  rewrite Hl. unfold ret. f_equal. f_equal.
  unfold py_slice, py_index, py_len in *. cbn [from_option].
  set (n := Z.of_nat (length (messages c))) in *.
  assert (Hn : 0 <= n) by (subst n; lia).
  rewrite (Z.max_l 0) by lia. cbn [Z.ltb Z.compare].
  rewrite (Z.min_l 0) by lia. cbn [Z.to_nat]. rewrite drop_0.
  destruct (Z.ltb_spec 0 offset); [|lia].
  destruct (Z.ltb_spec (n - offset) 0); [|lia].
  f_equal. lia.
Qed.

Lemma history_past_the_end_witness :
  fst (MemoryService.get_conversation_history
         (test_env memory_json 50 no_faults (Ok []) None) backend_json "s1" 1 4
         (world_with_log [m0; m1; m2])) = Ok [m0; m1].
Proof.
  rewrite (history_past_the_end (test_env memory_json 50 no_faults (Ok []) None)
             backend_json "s1" 1 4 (world_with_log [m0; m1; m2])
             (mkConversation "s1" [m0; m1; m2] 0%nat 0%nat [] None)
             (snd (logger info "Conversation loaded" (world_with_log [m0; m1; m2])))).
  - reflexivity.
  - reflexivity.
  - lia.
  - vm_compute. reflexivity.
Defined.

(** *** Appending, reading back, deleting *)

Lemma newest_one_snoc {A} (n : Z) (l : list A) (x : A) :
  1 <= n -> newest 1 (newest n (l ++ [x])) = [x].
Proof.
  intros Hn. unfold newest. rewrite drop_drop, length_drop, length_app. cbn [length].
  replace (length l + 1 - Z.to_nat n + (length l + 1 - (length l + 1 - Z.to_nat n) - Z.to_nat 1))%nat
    with (length l + 0)%nat by lia.
  rewrite drop_app_length'; [reflexivity|lia].
Qed.

Lemma load_after_add env be sid m w :
  healthy env -> 1 <= max_history_messages (settings env) ->
  keys_persist env be ->
  session_consistent w sid ->
  exists w1 c w2,
    MemoryService.add_message env be sid m w = (Ok true, w1) /\
    MemoryService.load_conversation env be sid w1 = (Ok (Some c), w2) /\
    conv_session_id c = sid /\
    messages c = newest (max_history_messages (settings env))
                        (stored_log be w sid ++ [as_stored be sid m]).
Proof.
  intros Hh HN Ht Hc. destruct be.
  - unfold session_consistent, stored_log in *. run.
    cbn. destruct (json_files w !! sid) as [c|] eqn:Hf; cbn; step Hh.
    + subst sid.
      destruct (Z.ltb_spec (max_history_messages (settings env))
                  (py_len (messages c ++ [set_session_id m (Some (conv_session_id c))])));
        cbn; step Hh; (eexists; eexists; eexists; split; [reflexivity|]); cbn;
        rewrite lookup_insert_eq; cbn; step Hh; (split; [reflexivity|]); cbn;
        (split; [reflexivity|]).
      * apply py_slice_tail; lia.
      * symmetry. apply newest_all. lia.
    + destruct (Z.ltb_spec (max_history_messages (settings env))
                  (py_len [set_session_id m (Some sid)])).
      * unfold py_len in *; simpl in *; lia.
      * cbn; step Hh. eexists; eexists; eexists; split; [reflexivity|]. cbn.
        rewrite lookup_insert_eq. cbn; step Hh. split; [reflexivity|]. cbn.
        split; [reflexivity|].
        symmetry. apply (newest_all _ [_]). unfold py_len in *; simpl in *; lia.
  - unfold stored_log. run. cbn. step Hh. rewrite !expire_positive by exact Ht.
    rewrite ltrim_tail by (try lia; destruct (default [] (redis_messages w !! sid)); discriminate).
    set (l := newest _ _).
    assert (l <> []).
    { subst l. unfold newest. intros E. apply (f_equal length) in E.
      rewrite length_drop, length_app in E. simpl in E. lia. }
    unfold RedisStorageBackend.store_list. destruct l as [|x l'] eqn:El; [congruence|].
    unfold RedisStorageBackend.hset_on_add.
    destruct (redis_meta w !! sid) as [meta|];
      [destruct (meta_created_at meta) eqn:Ec|];
      (eexists; eexists; eexists; split; [reflexivity|]); cbn; step Hh;
      rewrite !lookup_insert_eq; cbn; rewrite ?Ec; cbn;
      (split; [reflexivity|]); cbn; split; reflexivity.
Qed.

(** X7.  With healthy storage engines, a retention limit of at least 1, on
    Redis a positive time to live, and a session whose file, if there is one,
    is its own: an appended message is what the history of its session then
    ends with.  A request for the [limit] newest messages returns the [limit]
    newest of the retained log, whose last entry is the appended message (as
    the backend keeps it). *)
Theorem added_message_is_newest env be sid m w :
  healthy env -> 1 <= max_history_messages (settings env) ->
  keys_persist env be ->
  session_consistent w sid ->
  exists w1,
    MemoryService.add_message env be sid m w = (Ok true, w1) /\
    (forall limit, 0 <= limit ->
       fst (MemoryService.get_conversation_history env be sid limit 0 w1)
       = Ok (newest limit
               (newest (max_history_messages (settings env))
                       (stored_log be w sid ++ [as_stored be sid m])))) /\
    fst (MemoryService.get_conversation_history env be sid 1 0 w1)
    = Ok [as_stored be sid m].
Proof.
  intros Hh HN Ht Hc.
  destruct (load_after_add env be sid m w Hh HN Ht Hc) as (w1 & c & w2 & Ea & El & _ & Hm).
  exists w1. split; [exact Ea|].
  assert (Hg : forall limit, 0 <= limit ->
            fst (MemoryService.get_conversation_history env be sid limit 0 w1)
            = Ok (newest limit (messages c))).
  { intros limit Hl. unfold MemoryService.get_conversation_history, bind.
    rewrite El. unfold ret. cbn [fst]. f_equal.
    rewrite (py_slice_window (messages c) limit 0) by (unfold py_len; lia).
    rewrite Z.sub_0_r. unfold py_len. rewrite Nat2Z.id, firstn_all. reflexivity. }
  split.
  - intros limit Hl. rewrite (Hg limit Hl), Hm. reflexivity.
  - rewrite (Hg 1 ltac:(lia)), Hm. f_equal. apply newest_one_snoc. exact HN.
Qed.

Lemma added_message_is_newest_witness :
  exists w1,
    MemoryService.add_message (test_env memory_redis 2 no_faults (Ok []) None)
      backend_redis "s1" m2 (world_with_log [m0; m1]) = (Ok true, w1) /\
    fst (MemoryService.get_conversation_history
           (test_env memory_redis 2 no_faults (Ok []) None) backend_redis "s1" 1 0 w1)
    = Ok [m2].
Proof.
  destruct (added_message_is_newest (test_env memory_redis 2 no_faults (Ok []) None)
              backend_redis "s1" m2 (world_with_log [m0; m1]))
    as (w1 & Ea & _ & Hl).
  - intros call. reflexivity.
  - simpl. lia.
  - simpl. lia.
  - reflexivity.
  - exists w1. split; [exact Ea|exact Hl].
Defined.

(** X8.  Appending to one session leaves the log of every other session as
    it was, whether or not the engine faults and whatever the time to live:
    on Redis for any two session ids, on the JSON backend for two plain
    session ids (each names its own file) when the file of the session
    appended to, if there is one, is its own. *)
Theorem add_message_leaves_other_sessions env be sid m w other :
  session_consistent w sid -> separate_sessions be sid other ->
  stored_log be (snd (MemoryService.add_message env be sid m w)) other
  = stored_log be w other.
Proof.
  intros Hc [Hne _]. unfold session_consistent, stored_log in *. destruct be; run; cbn.
  - destruct (json_files w !! sid) as [c|] eqn:Hf; cbn.
    + subst sid. unfold engine, raise, ret.
      destruct (backend_fault env (JsonLoad (conv_session_id c))); cbn.
      * destruct (_ <? _); cbn; destruct (backend_fault env _); cbn;
          rewrite ?lookup_insert_ne by congruence; reflexivity.
      * destruct (_ <? _); cbn; destruct (backend_fault env _); cbn;
          rewrite ?lookup_insert_ne by congruence; reflexivity.
    + unfold engine, raise, ret.
      destruct (_ <? _); cbn; destruct (backend_fault env _); cbn;
        rewrite ?lookup_insert_ne by congruence; reflexivity.
  - unfold engine, raise, ret. destruct (backend_fault env _); cbn; [reflexivity|].
    unfold RedisStorageBackend.store_list, RedisStorageBackend.expire.
    destruct (_ <=? 0); destruct (RedisStorageBackend.ltrim _ _ _);
      rewrite ?lookup_delete_ne, ?lookup_insert_ne, ?lookup_delete_ne by congruence;
      reflexivity.
Qed.

Lemma add_message_leaves_other_sessions_witness :
  stored_log backend_json
    (snd (MemoryService.add_message (test_env memory_json 50 no_faults (Ok []) None)
            backend_json "s2" m2 (world_with_log [m0; m1]))) "s1"
  = [m0; m1].
Proof.
  rewrite (add_message_leaves_other_sessions
             (test_env memory_json 50 no_faults (Ok []) None) backend_json "s2" m2
             (world_with_log [m0; m1]) "s1").
  - reflexivity.
  - reflexivity.
  - split; [discriminate | split; reflexivity].
Defined.

(** X9.  After a conversation is deleted through a healthy backend it
    cannot be loaded any more and its history is empty. *)
Theorem deleted_conversation_is_gone env be sid limit offset w :
  healthy env ->
  exists w1,
    MemoryService.delete_conversation env be sid w = (Ok true, w1) /\
    fst (MemoryService.load_conversation env be sid w1) = Ok None /\
    fst (MemoryService.get_conversation_history env be sid limit offset w1) = Ok [].
Proof.
  intros Hh. destruct be; run; run; cbn.
  - destruct (json_files w !! sid) as [c|] eqn:Hf; cbn; step Hh;
      (eexists; split; [reflexivity|]); cbn; rewrite ?lookup_delete_eq, ?Hf; cbn;
      split; reflexivity.
  - step Hh. eexists; split; [reflexivity|]. cbn. step Hh.
    rewrite !lookup_delete_eq. cbn. split; reflexivity.
Qed.

Lemma deleted_conversation_is_gone_witness :
  exists w1,
    MemoryService.delete_conversation (test_env memory_json 50 no_faults (Ok []) None)
      backend_json "s1" (world_with_log [m0; m1]) = (Ok true, w1) /\
    fst (MemoryService.load_conversation (test_env memory_json 50 no_faults (Ok []) None)
           backend_json "s1" w1) = Ok None /\
    fst (MemoryService.get_conversation_history
           (test_env memory_json 50 no_faults (Ok []) None) backend_json "s1" 10 0 w1)
    = Ok [].
Proof.
  apply (deleted_conversation_is_gone (test_env memory_json 50 no_faults (Ok []) None)
           backend_json "s1" 10 0 (world_with_log [m0; m1])).
  intros call. reflexivity.
Defined.

(** ** Listing and clearing *)

Lemma clear_all_is_no_attribute be :
  MemoryService.backend_getattr be "clear_all_conversations"
  = Raise (MemoryService.AttributeError "clear_all_conversations").
Proof. destruct be; vm_compute; reflexivity. Qed.

(** X10.  [POST /clear_all_conversations] clears nothing: neither backend
    class has a method [clear_all_conversations], the attribute error is
    caught by the memory service, which returns 0, and the route reports
    [deleted_count = 0] with the store as it was, whatever a backend method
    of that name would do. *)
Theorem clear_all_conversations_clears_nothing env be backend_clear w :
  ChatRoutes.clear_all_conversations env be backend_clear w
  = (Ok 0, record_events [Log error "Failed to clear all conversations";
                          Log info "All conversations cleared"] w).
Proof.
  unfold ChatRoutes.clear_all_conversations, ChatRoutes.route_handlers,
    MemoryService.clear_all_conversations, try_except, bind, lift.
  rewrite clear_all_is_no_attribute. unfold logger, emit, ret, record_events. cbn.
  rewrite <- app_assoc. reflexivity.
Qed.

Lemma read_summaries_healthy env files w :
  healthy env ->
  JSONStorageBackend.read_summaries env files w
  = (Ok (map (fun file => JSONStorageBackend.summary_of (snd file)) files), w).
Proof.
  intros Hh. induction files as [|[sid conv] files IH]; [reflexivity|].
  cbn [JSONStorageBackend.read_summaries map]. unfold bind at 1.
  rewrite (engine_healthy _ _ _ Hh). unfold bind. rewrite IH. reflexivity.
Qed.

Lemma py_slice_block {A} (l : list A) (off k : Z) :
  0 <= off -> 0 <= k ->
  py_slice l (Some off) (Some (off + k)) = take (Z.to_nat k) (drop (Z.to_nat off) l).
Proof.
  intros Ho Hk. unfold py_slice, py_index. cbn [from_option].
  destruct (Z.ltb_spec off 0); [lia|]. destruct (Z.ltb_spec (off + k) 0); [lia|].
  set (n := Z.of_nat (length l)).
  destruct (Z.le_gt_cases n off) as [Hge|Hlt].
  - rewrite !Z.min_r by lia. rewrite Z.sub_diag. cbn [Z.to_nat take].
    rewrite (drop_ge l (Z.to_nat off)) by (subst n; lia). destruct (Z.to_nat k); reflexivity.
  - rewrite (Z.min_l off) by lia.
    destruct (Z.le_gt_cases (off + k) n).
    + rewrite Z.min_l by lia. f_equal. lia.
    + rewrite Z.min_r by lia.
      rewrite (take_ge (drop (Z.to_nat off) l) (Z.to_nat k))
        by (rewrite length_drop; subst n; lia).
      apply take_ge. rewrite length_drop. subst n. lia.
Qed.

Lemma list_conversations_page env page page_size w :
  healthy env -> 1 <= page -> 1 <= page_size <= 50 ->
  ChatRoutes.list_conversations env page page_size w
  = (Ok (take (Z.to_nat page_size) (drop (Z.to_nat ((page - 1) * page_size)) (listing w))),
     record_events [Log info "Conversations listed"] w).
Proof.
  intros Hh Hp Hk. unfold ChatRoutes.list_conversations, ChatRoutes.route_handlers.
  destruct (Z.ltb_spec page 1); [lia|].
  destruct (Z.ltb_spec page_size 1); [lia|].
  destruct (Z.ltb_spec 50 page_size); [lia|]. cbn [orb].
  unfold MemoryService.list_conversations, JSONStorageBackend.list_conversations,
    try_except, bind, get_world. cbn.
  rewrite (read_summaries_healthy _ _ _ Hh). cbn.
  rewrite py_slice_block by nia.
  unfold listing. rewrite skipn_map, firstn_map. reflexivity.
Qed.

Lemma listing_record_events evs w : listing (record_events evs w) = listing w.
Proof. reflexivity. Qed.

Lemma fetch_conversations_from env k fuel : forall page w,
  healthy env -> 1 <= k <= 50 -> 1 <= page ->
  py_len (drop (Z.to_nat ((page - 1) * k)) (listing w)) < Z.of_nat fuel * k ->
  fst (fetch_conversations fuel env page k w)
  = Ok (drop (Z.to_nat ((page - 1) * k)) (listing w)).
Proof.
  induction fuel as [|fuel IH]; intros page w Hh Hk Hp Hf.
  { unfold py_len in Hf. lia. }
  cbn [fetch_conversations]. unfold bind at 1.
  rewrite (list_conversations_page _ _ _ _ Hh Hp Hk).
  set (rest := drop _ (listing w)) in *.
  unfold py_len in *. rewrite length_take.
  destruct (Z.ltb_spec (Z.of_nat (Z.to_nat k `min` length rest)) k) as [Hs|Hs].
  - unfold ret. cbn [fst]. f_equal. apply take_ge. lia.
  - unfold bind.
    specialize (IH (page + 1) (record_events [Log info "Conversations listed"] w) Hh Hk).
    rewrite listing_record_events in IH.
    assert (Hd : drop (Z.to_nat ((page + 1 - 1) * k)) (listing w)
                 = drop (Z.to_nat k) rest).
    { subst rest. rewrite drop_drop. f_equal. nia. }
    rewrite Hd in IH.
    assert (Hlen : Z.of_nat (length (drop (Z.to_nat k) rest)) < Z.of_nat fuel * k).
    { rewrite length_drop. nia. }
    specialize (IH ltac:(lia) Hlen).
    destruct (fetch_conversations fuel env (page + 1) k _) as [[r|e] w2];
      cbn [fst] in IH; [|discriminate].
    injection IH as ->. unfold ret. cbn [fst]. f_equal. apply take_drop.
Qed.

(** X11.  The conversations listing is paginated without repeats or gaps.
    Over a healthy JSON backend whose data directory holds the files of
    plain session ids (each is then a file [<id>.json] that the glob
    finds), with a page size within 1..50: reading pages 1, 2, ... until a
    short page returns the summary of every stored conversation exactly
    once, by descending file name. *)
Theorem conversations_pages_cover_listing env k fuel w :
  healthy env -> plain_store w -> 1 <= k <= 50 ->
  py_len (listing w) < Z.of_nat fuel * k ->
  fst (fetch_conversations fuel env 1 k w) = Ok (listing w)
  /\ listing w ≡ₚ map (fun file => JSONStorageBackend.summary_of (snd file))
                    (map_to_list (json_files w))
  /\ Sorted JSONStorageBackend.file_after (JSONStorageBackend.sorted_files w).
Proof.
  intros Hh _ Hk Hf. split; [|split].
  - rewrite (fetch_conversations_from env k fuel 1 w Hh Hk ltac:(lia)); [reflexivity|].
    exact Hf.
  - unfold listing, JSONStorageBackend.sorted_files.
    apply fmap_Permutation, merge_sort_Permutation.
  - apply Sorted_merge_sort. intros a b. unfold JSONStorageBackend.file_after.
    destruct (String.leb_total (JSONStorageBackend.file_name (fst b))
                (JSONStorageBackend.file_name (fst a))) as [H|H];
      rewrite H; [left|right]; exact I.
Qed.

Lemma conversations_pages_cover_listing_witness :
  fst (fetch_conversations 3 (test_env memory_json 50 no_faults (Ok []) None) 1 2
         world_with_sessions)
  = Ok (listing world_with_sessions)
  /\ map summary_session_id (listing world_with_sessions) = ["c"; "b"; "a"].
Proof.
  split; [|vm_compute; reflexivity].
  apply (conversations_pages_cover_listing
           (test_env memory_json 50 no_faults (Ok []) None) 2 3 world_with_sessions).
  - intros call. reflexivity.
  - intros sid [c Hc]. unfold world_with_sessions in Hc. cbn [json_files] in Hc.
    apply lookup_insert_Some in Hc as [[<- _]|[_ Hc]]; [reflexivity|].
    apply lookup_insert_Some in Hc as [[<- _]|[_ Hc]]; [reflexivity|].
    apply lookup_singleton_Some in Hc as [<- _]. reflexivity.
  - lia.
  - vm_compute. reflexivity.
Defined.

(** ** What the routes answer to requests they reject *)

(** X12.  A history request with [page < 1] or a page size outside 1..100,
    and a listing request with [page < 1] or a page size outside 1..50, is
    answered with status 500 "Internal server error": the 400 the route
    raises is raised inside its own [try] and caught by the catch-all
    clause, before the memory service is called. *)
Theorem paging_rejections_answer_500 env be sid page page_size w :
  (page < 1 \/ page_size < 1 \/ 100 < page_size ->
   ChatRoutes.get_chat_history env be sid page page_size w
   = (Raise (HTTPException 500 "Internal server error"),
      record_events [Log error "Unexpected error getting history"] w))
  /\ (page < 1 \/ page_size < 1 \/ 50 < page_size ->
      ChatRoutes.list_conversations env page page_size w
      = (Raise (HTTPException 500 "Internal server error"),
         record_events [Log error "Unexpected error listing conversations"] w)).
Proof.
  unfold ChatRoutes.get_chat_history, ChatRoutes.list_conversations,
    ChatRoutes.route_handlers, try_except.
  split; intros H.
  - destruct (Z.ltb_spec page 1); [reflexivity|].
    destruct (Z.ltb_spec page_size 1); [reflexivity|].
    destruct (Z.ltb_spec 100 page_size); [reflexivity|lia].
  - destruct (Z.ltb_spec page 1); [reflexivity|].
    destruct (Z.ltb_spec page_size 1); [reflexivity|].
    destruct (Z.ltb_spec 50 page_size); [reflexivity|lia].
Qed.

Lemma paging_rejections_answer_500_witness :
  fst (ChatRoutes.get_chat_history (test_env memory_json 50 no_faults (Ok []) None)
         backend_json "s1" 0 10 (world_with_log [m0; m1]))
  = Raise (HTTPException 500 "Internal server error")
  /\ fst (ChatRoutes.list_conversations (test_env memory_json 50 no_faults (Ok []) None)
            1 60 (world_with_log [m0; m1]))
     = Raise (HTTPException 500 "Internal server error").
Proof.
  split.
  - rewrite (proj1 (paging_rejections_answer_500
                      (test_env memory_json 50 no_faults (Ok []) None) backend_json "s1"
                      0 10 (world_with_log [m0; m1])) ltac:(lia)).
    reflexivity.
  - rewrite (proj2 (paging_rejections_answer_500
                      (test_env memory_json 50 no_faults (Ok []) None) backend_json "s1"
                      1 60 (world_with_log [m0; m1])) ltac:(lia)).
    reflexivity.
Defined.

(** X13.  The export route never answers 400 or 404: an unsupported
    format, and a session that cannot be loaded, both end in status 500
    "Internal server error". *)
Theorem export_rejections_answer_500 env be sid format w :
  format ∉ ["json"; "txt"; "markdown"]
  \/ fst (MemoryService.load_conversation env be sid w) = Ok None ->
  fst (ChatRoutes.export_conversation env be sid format w)
  = Raise (HTTPException 500 "Internal server error").
Proof.
  intros H.
  unfold ChatRoutes.export_conversation, ChatRoutes.route_handlers, try_except.
  destruct (bool_decide (format ∈ ["json"; "txt"; "markdown"])) eqn:Ef; cbn [negb].
  - destruct H as [H|H]; [apply bool_decide_eq_true in Ef; contradiction|].
    unfold MemoryService.export_conversation, bind.
    destruct (MemoryService.load_conversation env be sid w) as [[c|e] w1];
      cbn [fst] in H; [|discriminate]. injection H as ->. reflexivity.
  - reflexivity.
Qed.

Lemma export_rejections_answer_500_witness :
  fst (ChatRoutes.export_conversation (test_env memory_json 50 no_faults (Ok []) None)
         backend_json "s1" "xml" (world_with_log [m0; m1]))
  = Raise (HTTPException 500 "Internal server error")
  /\ fst (ChatRoutes.export_conversation (test_env memory_json 50 no_faults (Ok []) None)
            backend_json "absent" "json" (world_with_log [m0; m1]))
     = Raise (HTTPException 500 "Internal server error").
Proof.
  split.
  - apply (export_rejections_answer_500 (test_env memory_json 50 no_faults (Ok []) None)
             backend_json "s1" "xml" (world_with_log [m0; m1])).
    left. rewrite !not_elem_of_cons. repeat split; try discriminate.
    apply not_elem_of_nil.
  - apply (export_rejections_answer_500 (test_env memory_json 50 no_faults (Ok []) None)
             backend_json "absent" "json" (world_with_log [m0; m1])).
    right. reflexivity.
Defined.

(** ** The memory service contains every storage error *)

Lemma guarded_never_raises {A} (body : M A) (what : string) (dflt : A) w :
  is_Ok (fst (try_except body (fun e => do logger error what then ret dflt) w)) = true.
Proof. unfold try_except. destruct (body w) as [[a|e] w1]; reflexivity. Qed.

(** X14.  On both backends and for every behaviour of the storage engines,
    [add_message], [load_conversation], [get_conversation_history] (which
    has no handler of its own) and [delete_conversation] return a value: no
    storage error reaches their caller. *)
Theorem memory_service_never_raises env be sid m limit offset w :
  is_Ok (fst (MemoryService.add_message env be sid m w)) = true
  /\ is_Ok (fst (MemoryService.load_conversation env be sid w)) = true
  /\ is_Ok (fst (MemoryService.get_conversation_history env be sid limit offset w)) = true
  /\ is_Ok (fst (MemoryService.delete_conversation env be sid w)) = true.
Proof.
  repeat split.
  - destruct (add_message_never_raises env be sid m w) as (b & w' & ->). reflexivity.
  - destruct (load_conversation_never_raises env be sid w) as (r & w' & ->). reflexivity.
  - destruct (get_conversation_history_never_raises env be sid limit offset w)
      as (r & w' & ->). reflexivity.
  - apply guarded_never_raises.
Qed.

(** X15.  When Redis rejects the deletion, the Redis backend falls back to
    deleting the session's JSON file (for a plain session id, in a data
    directory of such files).  The Redis data is left as it was in every
    case.  The memory service reports [True] when the session has no JSON
    file, and when it has one whose removal succeeds (the file is then gone,
    the other files stay); it reports [False], with every file still there,
    when that removal fails too. *)
Theorem redis_delete_fault_falls_back_to_json env sid w err :
  backend_fault env (RedisDelete sid) = Some err ->
  plain_store w -> plain_session_id sid ->
  let r := MemoryService.delete_conversation env backend_redis sid w in
  redis_messages (snd r) = redis_messages w
  /\ redis_meta (snd r) = redis_meta w
  /\ redis_index (snd r) = redis_index w
  /\ match json_files w !! sid, backend_fault env (JsonDelete sid) with
     | None, _ => fst r = Ok true /\ json_files (snd r) = json_files w
     | Some _, None => fst r = Ok true /\ json_files (snd r) = delete sid (json_files w)
     | Some _, Some _ => fst r = Ok false /\ json_files (snd r) = json_files w
     end.
Proof.
  intros Hf _ _ r. subst r. run. unfold engine. rewrite Hf. cbn.
  destruct (json_files w !! sid) as [c|]; cbn.
  - run; unfold engine. destruct (backend_fault env (JsonDelete sid)); cbn;
      repeat split; reflexivity.
  - repeat split; reflexivity.
Qed.

Lemma redis_delete_fault_falls_back_to_json_witness :
  let env := test_env memory_redis 50
               (fun call => match call with
                            | RedisDelete _ => Some "connection lost"
                            | _ => None
                            end) (Ok []) None in
  let w := mkWorld {["s1" := mkConversation "s1" [m0] 0%nat 0%nat [] None]}
                   {["s1" := [m0]]} ∅ ∅ [] 0%nat 0%nat [] in
  let r := MemoryService.delete_conversation env backend_redis "s1" w in
  fst r = Ok true
  /\ redis_messages (snd r) !! "s1" = Some [m0]
  /\ json_files (snd r) !! "s1" = None.
Proof.
  intros env w r.
  assert (Hp : plain_store w).
  { intros sid [c Hc]. subst w. cbn [json_files] in Hc.
    apply lookup_singleton_Some in Hc as [<- _]. reflexivity. }
  destruct (redis_delete_fault_falls_back_to_json env "s1" w "connection lost" eq_refl
              Hp eq_refl) as (H1 & _ & _ & H4).
  change (json_files w !! "s1")
    with (Some (mkConversation "s1" [m0] 0%nat 0%nat [] None)) in H4.
  change (backend_fault env (JsonDelete "s1")) with (@None string) in H4.
  destruct H4 as [H4 H5]. fold r in H1, H4, H5.
  split; [exact H4|]. split; [rewrite H1; reflexivity|]. rewrite H5. reflexivity.
Defined.

(** ** The provider registry *)

(** X16.  Providers are initialised lazily and once: after [get_provider]
    has returned a provider, asking for it again returns the same provider
    and changes nothing (no second initialisation, no log entry). *)
Theorem get_provider_initializes_once env p w name w1 :
  AIService.get_provider env p w = (Ok name, w1) ->
  AIService.get_provider env p w1 = (Ok name, w1)
  /\ name ∈ registered_providers env /\ name ∈ initialized_providers w1.
Proof.
  unfold AIService.get_provider.
  set (pn := match p with
             | Some p0 => if str_is_empty p0 then ai_provider (settings env) else p0
             | None => ai_provider (settings env)
             end).
  destruct (bool_decide (pn ∈ registered_providers env)) eqn:Er; cbn [negb];
    [|discriminate].
  apply bool_decide_eq_true in Er.
  unfold bind, get_world, try_except, emit, logger, emit, set_initialized_providers,
    ret, raise.
  destruct (bool_decide (pn ∈ initialized_providers w)) eqn:Ei.
  - intros [= <- <-]. rewrite Ei. apply bool_decide_eq_true in Ei. auto.
  - destruct (provider_init_fault env pn); cbn; [discriminate|].
    intros [= <- <-]. cbn.
    rewrite bool_decide_eq_true_2 by (apply elem_of_cons; auto).
    split; [reflexivity|]. split; [exact Er|apply elem_of_cons; auto].
Qed.

Lemma get_provider_initializes_once_witness :
  let env := test_env memory_json 50 no_faults (Ok []) None in
  let w1 := snd (AIService.get_provider env (Some "gemini") empty_world) in
  AIService.get_provider env (Some "gemini") w1 = (Ok "gemini", w1)
  /\ trace w1 = [ProviderInit "gemini"; Log info "provider initialized"].
Proof.
  intros env w1. split; [|reflexivity].
  apply (get_provider_initializes_once env (Some "gemini") empty_world "gemini" w1).
  reflexivity.
Defined.

(** X17.  A provider that is not registered is refused with [ValueError]
    before anything is initialised; a provider whose class fails to
    initialise gives [RuntimeError] and is not remembered, so that the next
    request tries again. *)
Theorem get_provider_failures env name w :
  name <> EmptyString ->
  (name ∉ registered_providers env ->
   AIService.get_provider env (Some name) w
   = (Raise (ValueError "Provider not registered"), w))
  /\ (forall err,
        name ∈ registered_providers env -> name ∉ initialized_providers w ->
        provider_init_fault env name = Some err ->
        AIService.get_provider env (Some name) w
        = (Raise (RuntimeError "Failed to initialize provider"),
           record_events [ProviderInit name; Log error "Failed to initialize provider"] w)).
Proof.
  intros Hn. unfold AIService.get_provider.
  assert (Hs : str_is_empty name = false) by (destruct name; [congruence|reflexivity]).
  rewrite Hs. split.
  - intros Hr. rewrite bool_decide_eq_false_2 by exact Hr. reflexivity.
  - intros err Hr Hi Hf. rewrite bool_decide_eq_true_2 by exact Hr. cbn [negb].
    unfold bind, get_world, try_except, emit, logger, emit, raise, record_events.
    rewrite bool_decide_eq_false_2 by exact Hi. rewrite Hf. cbn.
    rewrite <- app_assoc. reflexivity.
Qed.

Lemma get_provider_failures_witness :
  AIService.get_provider (test_env memory_json 50 no_faults (Ok []) None)
    (Some "anthropic") empty_world
  = (Raise (ValueError "Provider not registered"), empty_world).
Proof.
  apply (get_provider_failures (test_env memory_json 50 no_faults (Ok []) None)
           "anthropic" empty_world).
  - discriminate.
  - cbn. rewrite !not_elem_of_cons. repeat split; try discriminate.
    apply not_elem_of_nil.
Defined.

Lemma collect_models_total env pm names : forall acc w,
  exists m w',
    AIService.collect_models env pm names acc w = (Ok m, w')
    /\ dom m = dom acc ∪ list_to_set names
    /\ forall name models,
         m !! name = Some models ->
         acc !! name = Some models \/ models = []
         \/ exists instance, pm instance = Ok models.
Proof.
  induction names as [|n names IH]; intros acc w.
  - exists acc, w. split; [reflexivity|]. split; [|auto].
    rewrite list_to_set_nil. symmetry. apply (right_id_L ∅ (∪)).
  - cbn [AIService.collect_models]. unfold bind at 1, try_except.
    set (body := bind (AIService.get_provider env (Some n)) _).
    assert (Hb : exists acc1 w1,
               match body w with
               | (Ok a, w') => (Ok a, w')
               | (Raise e, w') =>
                   (let* _ := logger warning "Failed to fetch models for provider" in
                    ret (<[n:=[]]> acc)) w'
               end = (Ok acc1, w1)
               /\ exists models, acc1 = <[n := models]> acc
                  /\ (models = [] \/ exists instance, pm instance = Ok models)).
    { subst body. unfold bind, lift, ret.
      destruct (AIService.get_provider env (Some n) w) as [[inst|e] w1].
      - destruct (pm inst) as [models|e] eqn:Epm.
        + eexists _, _. split; [reflexivity|]. exists models. eauto.
        + eexists _, _. split; [reflexivity|]. exists []. auto.
      - eexists _, _. split; [reflexivity|]. exists []. auto. }
    destruct Hb as (acc1 & w1 & -> & models & -> & Hm).
    destruct (IH (<[n := models]> acc) w1) as (m & w' & E & Hd & He).
    exists m, w'. split; [exact E|]. split.
    + rewrite Hd, dom_insert_L, list_to_set_cons.
      rewrite (comm_L (∪) {[n]} (dom acc)), (assoc_L (∪)). reflexivity.
    + intros name ms Hl. destruct (He name ms Hl) as [H|H]; [|auto].
      destruct (decide (n = name)) as [->|Hne].
      * rewrite lookup_insert_eq in H. injection H as <-. right. exact Hm.
      * rewrite lookup_insert_ne in H by exact Hne. auto.
Qed.

(** X18.  [get_all_available_models] never fails and answers for the whole
    registry: its result has an entry for exactly the registered providers,
    and each entry is what a provider answered or the empty list. *)
Theorem get_all_available_models_covers_registry env pm w :
  exists m w',
    AIService.get_all_available_models env pm w = (Ok m, w')
    /\ dom m = list_to_set (registered_providers env)
    /\ forall name models,
         m !! name = Some models ->
         models = [] \/ exists instance, pm instance = Ok models.
Proof.
  unfold AIService.get_all_available_models.
  destruct (collect_models_total env pm (registered_providers env) ∅ w)
    as (m & w' & E & Hd & He).
  exists m, w'. split; [exact E|]. split.
  - rewrite Hd, dom_empty_L. apply (left_id_L ∅ (∪)).
  - intros name models Hl. destruct (He name models Hl) as [H|H]; [|exact H].
    rewrite lookup_empty in H. discriminate.
Qed.

(** ** The requests the providers build *)

(** *** The closing tag of a wrapped query *)


Lemma str_contains_cons needle c h :
  str_contains needle (String c h)
  = String.prefix needle (String c h) || str_contains needle h.
Proof. reflexivity. Qed.

Lemma prefix_nil_r q : String.prefix q EmptyString = true -> q = EmptyString.
Proof. destruct q; [reflexivity|discriminate]. Qed.

Lemma prefix_cons_inv d q c s :
  String.prefix (String d q) (String c s) = true -> d = c /\ String.prefix q s = true.
Proof. cbn. destruct (ascii_dec d c); [auto|discriminate]. Qed.

Lemma prefix_cons d q s :
  String.prefix q s = true -> String.prefix (String d q) (String d s) = true.
Proof. intros H. cbn. destruct (ascii_dec d d); [exact H|congruence]. Qed.

(** A text that does not contain ["<"] is found at the head of the
    replaced text (followed by [tail], which is empty or starts with ["<"])
    only where it was found in the text itself. *)
Lemma replace_keeps_heads tail :
  tail = EmptyString \/ String.prefix "<" tail = true ->
  forall q, str_contains "<" q = false ->
  forall s,
    String.prefix q (replace_from "</user_query>" "</ user_query>" 0 s +:+ tail) = true ->
    String.prefix q s = true.
Proof.
  intros Ht. induction q as [|d q IH]; intros Hq s H.
  { destruct s; reflexivity. }
  rewrite str_contains_cons in Hq. apply orb_false_iff in Hq as [Hd Hq].
  assert (Hne : d <> "<"%char).
  { intros ->. rewrite (prefix_cons "<" EmptyString q) in Hd by (destruct q; reflexivity).
    discriminate. }
  destruct s as [|c s].
  - change (replace_from "</user_query>" "</ user_query>" 0 EmptyString +:+ tail)
      with tail in H.
    destruct tail as [|t tail]; [apply prefix_nil_r in H; discriminate|].
    destruct Ht as [Ht|Ht]; [discriminate|].
    apply prefix_cons_inv in H as [-> _].
    apply prefix_cons_inv in Ht as [Ht _]. congruence.
  - cbn [replace_from] in H.
    destruct (String.prefix "</user_query>" (String c s)).
    + change ("</ user_query>" +:+ replace_from "</user_query>" "</ user_query>"
                                   (String.length "</user_query>" - 1) s +:+ tail)
        with (String "<" ("/ user_query>" +:+ replace_from "</user_query>" "</ user_query>"
                                   (String.length "</user_query>" - 1) s +:+ tail)) in H.
      apply prefix_cons_inv in H as [H _]. contradiction.
    + cbn [String.append] in H. apply prefix_cons_inv in H as [-> H].
      apply prefix_cons. apply IH; assumption.
Qed.

Lemma prefix_tag_inv c s :
  String.prefix "</user_query>" (String c s) = true ->
  c = "<"%char /\ String.prefix "/user_query>" s = true.
Proof. intros H. apply prefix_cons_inv in H as [<- H]. auto. Qed.

Lemma replace_has_no_tag tail :
  tail = EmptyString \/ String.prefix "<" tail = true ->
  str_contains "</user_query>" tail = false ->
  forall s skip,
    str_contains "</user_query>"
      (replace_from "</user_query>" "</ user_query>" skip s +:+ tail) = false.
Proof.
  intros Ht Htail. induction s as [|c s IH]; intros skip.
  { destruct skip; exact Htail. }
  destruct skip as [|k]; [|apply IH].
  cbn [replace_from].
  destruct (String.prefix "</user_query>" (String c s)) eqn:Ep.
  - change (String.length "</user_query>" - 1)%nat with 12%nat.
    specialize (IH 12%nat).
    set (r := replace_from _ _ 12 s +:+ tail) in *.
    change (("</ user_query>" +:+ replace_from "</user_query>" "</ user_query>" 12 s)
            +:+ tail)
      with ("</ user_query>" +:+ r).
    cbn. exact IH.
  - cbn [String.append]. rewrite str_contains_cons, IH, orb_false_r.
    destruct (String.prefix "</user_query>"
                (String c (replace_from "</user_query>" "</ user_query>" 0 s +:+ tail)))
      eqn:E; [|reflexivity].
    apply prefix_tag_inv in E as [-> E].
    apply (replace_keeps_heads tail Ht) in E; [|reflexivity].
    rewrite (prefix_cons "<" _ _ E) in Ep. discriminate.
Qed.

Lemma prefix_app t post : String.prefix t (t +:+ post) = true.
Proof.
  induction t as [|c t IH]; [destruct post; reflexivity|].
  cbn [String.append]. apply prefix_cons, IH.
Qed.

Lemma str_contains_app t pre post : str_contains t (pre +:+ t +:+ post) = true.
Proof.
  induction pre as [|c pre IH].
  - change (EmptyString +:+ t +:+ post) with (t +:+ post).
    pose proof (prefix_app t post) as H.
    destruct (t +:+ post); cbn [str_contains]; rewrite H; reflexivity.
  - cbn [String.append]. rewrite str_contains_cons, IH. apply orb_true_r.
Qed.

Lemma str_snoc_inv s :
  s <> EmptyString -> exists s' c, s = s' +:+ String c EmptyString.
Proof.
  induction s as [|c s IH]; [congruence|]. intros _.
  destruct s as [|c' s].
  - exists EmptyString, c. reflexivity.
  - destruct IH as (s' & c0 & E); [discriminate|].
    exists (String c s'), c0. cbn [String.append]. rewrite <- E. reflexivity.
Qed.

Lemma str_app_snoc_inj a : forall b c d,
  a +:+ String c EmptyString = b +:+ String d EmptyString -> a = b.
Proof.
  induction a as [|x a IH]; intros [|y b] c d H; cbn [String.append] in H.
  - reflexivity.
  - injection H as _ H. destruct b; discriminate.
  - injection H as _ H. destruct a; discriminate.
  - injection H as -> H. f_equal. exact (IH _ _ _ H).
Qed.

(** X19.  A wrapped user text contains the closing tag [</user_query>]
    exactly once, as its last characters: whatever the text holds, the
    sanitising replacement leaves no closing tag inside the wrapping. *)
Theorem wrapped_query_closes_once text pre post :
  _wrap_user_query text = pre +:+ "</user_query>" +:+ post -> post = EmptyString.
Proof.
  intros H. destruct post as [|p post]; [reflexivity|]. exfalso.
  destruct (str_snoc_inv (String p post)) as (post' & c & Ep); [discriminate|].
  rewrite Ep in H. unfold _wrap_user_query, str_replace in H.
  set (body := replace_from _ _ 0 text) in H.
  assert (Hw : "<user_query>" +:+ body +:+ "</user_query>"
               = ("<user_query>" +:+ body +:+ "</user_query") +:+ ">").
  { rewrite !str_app_assoc. reflexivity. }
  rewrite Hw in H.
  assert (Hr : pre +:+ "</user_query>" +:+ post' +:+ String c EmptyString
               = (pre +:+ "</user_query>" +:+ post') +:+ String c EmptyString).
  { rewrite !str_app_assoc. reflexivity. }
  rewrite Hr in H. apply str_app_snoc_inj in H.
  pose proof (str_contains_app "</user_query>" pre post') as Hc.
  rewrite <- H in Hc.
  change ("<user_query>" +:+ body +:+ "</user_query")
    with ("<user_query>" +:+ (body +:+ "</user_query")) in Hc.
  pose proof (replace_has_no_tag "</user_query" (or_intror eq_refl) eq_refl text 0) as Hn.
  fold body in Hn. set (r := body +:+ "</user_query") in *.
  cbn in Hc. rewrite Hn in Hc. discriminate.
Qed.

Lemma wrapped_query_closes_once_witness :
  _wrap_user_query "2 </user_query> 3"
  = "<user_query>2 </ user_query> 3" +:+ "</user_query>" +:+ EmptyString
  /\ EmptyString = EmptyString.
Proof.
  split; [reflexivity|].
  exact (wrapped_query_closes_once "2 </user_query> 3"
           "<user_query>2 </ user_query> 3" EmptyString eq_refl).
Defined.

(** *** System messages of the context are not sent *)

Section SystemMessages.
Context {B : Type} (f : Message -> list B).
Hypothesis f_system : forall m, role m = system -> f m = [].

Lemma window_without_leading_system x l k :
  role x = system -> 0 <= k ->
  flat_map f (py_slice (x :: l) (Some (- k)) None)
  = flat_map f (py_slice l (Some (- k)) None).
Proof.
  intros Hx Hk. rewrite !py_slice_newest by exact Hk.
  destruct (Z.eqb_spec k 0) as [->|Hnz].
  - cbn [flat_map]. rewrite (f_system x Hx). reflexivity.
  - unfold newest. cbn [length].
    destruct (decide (length l < Z.to_nat k)%nat) as [Hlt|Hge].
    + replace (S (length l) - Z.to_nat k)%nat with 0%nat by lia.
      replace (length l - Z.to_nat k)%nat with 0%nat by lia.
      rewrite !drop_0. cbn [flat_map]. rewrite (f_system x Hx). reflexivity.
    + replace (S (length l) - Z.to_nat k)%nat with (S (length l - Z.to_nat k)) by lia.
      reflexivity.
Qed.

Lemma window_with_other_system x y l k :
  role x = system -> role y = system -> 0 <= k ->
  flat_map f (py_slice (x :: l) (Some (- k)) None)
  = flat_map f (py_slice (y :: l) (Some (- k)) None).
Proof.
  intros Hx Hy Hk.
  rewrite (window_without_leading_system x l k Hx Hk).
  rewrite (window_without_leading_system y l k Hy Hk). reflexivity.
Qed.

Lemma rag_context_window env message context w mc rag w' k :
  0 <= k ->
  AIService._get_rag_context_and_modify_messages env message context w
  = (Ok (mc, rag), w') ->
  flat_map f (py_slice mc (Some (- k)) None)
  = flat_map f (py_slice context (Some (- k)) None).
Proof.
  intros Hk. unfold AIService._get_rag_context_and_modify_messages, bind.
  destruct (VectorMemoryService.query env message (rag_top_k (settings env)) w)
    as [[docs|e] w1]; [|discriminate].
  destruct docs as [|d docs].
  - cbn. intros [= <- _ _]. reflexivity.
  - unfold logger, emit, ret. cbn.
    destruct context as [|first rest]; [|destruct (role first) eqn:Er]; cbn;
      try (destruct (validate_content _); [|discriminate]; unfold ret;
           intros [= <- _ _]; apply window_without_leading_system;
           [reflexivity|exact Hk]).
    intros [= <- _ _]. apply window_with_other_system; [exact Er|exact Er|exact Hk].
Qed.
End SystemMessages.

(** X20.  Both providers build their request from the system prompt of the
    settings and the user and assistant messages of the context window;
    system messages of the context are left out.  The note the retrieval
    step adds lives in a system message, so the request built from the
    context it returns is the request built from the context it was given:
    retrieved documents do not reach the provider's API. *)
Theorem retrieved_documents_never_reach_the_request
    env message context w mc rag w' prompt st :
  0 <= context_window st ->
  AIService._get_rag_context_and_modify_messages env message context w
  = (Ok (mc, rag), w') ->
  OpenAIProvider.build_messages prompt message mc st
  = OpenAIProvider.build_messages prompt message context st
  /\ GeminiProvider._build_conversation_text prompt message mc st
     = GeminiProvider._build_conversation_text prompt message context st.
Proof.
  intros Hk Hr.
  unfold OpenAIProvider.build_messages, GeminiProvider._build_conversation_text.
  split.
  - f_equal. f_equal.
    eapply rag_context_window; [|exact Hk|exact Hr].
    intros m Hm. cbn beta. rewrite Hm. reflexivity.
  - f_equal. f_equal. f_equal.
    eapply rag_context_window; [|exact Hk|exact Hr].
    intros m Hm. cbn beta. rewrite Hm. reflexivity.
Qed.

Lemma retrieved_documents_never_reach_the_request_witness :
  let env := test_env memory_json 50 no_faults (Ok [doc "Paris is in France."]) None in
  exists mc rag w',
    AIService._get_rag_context_and_modify_messages env "Where is Paris?" [m0; m1]
      empty_world = (Ok (mc, rag), w')
    /\ length mc = 3%nat
    /\ OpenAIProvider.build_messages "Be helpful." "Where is Paris?" mc
         default_ChatSettings
       = [mkApiMessage "system" "Be helpful.";
          mkApiMessage "user" "<user_query>msg0</user_query>";
          mkApiMessage "assistant" "msg1";
          mkApiMessage "user" "<user_query>Where is Paris?</user_query>"].
Proof.
  intros env.
  destruct (AIService._get_rag_context_and_modify_messages env "Where is Paris?"
              [m0; m1] empty_world) as [[[mc rag]|e] w'] eqn:E;
    [|vm_compute in E; discriminate].
  exists mc, rag, w'. split; [reflexivity|].
  pose proof (proj1 (retrieved_documents_never_reach_the_request env "Where is Paris?"
                       [m0; m1] empty_world mc rag w' "Be helpful." default_ChatSettings
                       ltac:(cbn; lia) E)) as H.
  vm_compute in E. injection E as <- <- <-. split; [reflexivity|].
  rewrite H. reflexivity.
Defined.

(** ** The message pipeline over the application's own services *)

Lemma quiet_generate_response env message context provider :
  preserves generate_calls (AIService.generate_response env message context provider).
Proof.
  intros w. destruct (generate_response_run env message context provider w)
    as (w' & -> & Hq & _). exact Hq.
Qed.

Lemma quiet_load_conversation env be sid : preserves generate_calls (MemoryService.load_conversation env be sid).
Proof.
  unfold MemoryService.load_conversation, JSONStorageBackend.load_conversation,
    RedisStorageBackend.load_conversation. destruct be; preserves_tac.
Qed.

#[local] Hint Resolve quiet_generate_response quiet_load_conversation : preserves.

Lemma quiet_add_message env be sid m : preserves generate_calls (MemoryService.add_message env be sid m).
Proof.
  unfold MemoryService.add_message, MemoryService.save_conversation,
    JSONStorageBackend.save_conversation, RedisStorageBackend.add_message,
    new_Conversation.
  destruct be; preserves_tac.
Qed.

Lemma quiet_get_conversation_history env be sid limit offset :
  preserves generate_calls (MemoryService.get_conversation_history env be sid limit offset).
Proof. unfold MemoryService.get_conversation_history. preserves_tac. Qed.

Lemma quiet_trigger_research env um ar sid :
  preserves generate_calls (ResearchService.trigger_research_if_needed env um ar sid).
Proof. unfold ResearchService.trigger_research_if_needed. preserves_tac. Qed.

#[local] Hint Resolve quiet_add_message quiet_get_conversation_history
  quiet_trigger_research : preserves.

Lemma quiet_process_message env be sid message :
  preserves generate_calls (MessageHandlerService.process_message env
           (MessageHandlerService.default_services env be) sid message).
Proof.
  unfold MessageHandlerService.process_message.
  cbn [memory_add_message memory_get_conversation_history ai_generate_response
       research_trigger_research_if_needed MessageHandlerService.default_services].
  preserves_tac.
Qed.

Lemma random_choice_member r l x : PromptManager.random_choice r l = Ok x -> x ∈ l.
Proof.
  unfold PromptManager.random_choice.
  destruct (l !! (r mod length l)%nat) as [y|] eqn:E; [|discriminate].
  intros [= <-]. exact (list_elem_of_lookup_2 _ _ _ E).
Qed.

Lemma fallback_response_member env w r :
  fst (AIService._get_fallback_response env w) = Ok r -> r ∈ fallback_texts env.
Proof.
  unfold AIService._get_fallback_response, PromptManager.get_error_message, lift,
    fallback_texts. cbn [fst]. apply random_choice_member.
Qed.

Lemma new_Message_raises_ValidationError env c r sid w e w' :
  new_Message env c r sid w = (Raise e, w') -> exists what, e = ValidationError what.
Proof.
  unfold new_Message, bind, uuid4, lift, utcnow, ret, validate_content. cbn.
  repeat match goal with |- context [if ?b then _ else _] => destruct b end;
    cbn; intros [= <- <-]; eauto.
Qed.

(** Every outcome of [process_message] over the application's services. *)
Lemma process_message_outcome env be sid message w :
  match fst (MessageHandlerService.process_message env
               (MessageHandlerService.default_services env be) sid message w) with
  | Ok r =>
      reply_message r ∈ fallback_texts env /\ reply_role r = "assistant"
      /\ reply_session_id r = effective_session env w sid
  | Raise e =>
      (e = ChatBotException "Empty message" "EMPTY_MESSAGE"
       /\ str_strip (content message) = EmptyString)
      \/ (exists detail, e = AIServiceException "Failed to generate AI response" detail)
      \/ (exists what, e = ValidationError what)
  end.
Proof.
  unfold MessageHandlerService.process_message.
  destruct (str_is_empty (str_strip (content message))) eqn:Ee.
  { cbn. left. split; [reflexivity|]. destruct (str_strip (content message));
      [reflexivity|discriminate]. }
  destruct (session_choice env sid w) as (w0 & E0 & _ & _).
  rewrite (bind_ok _ _ _ _ _ E0). clear E0.
  set (s := effective_session env w sid).
  cbn [memory_add_message memory_get_conversation_history ai_generate_response
       research_trigger_research_if_needed MessageHandlerService.default_services].
  destruct (add_message_never_raises env be s (set_session_id message (Some s)) w0)
    as (b1 & w1 & E1).
  unfold bind at 1.
  rewrite (try_except_ok _ _ w0 tt w1) by (rewrite (bind_ok _ _ _ _ _ E1); reflexivity).
  destruct (get_conversation_history_never_raises env be s 10 0 w1) as (ctx & w2 & E2).
  rewrite (bind_ok _ _ _ _ _ E2).
  destruct (generate_response_run env (content (set_session_id message (Some s)))
              (py_slice ctx None (Some (-1))) None w2) as (w3 & E3 & _ & _).
  unfold bind at 1.
  pose proof (fallback_response_member env w2) as Hmem.
  destruct (fst (AIService._get_fallback_response env w2)) as [r|e].
  2:{ rewrite (try_except_raise _ _ w2 e w3) by exact E3. cbn. right. left. eauto. }
  rewrite (try_except_ok _ _ w2 r w3) by exact E3.
  unfold bind at 1.
  destruct (new_Message env r assistant (Some s) w3) as [[ai|e] w4] eqn:E4.
  2:{ cbn. right. right. exact (new_Message_raises_ValidationError _ _ _ _ _ _ _ E4). }
  destruct (add_message_never_raises env be s ai w4) as (b5 & w5 & E5).
  unfold bind at 1.
  rewrite (try_except_ok _ _ w4 tt w5) by (rewrite (bind_ok _ _ _ _ _ E5); reflexivity).
  unfold bind at 1. cbn [emit].
  match goal with |- context [bind _ _ ?w6] => set (w6' := w6) end.
  destruct (research_is_guarded env (content (set_session_id message (Some s))) r (Some s) w6')
    as (t & E6).
  unfold bind. rewrite E6. cbn. auto.
Qed.

(** X21.  Over the application's own services every reply of
    [process_message] is one of the configured fallback error texts, and no
    provider is asked to generate anything during the request: the pipeline
    inherits the behaviour of [generate_response]. *)
Theorem every_reply_is_a_fallback_text env be sid message w r w' :
  MessageHandlerService.process_message env
    (MessageHandlerService.default_services env be) sid message w = (Ok r, w') ->
  reply_message r ∈ fallback_texts env
  /\ reply_role r = "assistant"
  /\ reply_session_id r = effective_session env w sid
  /\ generate_calls w' = generate_calls w.
Proof.
  intros H. pose proof (process_message_outcome env be sid message w) as Ho.
  pose proof (quiet_process_message env be sid message w) as Hq.
  rewrite H in Ho, Hq. cbn [fst snd] in Ho, Hq. tauto.
Qed.

Lemma every_reply_is_a_fallback_text_witness :
  let env := mkEnv (mkSettings memory_json 50 3 "openai" 86400) no_faults (fun _ => "0000-uuid")
                   (fun _ _ => Ok []) ["openai"; "gemini"] (fun _ => None)
                   (fun _ _ _ => Ok "Paris.") None 0%nat false [] None in
  exists r w',
    MessageHandlerService.process_message env
      (MessageHandlerService.default_services env backend_json) (Some "s1")
      (test_message "u1" "What is the capital of France?" user) empty_world = (Ok r, w')
    /\ reply_message r = "Sorry, something went wrong. Please try again.".
Proof.
  intros env.
  destruct (MessageHandlerService.process_message env
              (MessageHandlerService.default_services env backend_json) (Some "s1")
              (test_message "u1" "What is the capital of France?" user) empty_world)
    as [[r|e] w'] eqn:E; [|vm_compute in E; discriminate].
  exists r, w'. split; [reflexivity|].
  destruct (every_reply_is_a_fallback_text env backend_json (Some "s1") _ _ r w' E)
    as (Hm & _).
  apply list_elem_of_singleton in Hm. exact Hm.
Defined.

(** X22.  For a message whose content passed the validator, the only ways
    [process_message] over the application's services can fail are the
    fallback text being unavailable ([AIServiceException]) or not being
    valid message content ([ValidationError]); it raises neither the
    empty-message error nor a memory error. *)
Theorem process_message_failures env be sid message w raw e :
  validate_content raw = Ok (content message) ->
  fst (MessageHandlerService.process_message env
         (MessageHandlerService.default_services env be) sid message w) = Raise e ->
  (exists detail, e = AIServiceException "Failed to generate AI response" detail)
  \/ (exists what, e = ValidationError what).
Proof.
  intros Hv H. pose proof (process_message_outcome env be sid message w) as Ho.
  rewrite H in Ho. destruct Ho as [[_ He]|Ho]; [|exact Ho]. exfalso.
  pose proof (validate_content_idempotent raw _ Hv) as Hi.
  destruct (validate_content_inv _ _ Hi) as (_ & _ & Hsp).
  apply str_strip_empty_iff in He. congruence.
Qed.

Lemma process_message_failures_witness :
  let env := test_env memory_json 50 no_faults (Ok []) (Some []) in
  fst (MessageHandlerService.process_message env
         (MessageHandlerService.default_services env backend_json) (Some "s1")
         (test_message "u1" "Hello" user) empty_world)
  = Raise (AIServiceException "Failed to generate AI response"
             "Cannot choose from an empty sequence").
Proof.
  intros env.
  destruct (process_message_failures env backend_json (Some "s1")
              (test_message "u1" "Hello" user) empty_world "Hello"
              (AIServiceException "Failed to generate AI response"
                 "Cannot choose from an empty sequence") eq_refl eq_refl)
    as [(d & H)|(d & H)]; reflexivity.
Defined.

(** ** The message route *)

Lemma ChatBotException_is_unbound :
  resolve_name send_message_locals chat_routes_globals "ChatBotException"
  = Raise (NameError "ChatBotException").
Proof. vm_compute. reflexivity. Qed.

(** X23.  Whatever raises inside the message route, the route does not
    raise the [HTTPException] (400 or 500) it means to: its first [except]
    clause names [ChatBotException], which the module [chat] does not
    import, so that matching any exception against it raises [NameError].
    A request that goes through is answered with the handler's reply. *)
Theorem send_message_failure_is_name_error env handler_service request w :
  match fst (send_message env handler_service request w) with
  | Raise e => e = NameError "ChatBotException"
  | Ok resp =>
      exists user_msg w1 result w2,
        new_Message env (request_message request) user (request_session_id request) w
        = (Ok user_msg, w1)
        /\ MessageHandlerService.process_message env handler_service
             (request_session_id request) user_msg w1 = (Ok result, w2)
        /\ response resp = reply_message result
        /\ response_session_id resp = reply_session_id result
        /\ response_message_id resp = reply_message_id result
        /\ response_user_message_id resp = msg_id user_msg
  end.
Proof.
  unfold send_message, try_except, bind at 1.
  destruct (new_Message env (request_message request) user (request_session_id request) w)
    as [[user_msg|e] w1] eqn:E1.
  2:{ unfold bind, lift. rewrite ChatBotException_is_unbound. reflexivity. }
  unfold bind at 1.
  destruct (MessageHandlerService.process_message env handler_service
              (request_session_id request) user_msg w1) as [[result|e] w2] eqn:E2.
  2:{ unfold bind, lift. rewrite ChatBotException_is_unbound. reflexivity. }
  unfold bind, utcnow, ret. cbn. exists user_msg, w1, result, w2. auto 10.
Qed.

(** A request whose handling fails: the fallback texts are configured as an
    empty list, so that no reply can be produced. *)
Example send_message_raises_name_error :
  let env := test_env memory_json 50 no_faults (Ok []) (Some []) in
  fst (send_message env (MessageHandlerService.default_services env backend_json)
         (mkChatRequest "Hello" (Some "s1")) empty_world)
  = Raise (NameError "ChatBotException").
Proof. vm_compute. reflexivity. Qed.

(** ** The fallback texts *)

(** X24.  [get_error_message] returns one of the configured error messages
    (the built-in text when the prompts have no such entry) and fails, with
    the [IndexError] of [random.choice], exactly when the configured list is
    empty. *)
Theorem get_error_message_outcomes env w :
  match fst (PromptManager.get_error_message env w) with
  | Ok text => text ∈ fallback_texts env
  | Raise e =>
      error_messages env = Some []
      /\ e = IndexError "Cannot choose from an empty sequence"
  end
  /\ snd (PromptManager.get_error_message env w) = w.
Proof.
  unfold PromptManager.get_error_message, lift, fallback_texts,
    PromptManager.random_choice. cbn [fst snd]. split; [|reflexivity].
  destruct (error_messages env) as [l|]; cbn [default]; unfold id.
  - destruct l as [|x l].
    + rewrite lookup_nil. auto.
    + destruct ((x :: l) !! (random_index env mod length (x :: l))%nat) as [y|] eqn:E.
      * exact (list_elem_of_lookup_2 _ _ _ E).
      * apply lookup_ge_None in E.
        pose proof (Nat.mod_upper_bound (random_index env) (length (x :: l))
                      ltac:(discriminate)). lia.
  - destruct (_ !! _) as [y|] eqn:E.
    + exact (list_elem_of_lookup_2 _ _ _ E).
    + apply lookup_ge_None in E. cbn [length] in E.
      pose proof (Nat.mod_upper_bound (random_index env) 1 ltac:(discriminate)). lia.
Qed.

(** ** What the backends write is what they read *)

(** X25.  The encodings the backends store are lossless for validated
    conversations: the text the JSON backend writes for a conversation
    parses back to that conversation, and the text the Redis backend pushes
    for each message parses back to that message. *)
Theorem stored_encodings_round_trip fresh c :
  validated c ->
  parse_raw fresh (model_dump_json None c) = Ok c
  /\ Forall (fun m => Message_parse_raw fresh (Message_model_dump_json m) = Ok m)
            (messages c).
Proof.
  intros Hv. split; [apply parse_raw_model_dump_json; exact Hv|].
  unfold validated in Hv. eapply Forall_impl; [exact Hv|].
  intros m Hm. unfold Message_parse_raw, Message_model_dump_json.
  rewrite parse_json_print_json. apply Message_round_trip. exact Hm.
Qed.

Lemma stored_encodings_round_trip_witness :
  parse_raw ("fresh-id", 7%nat)
    (model_dump_json None (mkConversation "s1" [m0; m1] 3%nat 4%nat [] (Some "Trip")))
  = Ok (mkConversation "s1" [m0; m1] 3%nat 4%nat [] (Some "Trip")).
Proof.
  apply (stored_encodings_round_trip ("fresh-id", 7%nat)
           (mkConversation "s1" [m0; m1] 3%nat 4%nat [] (Some "Trip"))).
  repeat constructor; [exists "msg0"|exists "msg1"]; reflexivity.
Defined.

(** ** Streaming *)

(** X26.  The streaming variant of generation does reach the provider: once
    the provider is obtained and retrieval has answered, the consumer
    receives the provider's chunks for the context retrieval returned, and
    after them the fallback text if the provider's stream broke off. *)
Theorem streaming_delivers_the_provider_chunks
    env provider_stream message context provider w name w1 mc rag w2 :
  AIService.get_provider env provider w = (Ok name, w1) ->
  AIService._get_rag_context_and_modify_messages env message context w1
  = (Ok (mc, rag), w2) ->
  fst (AIService.generate_streaming_response env provider_stream message context
         provider w)
  = Ok (match provider_stream name message mc with
        | (chunks, None) => (chunks, None)
        | (chunks, Some e) =>
            match fst (AIService._get_fallback_response env w2) with
            | Ok fallback => (chunks ++ [fallback], None)
            | Raise e' => (chunks, Some e')
            end
        end).
Proof.
  intros Hp Hr. unfold AIService.generate_streaming_response, try_except, bind at 1.
  unfold bind at 1. rewrite Hp. unfold bind at 1. rewrite Hr.
  unfold bind, logger, emit, ret. cbn.
  destruct (provider_stream name message mc) as [chunks [e|]]; cbn; [|reflexivity].
  unfold AIService._get_fallback_response, PromptManager.get_error_message, lift. cbn.
  destruct (PromptManager.random_choice _ _); reflexivity.
Qed.

Lemma streaming_delivers_the_provider_chunks_witness :
  let env := test_env memory_json 50 no_faults (Ok []) None in
  fst (AIService.generate_streaming_response env
         (fun _ _ _ => (["Par"; "is"], None)) "Capital of France?" [m0] None empty_world)
  = Ok (["Par"; "is"], None).
Proof.
  intros env.
  rewrite (streaming_delivers_the_provider_chunks env (fun _ _ _ => (["Par"; "is"], None))
             "Capital of France?" [m0] None empty_world "openai"
             (snd (AIService.get_provider env None empty_world)) [m0] false
             (snd (AIService._get_rag_context_and_modify_messages env
                     "Capital of France?" [m0]
                     (snd (AIService.get_provider env None empty_world))))
             eq_refl eq_refl).
  reflexivity.
Defined.

(** ** The research trigger *)

Lemma prefix_inv t : forall s, String.prefix t s = true -> exists post, s = t +:+ post.
Proof.
  induction t as [|d t IH]; intros s H.
  - exists s. reflexivity.
  - destruct s as [|c s]; [apply prefix_nil_r in H; discriminate|].
    apply prefix_cons_inv in H as [-> H]. destruct (IH s H) as (post & ->).
    exists post. reflexivity.
Qed.

Lemma str_contains_inv t s :
  str_contains t s = true -> exists pre post, s = pre +:+ t +:+ post.
Proof.
  induction s as [|c s IH].
  - cbn [str_contains]. rewrite orb_false_r. intros H.
    destruct (prefix_inv _ _ H) as (post & E). exists EmptyString, post. exact E.
  - rewrite str_contains_cons. intros H. apply orb_true_iff in H as [H|H].
    + destruct (prefix_inv _ _ H) as (post & E). exists EmptyString, post. exact E.
    + destruct (IH H) as (pre & post & ->). exists (String c pre), post. reflexivity.
Qed.

Lemma str_contains_iff t s :
  str_contains t s = true <-> exists pre post, s = pre +:+ t +:+ post.
Proof.
  split; [apply str_contains_inv|]. intros (pre & post & ->). apply str_contains_app.
Qed.

(** The code points below 256 that [lower_char] changes are those that
    [str.lower] changes: A-Z and U+00C0-U+00DE without U+00D7, each moved up
    by 32. *)
Lemma lower_char_changes :
  List.filter (fun n => negb (nat_of_ascii (lower_char (ascii_of_nat n)) =? n)%nat)
              (seq 0 256)
  = seq 65 26 ++ seq 192 23 ++ seq 216 7
  /\ forallb (fun n => (nat_of_ascii (lower_char (ascii_of_nat n)) =? n + 32)%nat)
             (seq 65 26 ++ seq 192 23 ++ seq 216 7) = true.
Proof. vm_compute. split; reflexivity. Qed.

(** X27.  [research_and_learn.delay] is called exactly when the worker is
    available and the reply contains one of the configured trigger phrases,
    both lowered by [str.lower] (text of code points below 256); it is then
    called once, with the user's message as the question. *)
Theorem research_is_triggered_by_phrases env user_message ai_response sid w :
  let w' := snd (ResearchService.trigger_research_if_needed env user_message
                   ai_response sid w) in
  (celery_available env = true
   /\ exists trigger pre post,
        trigger ∈ research_triggers env
        /\ str_lower ai_response = pre +:+ str_lower trigger +:+ post)
  <-> trace w' = trace w ++ [Log info "Triggering research_and_learn Celery task";
                            CeleryDelay user_message].
Proof.
  unfold ResearchService.trigger_research_if_needed.
  destruct (celery_available env); cbn [negb].
  2:{ cbn. split; [intros [H _]; discriminate|].
      intros H. apply (f_equal length) in H. rewrite !length_app in H. cbn in H. lia. }
  destruct (existsb _ (research_triggers env)) eqn:Ex.
  - assert (Ht : trace (snd ((do logger info "Triggering research_and_learn Celery task"
                              then do emit (CeleryDelay user_message)
                              then match celery_fault env with
                                   | Some err => raise (ExternalError err)
                                   | None => ret tt
                                   end) w))
                 = trace w ++ [Log info "Triggering research_and_learn Celery task";
                               CeleryDelay user_message]).
    { unfold bind, logger, emit. cbn. destruct (celery_fault env); cbn;
        rewrite <- app_assoc; reflexivity. }
    cbn zeta. split; [intros _; exact Ht|]. intros _. split; [reflexivity|].
    apply existsb_exists in Ex as (trigger & Hin & Hc).
    apply str_contains_inv in Hc as (pre & post & E).
    exists trigger, pre, post. split; [apply list_elem_of_In; exact Hin|exact E].
  - cbn. split.
    + intros (_ & trigger & pre & post & Hin & E). exfalso.
      assert (existsb (fun t => str_contains (str_lower t) (str_lower ai_response))
                (research_triggers env) = true) as Hx.
      { apply existsb_exists. exists trigger. split; [apply list_elem_of_In; exact Hin|].
        rewrite E. apply str_contains_app. }
      rewrite Hx in Ex. discriminate.
    + intros H. apply (f_equal length) in H. rewrite !length_app in H. cbn in H. lia.
Qed.

(** A trigger with a Latin-1 capital: the phrase U+00C9 "t" U+00E9 is found
    in the reply "en " U+00E9 "t" U+00E9. *)
Example research_trigger_with_latin1_capital :
  let e_acute := ascii_of_nat 233 in
  let trigger := String (ascii_of_nat 201) (String "t" (String e_acute EmptyString)) in
  let reply := "en " +:+ String e_acute (String "t" (String e_acute EmptyString)) in
  let env := mkEnv (mkSettings memory_json 50 3 "openai" 86400) no_faults
                   (fun _ => "0000-uuid") (fun _ _ => Ok []) ["openai"] (fun _ => None)
                   (fun _ _ _ => Ok reply) None 0%nat true [trigger] None in
  trace (snd (ResearchService.trigger_research_if_needed env "Question" reply None
                empty_world))
  = [Log info "Triggering research_and_learn Celery task"; CeleryDelay "Question"].
Proof. vm_compute. reflexivity. Qed.

(** ** Counts and time stamps *)

(** X28.  For a page that starts inside the log, the history route reports
    the length of the whole log as [total_messages], never returns more than
    [page_size] messages, and sets [has_more] exactly when more than
    [page_size] messages are left once the newest [offset] ones are set
    aside. *)
Theorem history_route_counts env sid page page_size w c :
  healthy env ->
  json_files w !! sid = Some c ->
  1 <= page -> 1 <= page_size <= 100 ->
  (page - 1) * page_size <= py_len (messages c) ->
  exists h w',
    ChatRoutes.get_chat_history env backend_json sid page page_size w = (Ok h, w')
    /\ total_messages h = py_len (messages c)
    /\ py_len (history_messages h)
       = Z.min page_size (py_len (messages c) - (page - 1) * page_size)
    /\ (has_more h = true
        <-> page_size < py_len (messages c) - (page - 1) * page_size).
Proof.
  intros Hh Hf Hp Hs Ho.
  unfold ChatRoutes.get_chat_history, ChatRoutes.route_handlers, try_except.
  destruct (Z.ltb_spec page 1); [lia|].
  destruct (Z.ltb_spec page_size 1); [lia|].
  destruct (Z.ltb_spec 100 page_size); [lia|]. cbn [orb].
  unfold bind at 1. unfold MemoryService.get_conversation_history at 1. unfold bind at 1.
  rewrite (load_conversation_json_healthy env sid w c Hh Hf). unfold ret at 1.
  assert (Ho0 : 0 <= (page - 1) * page_size) by nia.
  set (offset := (page - 1) * page_size) in *.
  rewrite (py_slice_window (messages c) (page_size + 1) offset) by lia.
  set (win := newest (page_size + 1) _).
  assert (Hwin : py_len win = Z.min (py_len (messages c) - offset) (page_size + 1)).
  { subst win. rewrite newest_length by lia. unfold py_len in *. rewrite length_take. lia. }
  set (w1 := snd (logger info "Conversation loaded" w)).
  assert (Hf1 : json_files w1 !! sid = Some c) by exact Hf.
  unfold bind at 1.
  rewrite (load_conversation_json_healthy env sid w1 c Hh Hf1).
  unfold bind, logger, emit, ret. cbn [fst snd].
  eexists _, _. split; [reflexivity|]. cbn [total_messages history_messages has_more].
  split; [reflexivity|].
  destruct (Z.ltb_spec page_size (py_len win)) as [Hlt|Hge].
  - split.
    + unfold py_slice, py_index, py_len in *. cbn [from_option].
      destruct (Z.ltb_spec page_size 0); [lia|].
      rewrite Z.min_l by lia. cbn [Z.to_nat]. rewrite drop_0, Z.sub_0_r, length_take. lia.
    + split; [lia|reflexivity].
  - split; [lia|]. split; [discriminate|lia].
Qed.

Lemma history_route_counts_witness :
  exists h w',
    ChatRoutes.get_chat_history (test_env memory_json 50 no_faults (Ok []) None)
      backend_json "s1" 1 2 (world_with_log [m0; m1; m2]) = (Ok h, w')
    /\ total_messages h = 3 /\ py_len (history_messages h) = 2 /\ has_more h = true.
Proof.
  destruct (history_route_counts (test_env memory_json 50 no_faults (Ok []) None) "s1" 1 2
              (world_with_log [m0; m1; m2])
              (mkConversation "s1" [m0; m1; m2] 0%nat 0%nat [] None))
    as (h & w' & E & Ht & Hl & Hm).
  - intros call. reflexivity.
  - reflexivity.
  - lia.
  - lia.
  - vm_compute. discriminate.
  - exists h, w'. split; [exact E|]. split; [exact Ht|]. split; [exact Hl|].
    apply Hm. vm_compute. reflexivity.
Defined.

(** X29.  On the JSON backend with healthy storage engines, an append to
    a session whose file holds a conversation of that session succeeds and
    keeps what the conversation had: its creation time, title and metadata
    stay, and [updated_at] becomes the time of the append. *)
Theorem json_append_keeps_created_at env sid m w c :
  healthy env -> session_consistent w sid ->
  json_files w !! sid = Some c ->
  exists w1 c1,
    MemoryService.add_message env backend_json sid m w = (Ok true, w1)
    /\ json_files w1 !! sid = Some c1
    /\ created_at c1 = created_at c
    /\ updated_at c1 = clock w
    /\ title c1 = title c /\ conv_metadata c1 = conv_metadata c.
Proof.
  intros Hh Hc Hf. unfold session_consistent in Hc. rewrite Hf in Hc. subst sid.
  run. cbn. rewrite Hf. cbn. step Hh.
  destruct (_ <? _); cbn; step Hh; eexists _, _; (split; [reflexivity|]); cbn;
    rewrite lookup_insert_eq; (split; [reflexivity|]); cbn; auto.
Qed.

Lemma json_append_keeps_created_at_witness :
  exists w1 c1,
    MemoryService.add_message (test_env memory_json 50 no_faults (Ok []) None)
      backend_json "s1" m2
      (mkWorld {["s1" := mkConversation "s1" [m0; m1] 3%nat 5%nat [] (Some "Trip")]}
               ∅ ∅ ∅ [] 0%nat 9%nat []) = (Ok true, w1)
    /\ json_files w1 !! "s1" = Some c1
    /\ created_at c1 = 3%nat /\ updated_at c1 = 9%nat.
Proof.
  destruct (json_append_keeps_created_at (test_env memory_json 50 no_faults (Ok []) None)
              "s1" m2
              (mkWorld {["s1" := mkConversation "s1" [m0; m1] 3%nat 5%nat [] (Some "Trip")]}
                       ∅ ∅ ∅ [] 0%nat 9%nat [])
              (mkConversation "s1" [m0; m1] 3%nat 5%nat [] (Some "Trip")))
    as (w1 & c1 & E & Hf & Hc & Hu & _).
  - intros call. reflexivity.
  - reflexivity.
  - reflexivity.
  - exists w1, c1. auto.
Defined.

(** X30.  On the Redis backend [add_message] never writes a creation time.
    With healthy storage engines, a retention limit of at least 1 and a
    positive time to live: after an append to a session that had no
    metadata hash, a load from any later world with the same store returns
    the conversation with [created_at] set to the time of the load, and with
    [updated_at] the time of the append. *)
Theorem redis_created_at_is_load_time env sid m w w2 :
  healthy env -> 1 <= max_history_messages (settings env) ->
  0 < redis_ttl (settings env) ->
  redis_meta w !! sid = None ->
  store_of w2 = store_of (snd (MemoryService.add_message env backend_redis sid m w)) ->
  exists c w3,
    MemoryService.load_conversation env backend_redis sid w2 = (Ok (Some c), w3)
    /\ created_at c = clock w2
    /\ updated_at c = clock w.
Proof.
  intros Hh HN Ht Hm. run. cbn. step Hh. rewrite Hm. cbn.
  rewrite !expire_positive by exact Ht.
  rewrite ltrim_tail by (try lia; destruct (default [] (redis_messages w !! sid)); discriminate).
  set (l := newest _ _).
  assert (l <> []).
  { subst l. unfold newest. intros E. apply (f_equal length) in E.
    rewrite length_drop, length_app in E. simpl in E. lia. }
  unfold RedisStorageBackend.store_list. destruct l as [|x l'] eqn:El; [congruence|].
  unfold store_of. cbn. intros [= _ H2 H3 _]. rewrite H2, H3, !lookup_insert_eq. cbn.
  eexists _, _. split; [reflexivity|]. cbn. split; reflexivity.
Qed.

Lemma redis_created_at_is_load_time_witness :
  let env := test_env memory_redis 50 no_faults (Ok []) None in
  let w1 := snd (MemoryService.add_message env backend_redis "s1" m0 empty_world) in
  let later := mkWorld (json_files w1) (redis_messages w1) (redis_meta w1) (redis_index w1)
                       [] 0%nat 100%nat [] in
  exists c w3,
    MemoryService.load_conversation env backend_redis "s1" later = (Ok (Some c), w3)
    /\ created_at c = 100%nat /\ updated_at c = 0%nat.
Proof.
  intros env w1 later.
  apply (redis_created_at_is_load_time env "s1" m0 empty_world later).
  - intros call. reflexivity.
  - simpl. lia.
  - simpl. lia.
  - reflexivity.
  - reflexivity.
Defined.
